(** * NewspaperBrowser: ingestion core, repositories and browse routes

    A shallow embedding of the Python backend
    ([app/repositories], [app/routes], [app/services]) together with the
    properties stated about it.

    - Python values that cross the record-store boundary (JSON cells,
      dictionaries) are values of [pyval]; a [dict] is a [gmap string pyval].
    - The record store is a finite map from table names to tables, each a
      list of rows; a row is a dictionary from column names to cells.
    - Code that reads or writes the store runs in a small state-and-exception
      monad [M]: a raised exception keeps the writes that happened before it.
    - UUIDs, dates and timestamps are represented by their text, the form in
      which they cross the store boundary ([str(id)], [str(issue_date)]). *)

From stdpp Require Import gmap strings list fin_maps sorting pretty.
From Stdlib Require Import ZArith Ascii PrimFloat.

Set Warnings "-register-all".

Local Open Scope Z_scope.

(** ** Python values *)

Inductive pyval : Type :=
| PNone
| PBool (b : bool)
| PInt (n : Z)
| PFloat (f : float)
| PStr (s : string)
| PList (l : list pyval)
| PDict (d : gmap string pyval).

Abbreviation dict := (gmap string pyval).

(** [v is not None] *)
Definition is_not_None (v : pyval) : bool :=
  match v with PNone => false | _ => true end.

(** Truth value of a Python object ([if v:], [v or w], [not v]). *)
Definition truthy (v : pyval) : bool :=
  match v with
  | PNone => false
  | PBool b => b
  | PInt n => negb (n =? 0)
  | PFloat f => negb (PrimFloat.eqb f 0%float)
  | PStr s => negb (String.eqb s "")
  | PList l => match l with [] => false | _ => true end
  | PDict d => negb (bool_decide (d = ∅))
  end.

(** ** Exceptions *)

Inductive exn : Type :=
| ValueError (msg : string)
| TypeError (msg : string)
| AttributeError (msg : string)
| ValidationError (model : string)
| APIError (msg : string)
| HTTPException (status_code : Z) (detail : string)
| Exception (msg : string) (cause : option exn).

(** [str(e)] *)
Definition exn_str (e : exn) : string :=
  match e with
  | ValueError m | TypeError m | AttributeError m | APIError m => m
  | ValidationError m => "validation error for " +:+ m
  | HTTPException c d => pretty c +:+ ": " +:+ d
  | Exception m _ => m
  end.

(** [e.__cause__] *)
Definition exn_cause (e : exn) : option exn :=
  match e with
  | Exception _ c => c
  | _ => None
  end.

Inductive result (A : Type) : Type :=
| Ok (a : A)
| Raise (e : exn).
Arguments Ok {A} a.
Arguments Raise {A} e.

(** [needle in hay] on strings. *)
Definition py_in (needle hay : string) : Prop :=
  ∃ pre post : string, hay = pre +:+ needle +:+ post.

(** ** Python list and integer operations used by the code *)

(** [l[-n:]] for a non-negative [n]: the last [n] elements, the whole list
    when it is shorter. *)
Definition py_last {A} (n : nat) (l : list A) : list A :=
  drop (length l - n)%nat l.

(** [l[:n]] for any integer [n]: a negative bound counts from the end. *)
Definition py_slice_to {A} (n : Z) (l : list A) : list A :=
  if 0 <=? n then take (Z.to_nat n) l
  else take (length l - Z.to_nat (- n))%nat l.

(** [v + 1] *)
Definition py_add1 (v : pyval) : result pyval :=
  match v with
  | PBool b => Ok (PInt (Z.b2z b + 1))
  | PInt n => Ok (PInt (n + 1))
  | PFloat f => Ok (PFloat (f + 1)%float)
  | PNone => Raise (TypeError "unsupported operand type(s) for +: NoneType and int")
  | PStr _ => Raise (TypeError "can only concatenate str to str")
  | PList _ => Raise (TypeError "can only concatenate list to list")
  | PDict _ => Raise (TypeError "unsupported operand type(s) for +: dict and int")
  end.

(** [v.append(x)] followed by reading [v] back: only lists have [append]. *)
Definition py_append (v : pyval) (x : pyval) : result (list pyval) :=
  match v with
  | PList l => Ok (l ++ [x])
  | _ => Raise (AttributeError "object has no attribute append")
  end.

(** [s.lower()] on ASCII text. *)
Definition ascii_lower (c : ascii) : ascii :=
  let n := nat_of_ascii c in
  if ((65 <=? n) && (n <=? 90))%nat then ascii_of_nat (n + 32) else c.

Fixpoint lower (s : string) : string :=
  match s with
  | EmptyString => EmptyString
  | String c s' => String (ascii_lower c) (lower s')
  end.

(** ** The record store

    The store client ([supabase.table(name)...execute()]) is outside the
    repository; it is modelled by what its requests do to the tables.
    A table that holds no row is absent from the map. The schema is not
    part of the repository either: [server_defaults] stands for it, giving
    the cells the store supplies for a new row of a table (generated id,
    timestamps, column defaults, NULLs) as a function of the table and of
    [clock], the number of rows the store has created so far. [requests]
    is the history of the requests the store has executed, oldest first. *)

Inductive request : Type :=
| ReqSelect (table_name : string) (conds : list (string * pyval))
    (order : option (string * bool)) (limit offset : option Z)
| ReqMaybeSingle (table_name : string) (conds : list (string * pyval))
| ReqUpdate (table_name : string) (data : dict)
    (conds : list (string * pyval))
| ReqUpsert (table_name : string) (data : dict) (on_conflict : string)
| ReqInsert (table_name : string) (data : dict)
| ReqDelete (table_name : string) (conds : list (string * pyval))
| ReqCount (table_name : string).

Record db : Type := mkDb {
  tables : gmap string (list dict);
  server_defaults : string → nat → dict;
  clock : nat;
  requests : list request;
}.

Definition rows_of (s : db) (table_name : string) : list dict :=
  default [] (tables s !! table_name).

Definition set_rows (s : db) (table_name : string) (rows : list dict) : db :=
  {| tables := <[table_name := rows]> (tables s);
     server_defaults := server_defaults s;
     clock := clock s;
     requests := requests s |}.

Definition log_request (q : request) (s : db) : db :=
  {| tables := tables s;
     server_defaults := server_defaults s;
     clock := clock s;
     requests := requests s ++ [q] |}.

(** SQL equality of a cell with a request value: text and integers compare
    by value, NULL and structured cells never match. *)
Definition sql_eq (cell v : pyval) : bool :=
  match cell, v with
  | PStr a, PStr b => String.eqb a b
  | PInt a, PInt b => a =? b
  | PBool a, PBool b => Bool.eqb a b
  | _, _ => false
  end.

(** [.eq(col, v)] filters, conjoined. *)
Definition matches (conds : list (string * pyval)) (r : dict) : bool :=
  forallb (λ '(col, v), match r !! col with
                        | Some cell => sql_eq cell v
                        | None => false
                        end) conds.

(** ** The state-and-exception monad *)

Definition M (A : Type) : Type := db → result A * db.

#[global] Instance M_ret : MRet M := λ A a s, (Ok a, s).
#[global] Instance M_bind : MBind M := λ A B k m s,
  match m s with
  | (Ok a, s') => k a s'
  | (Raise e, s') => (Raise e, s')
  end.

Definition raise {A} (e : exn) : M A := λ s, (Raise e, s).

(** Lift a pure computation that may raise. *)
Definition lift {A} (r : result A) : M A := λ s, (r, s).

(** ** Store requests

    What [supabase.table(t).<request>.execute()] does, following the
    PostgREST interface the client speaks. [response.data] is the value
    returned. Every request is recorded in the history. Request columns
    are not checked against a schema; of the store's constraints, the
    unique constraints the repositories name are modelled: an insert that
    violates one is rejected, and an upsert resolves its conflict target. *)

(** Ordering of two cells of one column, ascending; NULLs sort last. *)
Definition cell_le (a b : pyval) : bool :=
  match a, b with
  | _, PNone => true
  | PNone, _ => false
  | PInt x, PInt y => x <=? y
  | PStr x, PStr y => String.leb x y
  | _, _ => true
  end.

Definition row_le (col : string) (desc : bool) (r1 r2 : dict) : Prop :=
  let c1 := default PNone (r1 !! col) in
  let c2 := default PNone (r2 !! col) in
  Is_true (if desc then cell_le c2 c1 else cell_le c1 c2).

#[global] Instance row_le_dec col desc r1 r2 : Decision (row_le col desc r1 r2).
Proof. unfold row_le. apply _. Defined.

(** [.order(col, desc=...)], absent when the request has no ordering.
    Without it the store may return the rows in any order; the model
    returns them in table order. *)
Definition order_rows (order : option (string * bool)) (rows : list dict)
  : list dict :=
  match order with
  | None => rows
  | Some (col, desc) => merge_sort (row_le col desc) rows
  end.

(** [.limit(n)] and [.offset(k)], absent when the request has none. *)
Definition limit_rows (limit : option Z) (rows : list dict) : list dict :=
  match limit with
  | None => rows
  | Some n => take (Z.to_nat n) rows
  end.

Definition offset_rows (offset : option Z) (rows : list dict) : list dict :=
  match offset with
  | None => rows
  | Some k => drop (Z.to_nat k) rows
  end.

(** The rows a [select("*")] request yields: filter, order, skip, cut. *)
Definition query_rows (conds : list (string * pyval))
    (order : option (string * bool)) (limit offset : option Z)
    (rows : list dict) : list dict :=
  limit_rows limit (offset_rows offset
    (order_rows order (List.filter (matches conds) rows))).

(** [.select("*")...execute()] *)
Definition select_rows (table_name : string) (conds : list (string * pyval))
    (order : option (string * bool)) (limit offset : option Z)
  : M (list dict) :=
  λ s, (Ok (query_rows conds order limit offset (rows_of s table_name)),
        log_request (ReqSelect table_name conds order limit offset) s).

(** [.select("*")...maybe_single().execute()]: no row gives [data = None],
    one row gives the row, more than one is an API error. *)
Definition select_maybe_single (table_name : string)
    (conds : list (string * pyval)) : M (option dict) :=
  λ s, let s' := log_request (ReqMaybeSingle table_name conds) s in
       match List.filter (matches conds) (rows_of s table_name) with
       | [] => (Ok None, s')
       | [r] => (Ok (Some r), s')
       | _ => (Raise (APIError "JSON object requested, multiple rows returned"),
               s')
       end.

(** [.update(data)...execute()]: every matching row takes the cells of
    [data] and keeps its other cells; the updated rows are returned. A
    request with no column touches nothing and returns no row. *)
Definition exec_update (table_name : string) (data : dict)
    (conds : list (string * pyval)) : M (list dict) :=
  λ s, let s' := log_request (ReqUpdate table_name data conds) s in
       if bool_decide (data = ∅) then (Ok [], s')
       else
         let rows := rows_of s table_name in
         (Ok ((λ r, data ∪ r) <$> List.filter (matches conds) rows),
          set_rows s' table_name
            ((λ r, if matches conds r then data ∪ r else r) <$> rows)).

(** Splitting the [on_conflict] column list at commas. *)
Fixpoint split_commas_aux (cur : string) (s : string) : list string :=
  match s with
  | EmptyString => [String.rev cur]
  | String c s' =>
      if Ascii.eqb c ","%char then String.rev cur :: split_commas_aux "" s'
      else split_commas_aux (String c cur) s'
  end.

Definition split_commas (s : string) : list string := split_commas_aux "" s.

(** A stored row conflicts with new data when it agrees with it on every
    column of the conflict target. *)
Definition conflicts (cols : list string) (data r : dict) : bool :=
  forallb (λ col, match data !! col, r !! col with
                  | Some v, Some cell => sql_eq cell v
                  | _, _ => false
                  end) cols.

(** [.upsert(data, on_conflict=cols).execute()]: a row that conflicts on
    the target columns is updated in place, otherwise a new row is
    appended; the written row is returned. *)
Definition exec_upsert (table_name : string) (data : dict)
    (on_conflict : string) : M (list dict) :=
  λ s, let s' := log_request (ReqUpsert table_name data on_conflict) s in
       let rows := rows_of s table_name in
       let cols := split_commas on_conflict in
       if existsb (conflicts cols data) rows then
         (Ok ((λ r, data ∪ r) <$> List.filter (conflicts cols data) rows),
          set_rows s' table_name
            ((λ r, if conflicts cols data r then data ∪ r else r) <$> rows))
       else
         let new := data ∪ server_defaults s table_name (clock s) in
         (Ok [new],
          {| tables := <[table_name := rows ++ [new]]> (tables s);
             server_defaults := server_defaults s;
             clock := S (clock s);
             requests := requests s' |}).

(** The unique constraints the repositories name. [create_or_get] of
    issues relies on UNIQUE (newspaper_id, issue_date), [create_or_get] of
    pages on UNIQUE (issue_id, page_number), and [get_by_key] and
    [create_with_key] document a job's idempotency key as unique.
    Newspaper names carry none. *)
Definition unique_constraints (table_name : string) : list (list string) :=
  if String.eqb table_name "issues" then [["newspaper_id"; "issue_date"]]
  else if String.eqb table_name "pages" then [["issue_id"; "page_number"]]
  else if String.eqb table_name "ingest_jobs" then [["idempotency_key"]]
  else [].

(** A new row violates a unique constraint of its table when a stored row
    agrees with it on every column of the constraint. *)
Definition violates_unique (table_name : string) (new : dict)
    (rows : list dict) : bool :=
  existsb (λ cols, existsb (conflicts cols new) rows)
    (unique_constraints table_name).

(** [.insert(data).execute()]: the store completes the row and appends it
    to the table; the new row is returned. A row that violates a unique
    constraint is rejected with an API error and nothing is stored. *)
Definition exec_insert (table_name : string) (data : dict) : M (list dict) :=
  λ s, let s' := log_request (ReqInsert table_name data) s in
       let rows := rows_of s table_name in
       let new := data ∪ server_defaults s table_name (clock s) in
       if violates_unique table_name new rows then
         (Raise (APIError "duplicate key value violates unique constraint"),
          s')
       else
         (Ok [new],
          {| tables := <[table_name := rows ++ [new]]> (tables s);
             server_defaults := server_defaults s;
             clock := S (clock s);
             requests := requests s' |}).

(** [.delete()...execute()]: the matching rows are removed and returned. *)
Definition exec_delete (table_name : string) (conds : list (string * pyval))
  : M (list dict) :=
  λ s, let s' := log_request (ReqDelete table_name conds) s in
       let rows := rows_of s table_name in
       (Ok (List.filter (matches conds) rows),
        set_rows s' table_name
          (List.filter (λ r, negb (matches conds r)) rows)).

(** [.select("id", count="exact").execute()]: [response.count], the number
    of rows of the table. *)
Definition exec_count (table_name : string) : M (option Z) :=
  λ s, (Ok (Some (Z.of_nat (length (rows_of s table_name)))),
        log_request (ReqCount table_name) s).

(** ** Pydantic models ([app/models/db], [app/models/api])

    Validation of a store row against a model class: a required field must
    be present with a cell of its type, an optional one may be absent or
    NULL, a defaulted one may be absent. Extra columns are ignored. Cells
    are expected in the column's own JSON type; the coercions pydantic
    would attempt on other types are not modelled and fail validation. *)

Definition req_str (d : dict) (k : string) : option string :=
  match d !! k with Some (PStr s) => Some s | _ => None end.

Definition req_int (d : dict) (k : string) : option Z :=
  match d !! k with Some (PInt n) => Some n | _ => None end.

Definition def_str (d : dict) (k : string) (dflt : string) : option string :=
  match d !! k with
  | None => Some dflt
  | Some (PStr s) => Some s
  | _ => None
  end.

Definition def_int (d : dict) (k : string) (dflt : Z) : option Z :=
  match d !! k with
  | None => Some dflt
  | Some (PInt n) => Some n
  | _ => None
  end.

Definition def_dict (d : dict) (k : string) (dflt : dict) : option dict :=
  match d !! k with
  | None => Some dflt
  | Some (PDict x) => Some x
  | _ => None
  end.

Definition opt_str (d : dict) (k : string) : option (option string) :=
  match d !! k with
  | None | Some PNone => Some None
  | Some (PStr s) => Some (Some s)
  | _ => None
  end.

Definition opt_int (d : dict) (k : string) : option (option Z) :=
  match d !! k with
  | None | Some PNone => Some None
  | Some (PInt n) => Some (Some n)
  | _ => None
  end.

Definition opt_float (d : dict) (k : string) : option (option float) :=
  match d !! k with
  | None | Some PNone => Some None
  | Some (PFloat f) => Some (Some f)
  | _ => None
  end.

Definition opt_dict (d : dict) (k : string) : option (option dict) :=
  match d !! k with
  | None | Some PNone => Some None
  | Some (PDict x) => Some (Some x)
  | _ => None
  end.

(** A model class: its name and its validator (the class applied to the
    row's columns as keyword arguments). *)
Class ModelClass (T : Type) : Type := {
  model_name : string;
  validate : dict → option T;
}.

Definition construct {T} `{ModelClass T} (row : dict) : result T :=
  match validate row with
  | Some x => Ok x
  | None => Raise (ValidationError model_name)
  end.

(** A model instance that is written to the store: what
    [model_dump(exclude_none=True)] gives for it. *)
Class BaseModel (C : Type) : Type := {
  dump_exclude_none : C → dict;
}.

Abbreviation UUID := string (only parsing).
Abbreviation date := string (only parsing).
Abbreviation datetime := string (only parsing).

Module Newspaper.
Record t : Type := mk {
  id : UUID;
  name : string;
  city : option string;
  country : option string;
  start_year : option Z;
  end_year : option Z;
  description : option string;
  source_type : string;
  created_at : datetime;
}.

Definition of_row (d : dict) : option t :=
  i ← req_str d "id";
  n ← req_str d "name";
  ci ← opt_str d "city";
  co ← opt_str d "country";
  sy ← opt_int d "start_year";
  ey ← opt_int d "end_year";
  de ← opt_str d "description";
  st ← def_str d "source_type" "upload";
  ca ← req_str d "created_at";
  Some (mk i n ci co sy ey de st ca).
End Newspaper.

#[global] Instance Newspaper_model : ModelClass Newspaper.t :=
  {| model_name := "Newspaper"; validate := Newspaper.of_row |}.

Module Issue.
Record t : Type := mk {
  id : UUID;
  newspaper_id : UUID;
  issue_date : date;
  num_pages : Z;
  source_type : string;
  source_external_id : option string;
  metadata : option dict;
  created_at : datetime;
}.

Definition of_row (d : dict) : option t :=
  i ← req_str d "id";
  n ← req_str d "newspaper_id";
  da ← req_str d "issue_date";
  np ← def_int d "num_pages" 0;
  st ← def_str d "source_type" "upload";
  se ← opt_str d "source_external_id";
  me ← opt_dict d "metadata";
  ca ← req_str d "created_at";
  Some (mk i n da np st se me ca).
End Issue.

#[global] Instance Issue_model : ModelClass Issue.t :=
  {| model_name := "Issue"; validate := Issue.of_row |}.

Module Page.
Record t : Type := mk {
  id : UUID;
  issue_id : UUID;
  page_number : Z;
  image_path : string;
  ocr_text : option string;
  ocr_confidence : option float;
  ocr_provider : option string;
  ocr_version : option string;
  ocr_meta : option dict;
  ingestion_status : string;
  created_at : datetime;
  updated_at : datetime;
}.

Definition of_row (d : dict) : option t :=
  i ← req_str d "id";
  iss ← req_str d "issue_id";
  pn ← req_int d "page_number";
  ip ← req_str d "image_path";
  ot ← opt_str d "ocr_text";
  oc ← opt_float d "ocr_confidence";
  op ← opt_str d "ocr_provider";
  ov ← opt_str d "ocr_version";
  om ← opt_dict d "ocr_meta";
  st ← def_str d "ingestion_status" "pending";
  ca ← req_str d "created_at";
  ua ← req_str d "updated_at";
  Some (mk i iss pn ip ot oc op ov om st ca ua).
End Page.

#[global] Instance Page_model : ModelClass Page.t :=
  {| model_name := "Page"; validate := Page.of_row |}.

(** The progress object a job carries when none is stored. *)
Definition default_progress : dict :=
  <["pages_total" := PInt 0]> (
  <["pages_processed" := PInt 0]> (
  <["pages_succeeded" := PInt 0]> (
  <["pages_failed" := PInt 0]> (
  <["current_stage" := PStr "initializing"]> (
  <["errors" := PList []]> ∅))))).

Module IngestJob.
Record t : Type := mk {
  id : UUID;
  idempotency_key : string;
  issue_id : option UUID;
  status : string;
  progress : dict;
  error_message : option string;
  created_at : datetime;
  updated_at : datetime;
}.

Definition of_row (d : dict) : option t :=
  i ← req_str d "id";
  k ← req_str d "idempotency_key";
  iss ← opt_str d "issue_id";
  st ← def_str d "status" "pending";
  pr ← def_dict d "progress" default_progress;
  em ← opt_str d "error_message";
  ca ← req_str d "created_at";
  ua ← req_str d "updated_at";
  Some (mk i k iss st pr em ca ua).
End IngestJob.

#[global] Instance IngestJob_model : ModelClass IngestJob.t :=
  {| model_name := "IngestJob"; validate := IngestJob.of_row |}.

(** A list comprehension whose body may raise: the first failure wins. *)
Fixpoint mapM_result {A B} (f : A → result B) (l : list A) : result (list B) :=
  match l with
  | [] => Ok []
  | x :: l' =>
      match f x with
      | Raise e => Raise e
      | Ok y =>
          match mapM_result f l' with
          | Raise e => Raise e
          | Ok ys => Ok (y :: ys)
          end
      end
  end.

(** ** [app/repositories/base.py] *)

Module BaseRepository.

(** [BaseRepository(supabase, table_name, model_class)]; the client is the
    store the monad threads. *)
Record t (T : Type) : Type := mk {
  table_name : string;
  model_class : ModelClass T;
}.
Arguments mk {T} table_name model_class.
Arguments table_name {T} self : rename.
Arguments model_class {T} self : rename.

Definition get_by_id {T} (self : t T) (id : UUID) : M (option T) :=
  data ← select_maybe_single (table_name self) [("id", PStr id)];
  match data with
  | Some row =>
      if truthy (PDict row)
      then x ← lift (@construct T (model_class self) row); mret (Some x)
      else mret None
  | None => mret None
  end.

(** The write set of [update]: the entries of [data] that are not [None]. *)
Definition update_data (data : dict) : dict :=
  filter (λ kv, Is_true (is_not_None kv.2)) data.

Definition update {T} (self : t T) (id : UUID) (data : dict) : M T :=
  rows ← exec_update (table_name self) (update_data data) [("id", PStr id)];
  match rows with
  | [] => raise (ValueError ("Failed to update record " +:+ id +:+ " in "
                             +:+ table_name self))
  | row :: _ => lift (@construct T (model_class self) row)
  end.

Definition list_all {T} (self : t T) (limit offset : Z) : M (list T) :=
  rows ← select_rows (table_name self) [] None (Some limit) (Some offset);
  lift (mapM_result (@construct T (model_class self)) rows).

Definition _execute_upsert {T} (self : t T) (data : dict)
    (on_conflict : string) : M T :=
  rows ← exec_upsert (table_name self) data on_conflict;
  match rows with
  | [] => raise (ValueError ("Failed to upsert record in "
                             +:+ table_name self))
  | row :: _ => lift (@construct T (model_class self) row)
  end.

Definition create {T C} `{BaseModel C} (self : t T) (data : C) : M T :=
  let insert_data := dump_exclude_none data in
  rows ← exec_insert (table_name self) insert_data;
  match rows with
  | [] => raise (ValueError ("Failed to create record in "
                             +:+ table_name self))
  | row :: _ => lift (@construct T (model_class self) row)
  end.

Definition delete {T} (self : t T) (id : UUID) : M () :=
  _ ← exec_delete (table_name self) [("id", PStr id)];
  mret ().

(** [response.count or 0] *)
Definition count {T} (self : t T) : M Z :=
  c ← exec_count (table_name self);
  mret (match c with
        | Some n => if truthy (PInt n) then n else 0
        | None => 0
        end).

End BaseRepository.

Module IngestJobCreate.
Record t : Type := mk {
  idempotency_key : string;
  status : string;
}.

Definition model_dump_exclude_none (x : t) : dict :=
  <["idempotency_key" := PStr (idempotency_key x)]> (
  <["status" := PStr (status x)]> ∅).
End IngestJobCreate.

#[global] Instance IngestJobCreate_model : BaseModel IngestJobCreate.t :=
  {| dump_exclude_none := IngestJobCreate.model_dump_exclude_none |}.

(** ** [app/repositories/ingest_jobs.py] *)

Module IngestJobRepository.

Definition self : BaseRepository.t IngestJob.t :=
  BaseRepository.mk "ingest_jobs" IngestJob_model.

Definition get_by_key (idempotency_key : string) : M (option IngestJob.t) :=
  data ← select_maybe_single (BaseRepository.table_name self)
           [("idempotency_key", PStr idempotency_key)];
  match data with
  | Some row =>
      if truthy (PDict row)
      then x ← lift (construct row); mret (Some x)
      else mret None
  | None => mret None
  end.

(** The dictionary [update_job] builds from its keyword arguments. *)
Definition update_job_data (issue_id : option UUID) (status : option string)
    (progress : option dict) (error_message : option string) : dict :=
  let update_data : dict := ∅ in
  let update_data :=
    match issue_id with
    | Some i => <["issue_id" := PStr i]> update_data
    | None => update_data
    end in
  let update_data :=
    match status with
    | Some st => <["status" := PStr st]> update_data
    | None => update_data
    end in
  let update_data :=
    match progress with
    | Some p => <["progress" := PDict p]> update_data
    | None => update_data
    end in
  let update_data :=
    match error_message with
    | Some m => <["error_message" := PStr m]> update_data
    | None => update_data
    end in
  update_data.

Definition update_job (job_id : UUID) (issue_id : option UUID)
    (status : option string) (progress : option dict)
    (error_message : option string) : M IngestJob.t :=
  BaseRepository.update self job_id
    (update_job_data issue_id status progress error_message).

(** The progress object [increment_progress] starts from when the job
    carries none (an empty dictionary is false). *)
Definition initial_progress (pages_total : Z) : dict :=
  <["pages_total" := PInt pages_total]> (
  <["pages_processed" := PInt 0]> (
  <["pages_succeeded" := PInt 0]> (
  <["pages_failed" := PInt 0]> (
  <["current_stage" := PStr "initializing"]> (
  <["errors" := PList []]> ∅))))).

(** The in-memory part of [increment_progress]: from the job's progress to
    the progress object that is written back. *)
Definition merge_progress (stored : dict) (pages_processed pages_total : Z)
    (current_stage : string) (error : option string) : result dict :=
  let progress :=
    if truthy (PDict stored) then stored else initial_progress pages_total in
  let progress := <["pages_processed" := PInt pages_processed]> progress in
  let progress := <["pages_total" := PInt pages_total]> progress in
  let progress := <["current_stage" := PStr current_stage]> progress in
  let on_success :=
    match py_add1 (default (PInt 0) (progress !! "pages_succeeded")) with
    | Raise e => Raise e
    | Ok n => Ok (<["pages_succeeded" := n]> progress)
    end in
  match error with
  | Some e =>
      if truthy (PStr e) then
        match py_add1 (default (PInt 0) (progress !! "pages_failed")) with
        | Raise ex => Raise ex
        | Ok n =>
            let progress := <["pages_failed" := n]> progress in
            match py_append (default (PList []) (progress !! "errors"))
                    (PStr e) with
            | Raise ex => Raise ex
            | Ok errors =>
                Ok (<["errors" := PList (py_last 10 errors)]> progress)
            end
        end
      else on_success
  | None => on_success
  end.

Definition increment_progress (job_id : UUID)
    (pages_processed pages_total : Z) (current_stage : string)
    (error : option string) : M IngestJob.t :=
  job ← BaseRepository.get_by_id self job_id;
  match job with
  | None => raise (ValueError ("Job " +:+ job_id +:+ " not found"))
  | Some job =>
      progress ← lift (merge_progress (IngestJob.progress job)
                         pages_processed pages_total current_stage error);
      update_job job_id None None (Some progress) None
  end.

Definition create_with_key (idempotency_key : string) (status : string)
  : M IngestJob.t :=
  let new_job := IngestJobCreate.mk idempotency_key status in
  BaseRepository.create self new_job.

Definition list_by_status (status : string) (limit offset : Z)
  : M (list IngestJob.t) :=
  rows ← select_rows (BaseRepository.table_name self)
           [("status", PStr status)] (Some ("created_at", true))
           (Some limit) (Some offset);
  lift (mapM_result construct rows).

Definition list_recent (limit : Z) : M (list IngestJob.t) :=
  rows ← select_rows (BaseRepository.table_name self) []
           (Some ("created_at", true)) (Some limit) None;
  lift (mapM_result construct rows).

End IngestJobRepository.

(** ** [app/repositories/issues.py] *)

Module IssueCreate.
Record t : Type := mk {
  newspaper_id : UUID;
  issue_date : date;
  num_pages : Z;
  source_type : string;
  source_external_id : option string;
  metadata : option dict;
}.

(** [model_dump(exclude_none=True)] *)
Definition model_dump_exclude_none (x : t) : dict :=
  let d : dict :=
    <["newspaper_id" := PStr (newspaper_id x)]> (
    <["issue_date" := PStr (issue_date x)]> (
    <["num_pages" := PInt (num_pages x)]> (
    <["source_type" := PStr (source_type x)]> ∅))) in
  let d :=
    match source_external_id x with
    | Some e => <["source_external_id" := PStr e]> d
    | None => d
    end in
  match metadata x with
  | Some m => <["metadata" := PDict m]> d
  | None => d
  end.
End IssueCreate.

Module IssueRepository.

Definition self : BaseRepository.t Issue.t :=
  BaseRepository.mk "issues" Issue_model.

Definition get_by_newspaper_and_date (newspaper_id : UUID)
    (issue_date : date) : M (option Issue.t) :=
  data ← select_maybe_single (BaseRepository.table_name self)
           [("newspaper_id", PStr newspaper_id);
            ("issue_date", PStr issue_date)];
  match data with
  | Some row =>
      if truthy (PDict row)
      then x ← lift (construct row); mret (Some x)
      else mret None
  | None => mret None
  end.

Definition create_or_get (newspaper_id : UUID) (issue_date : date)
    (num_pages : Z) (source_type : string)
    (source_external_id : option string) (metadata : option dict)
  : M Issue.t :=
  existing ← get_by_newspaper_and_date newspaper_id issue_date;
  match existing with
  | Some issue => mret issue
  | None =>
      let new_issue :=
        IssueCreate.mk newspaper_id issue_date num_pages source_type
          source_external_id metadata in
      BaseRepository._execute_upsert self
        (IssueCreate.model_dump_exclude_none new_issue)
        "newspaper_id,issue_date"
  end.

Definition list_by_newspaper (newspaper_id : UUID) (limit offset : Z)
    (order_desc : bool) : M (list Issue.t) :=
  rows ← select_rows (BaseRepository.table_name self)
           [("newspaper_id", PStr newspaper_id)]
           (if order_desc then Some ("issue_date", true)
            else Some ("issue_date", false))
           (Some limit) (Some offset);
  lift (mapM_result construct rows).

End IssueRepository.

(** ** [app/repositories/pages.py] *)

Module PageCreate.
Record t : Type := mk {
  issue_id : UUID;
  page_number : Z;
  image_path : string;
  ingestion_status : string;
}.

Definition model_dump_exclude_none (x : t) : dict :=
  <["issue_id" := PStr (issue_id x)]> (
  <["page_number" := PInt (page_number x)]> (
  <["image_path" := PStr (image_path x)]> (
  <["ingestion_status" := PStr (ingestion_status x)]> ∅))).
End PageCreate.

Module PageRepository.

Definition self : BaseRepository.t Page.t :=
  BaseRepository.mk "pages" Page_model.

Definition get_by_issue_and_number (issue_id : UUID) (page_number : Z)
  : M (option Page.t) :=
  data ← select_maybe_single (BaseRepository.table_name self)
           [("issue_id", PStr issue_id); ("page_number", PInt page_number)];
  match data with
  | Some row =>
      if truthy (PDict row)
      then x ← lift (construct row); mret (Some x)
      else mret None
  | None => mret None
  end.

Definition create_or_get (issue_id : UUID) (page_number : Z)
    (image_path : string) (ingestion_status : string) : M Page.t :=
  existing ← get_by_issue_and_number issue_id page_number;
  match existing with
  | Some page => mret page
  | None =>
      let new_page :=
        PageCreate.mk issue_id page_number image_path ingestion_status in
      BaseRepository._execute_upsert self
        (PageCreate.model_dump_exclude_none new_page)
        "issue_id,page_number"
  end.

Definition list_by_issue (issue_id : UUID) (order_by_page_number : bool)
  : M (list Page.t) :=
  rows ← select_rows (BaseRepository.table_name self)
           [("issue_id", PStr issue_id)]
           (if order_by_page_number then Some ("page_number", false)
            else None)
           None None;
  lift (mapM_result construct rows).

(** [v] for an argument that is given, [None] for one that is not. *)
Definition cell_of {A} (f : A → pyval) (x : option A) : pyval :=
  match x with Some a => f a | None => PNone end.

Definition update_ocr (page_id : UUID) (ocr_text : string)
    (ocr_confidence : option float) (ocr_provider ocr_version : option string)
    (ocr_meta : option dict) (ingestion_status : string) : M Page.t :=
  let update_data : dict :=
    <["ocr_text" := PStr ocr_text]> (
    <["ocr_confidence" := cell_of PFloat ocr_confidence]> (
    <["ocr_provider" := cell_of PStr ocr_provider]> (
    <["ocr_version" := cell_of PStr ocr_version]> (
    <["ocr_meta" := cell_of PDict ocr_meta]> (
    <["ingestion_status" := PStr ingestion_status]> ∅))))) in
  BaseRepository.update self page_id update_data.

Definition update_status (page_id : UUID) (status : string) : M Page.t :=
  BaseRepository.update self page_id {[ "ingestion_status" := PStr status ]}.

Definition list_by_status (status : string) (limit offset : Z)
  : M (list Page.t) :=
  rows ← select_rows (BaseRepository.table_name self)
           [("ingestion_status", PStr status)] None
           (Some limit) (Some offset);
  lift (mapM_result construct rows).

End PageRepository.

(** ** [app/repositories/newspapers.py] *)

Module NewspaperCreate.
Record t : Type := mk {
  name : string;
  city : option string;
  country : option string;
  start_year : option Z;
  end_year : option Z;
  description : option string;
  source_type : string;
}.

(** An entry for a field that is not [None]. *)
Definition put {A} (k : string) (f : A → pyval) (x : option A) (d : dict)
  : dict :=
  match x with Some a => <[k := f a]> d | None => d end.

Definition model_dump_exclude_none (x : t) : dict :=
  <["name" := PStr (name x)]> (
  put "city" PStr (city x) (
  put "country" PStr (country x) (
  put "start_year" PInt (start_year x) (
  put "end_year" PInt (end_year x) (
  put "description" PStr (description x) (
  <["source_type" := PStr (source_type x)]> ∅)))))).
End NewspaperCreate.

#[global] Instance NewspaperCreate_model : BaseModel NewspaperCreate.t :=
  {| dump_exclude_none := NewspaperCreate.model_dump_exclude_none |}.

Module NewspaperRepository.

Definition self : BaseRepository.t Newspaper.t :=
  BaseRepository.mk "newspapers" Newspaper_model.

Definition get_or_create (name : string) : M Newspaper.t :=
  data ← select_maybe_single (BaseRepository.table_name self)
           [("name", PStr name)];
  let create_new :=
    (* [NewspaperCreate(name=name)] *)
    let new_newspaper :=
      NewspaperCreate.mk name None None None None None "upload" in
    BaseRepository.create self new_newspaper in
  match data with
  | Some row =>
      if truthy (PDict row) then lift (construct row) else create_new
  | None => create_new
  end.

Definition get_by_name (name : string) : M (option Newspaper.t) :=
  data ← select_maybe_single (BaseRepository.table_name self)
           [("name", PStr name)];
  match data with
  | Some row =>
      if truthy (PDict row)
      then x ← lift (construct row); mret (Some x)
      else mret None
  | None => mret None
  end.

End NewspaperRepository.

(** ** [app/models/api/responses.py] *)

Module NewspaperResponse.
Record t : Type := mk {
  id : UUID;
  name : string;
  city : option string;
  country : option string;
  start_year : option Z;
  end_year : option Z;
  description : option string;
  source_type : string;
  created_at : datetime;
}.

(** [model_validate] from the attributes of a [Newspaper]. *)
Definition model_validate (n : Newspaper.t) : t :=
  mk (Newspaper.id n) (Newspaper.name n) (Newspaper.city n)
     (Newspaper.country n) (Newspaper.start_year n) (Newspaper.end_year n)
     (Newspaper.description n) (Newspaper.source_type n)
     (Newspaper.created_at n).
End NewspaperResponse.

Module PageResponse.
Record t : Type := mk {
  id : UUID;
  issue_id : UUID;
  page_number : Z;
  image_path : string;
  ocr_text : option string;
  ocr_confidence : option float;
  ocr_provider : option string;
  ingestion_status : string;
  created_at : datetime;
}.

Definition model_validate (p : Page.t) : t :=
  mk (Page.id p) (Page.issue_id p) (Page.page_number p) (Page.image_path p)
     (Page.ocr_text p) (Page.ocr_confidence p) (Page.ocr_provider p)
     (Page.ingestion_status p) (Page.created_at p).
End PageResponse.

Module IssueResponse.
Record t : Type := mk {
  id : UUID;
  newspaper_id : UUID;
  issue_date : date;
  num_pages : Z;
  source_type : string;
  source_external_id : option string;
  metadata : option dict;
  created_at : datetime;
  newspaper : option NewspaperResponse.t;
  pages : option (list PageResponse.t);
}.

(** An [Issue] has no [newspaper] or [pages] attribute: both default. *)
Definition model_validate (i : Issue.t) : t :=
  mk (Issue.id i) (Issue.newspaper_id i) (Issue.issue_date i)
     (Issue.num_pages i) (Issue.source_type i) (Issue.source_external_id i)
     (Issue.metadata i) (Issue.created_at i) None None.
End IssueResponse.

Module PaginatedIssuesResponse.
Record t : Type := mk {
  items : list IssueResponse.t;
  total : Z;
  limit : Z;
  offset : Z;
  has_more : bool;
}.
End PaginatedIssuesResponse.

Module IssueDetailResponse.
Record t : Type := mk {
  id : UUID;
  newspaper_id : UUID;
  issue_date : date;
  num_pages : Z;
  source_type : string;
  source_external_id : option string;
  metadata : option dict;
  created_at : datetime;
  newspaper : NewspaperResponse.t;
  pages : list PageResponse.t;
}.
End IssueDetailResponse.

(** ** [app/routes/issues.py] *)

Module Routes.

(** [len(l)] as a Python integer. *)
Definition len {A} (l : list A) : Z := Z.of_nat (length l).

(** The body of [list_issues]. *)
Definition list_issues (limit offset : Z) (newspaper_id : option UUID)
  : M PaginatedIssuesResponse.t :=
  issues ←
    match newspaper_id with
    | Some nid =>
        IssueRepository.list_by_newspaper nid (limit + 1) offset true
    | None =>
        BaseRepository.list_all IssueRepository.self (limit + 1) offset
    end;
  let has_more := len issues >? limit in
  let items := py_slice_to limit issues in
  let total := offset + len items + (if has_more then 1 else 0) in
  mret (PaginatedIssuesResponse.mk
          (IssueResponse.model_validate <$> items)
          total limit offset has_more).

(** [GET /api/issues]: the declared bounds of the query parameters
    ([limit]: default 50, 1 to 100; [offset]: default 0, at least 0) are
    checked before the body runs; a violation is answered with 422. *)
Definition get_issues (limit offset : option Z) (newspaper_id : option UUID)
  : M PaginatedIssuesResponse.t :=
  let limit := default 50 limit in
  let offset := default 0 offset in
  if (1 <=? limit) && (limit <=? 100) && (0 <=? offset)
  then list_issues limit offset newspaper_id
  else raise (HTTPException 422 "Unprocessable Entity").

Definition get_issue_detail (issue_id : UUID) : M IssueDetailResponse.t :=
  issue ← BaseRepository.get_by_id IssueRepository.self issue_id;
  match issue with
  | None => raise (HTTPException 404 "Issue not found")
  | Some issue =>
      newspaper ← BaseRepository.get_by_id NewspaperRepository.self
                    (Issue.newspaper_id issue);
      match newspaper with
      | None => raise (HTTPException 500 "Associated newspaper not found")
      | Some newspaper =>
          pages ← PageRepository.list_by_issue issue_id true;
          mret (IssueDetailResponse.mk
                  (Issue.id issue) (Issue.newspaper_id issue)
                  (Issue.issue_date issue) (Issue.num_pages issue)
                  (Issue.source_type issue) (Issue.source_external_id issue)
                  (Issue.metadata issue) (Issue.created_at issue)
                  (NewspaperResponse.model_validate newspaper)
                  (PageResponse.model_validate <$> pages))
      end
  end.

(** [app/routes/pages.py] *)
Definition get_page_detail (page_id : UUID) : M PageResponse.t :=
  page ← BaseRepository.get_by_id PageRepository.self page_id;
  match page with
  | None => raise (HTTPException 404 "Page not found")
  | Some page => mret (PageResponse.model_validate page)
  end.

End Routes.

(** ** [app/services/document_processor.py]

    The rasterization library and the image encoder are outside the
    repository: [convert_from_bytes pdf dpi fmt] stands for pdf2image's
    function of that name, [save image format] for writing a PIL image to
    a fresh buffer and reading the buffer back. Either may raise. *)

Definition bytes := list Byte.byte.

Module PdfDocumentProcessor.

Record t : Type := mk {
  dpi : Z;
  image_format : string;
}.

(** [PdfDocumentProcessor()] with the constructor's defaults. *)
Definition default : t := mk 300 "PNG".

Section Process.
Variable Image : Type.
Variable convert_from_bytes : bytes → Z → string → result (list Image).
Variable save : Image → string → result bytes.

(** The [for image in images] loop, appending to [page_images]. *)
Fixpoint encode_pages (self : t) (images : list Image)
    (page_images : list bytes) : result (list bytes) :=
  match images with
  | [] => Ok page_images
  | image :: rest =>
      match save image (image_format self) with
      | Raise e => Raise e
      | Ok b => encode_pages self rest (page_images ++ [b])
      end
  end.

(** The body of the [try] block. *)
Definition process_body (self : t) (file_bytes : bytes)
    : result (list bytes) :=
  match convert_from_bytes file_bytes (dpi self)
          (lower (image_format self)) with
  | Raise e => Raise e
  | Ok images => encode_pages self images []
  end.

Definition process (self : t) (file_bytes : bytes) : result (list bytes) :=
  match process_body self file_bytes with
  | Ok page_images => Ok page_images
  | Raise e =>
      Raise (Exception ("Failed to process PDF: " +:+ exn_str e) (Some e))
  end.

End Process.

End PdfDocumentProcessor.

(** [get_document_processor()] *)
Definition get_document_processor : PdfDocumentProcessor.t :=
  PdfDocumentProcessor.mk 300 "PNG".

(** ** [app/config.py]

    Settings are text read from the environment. Text is held as its UTF-8
    bytes; [str.split(",")] and [str.strip()] are followed on that form.
    The white space [strip] removes is the white space of Python's [str]:
    U+0009 to U+000D, U+001C to U+0020, U+0085, U+00A0, U+1680, U+2000 to
    U+200A, U+2028, U+2029, U+202F, U+205F and U+3000. *)

(** White space that takes one, two and three bytes. *)
Definition is_space1 (a : ascii) : bool :=
  let n := nat_of_ascii a in
  (((9 <=? n) && (n <=? 13)) || ((28 <=? n) && (n <=? 32)))%nat.

Definition is_space2 (a b : ascii) : bool :=
  let '(m, n) := (nat_of_ascii a, nat_of_ascii b) in
  ((m =? 194) && ((n =? 133) || (n =? 160)))%nat.

Definition is_space3 (a b c : ascii) : bool :=
  let '(l, m, n) := (nat_of_ascii a, nat_of_ascii b, nat_of_ascii c) in
  (((l =? 225) && (m =? 154) && (n =? 128))
   || ((l =? 226) && (m =? 128)
       && (((128 <=? n) && (n <=? 138)) || (n =? 168) || (n =? 169)
           || (n =? 175)))
   || ((l =? 226) && (m =? 129) && (n =? 159))
   || ((l =? 227) && (m =? 128) && (n =? 128)))%nat.

(** [s.lstrip()] *)
Fixpoint lstrip (s : string) : string :=
  match s with
  | EmptyString => EmptyString
  | String a s1 =>
      if is_space1 a then lstrip s1
      else
        match s1 with
        | EmptyString => s
        | String b s2 =>
            if is_space2 a b then lstrip s2
            else
              match s2 with
              | EmptyString => s
              | String c s3 => if is_space3 a b c then lstrip s3 else s
              end
        end
  end.

(** [lstrip] on text read from its end: the bytes of a character come in
    reverse. *)
Fixpoint lstrip_reversed (s : string) : string :=
  match s with
  | EmptyString => EmptyString
  | String a s1 =>
      if is_space1 a then lstrip_reversed s1
      else
        match s1 with
        | EmptyString => s
        | String b s2 =>
            if is_space2 b a then lstrip_reversed s2
            else
              match s2 with
              | EmptyString => s
              | String c s3 =>
                  if is_space3 c b a then lstrip_reversed s3 else s
              end
        end
  end.

(** [s.rstrip()] and [s.strip()] *)
Definition rstrip (s : string) : string :=
  String.rev (lstrip_reversed (String.rev s)).

Definition strip (s : string) : string := rstrip (lstrip s).

Module Settings.
Record t : Type := mk {
  supabase_url : string;
  supabase_service_role_key : string;
  supabase_anon_key : string;
  supabase_jwks_url : string;
  openai_api_key : string;
  ocr_api_url : string;
  ocr_api_token : string;
  admin_api_key : string;
  env : string;
  cors_origins : string;
}.

Definition cors_origins_list (self : t) : list string :=
  strip <$> split_commas (cors_origins self).

Definition is_dev (self : t) : bool := String.eqb (env self) "dev".

Definition use_stub_ocr (self : t) : bool :=
  is_dev self && negb (truthy (PStr (ocr_api_url self))).
End Settings.

(** * Vocabulary of the properties *)

(** The cell a call of [update_job] supplies for a column: [None] when the
    column's argument is omitted, or when the column is not one of the four
    the operation can write. *)
Definition supplied (issue_id : option UUID) (status : option string)
    (progress : option dict) (error_message : option string)
    (col : string) : option pyval :=
  if decide (col = "issue_id") then PStr <$> issue_id
  else if decide (col = "status") then PStr <$> status
  else if decide (col = "progress") then PDict <$> progress
  else if decide (col = "error_message") then PStr <$> error_message
  else None.

(** The row [update_job] leaves in place of [r]. *)
Definition updated_row (job_id : UUID) (issue_id : option UUID)
    (status : option string) (progress : option dict)
    (error_message : option string) (r : dict) : dict :=
  if matches [("id", PStr job_id)] r
  then IngestJobRepository.update_job_data issue_id status progress
         error_message ∪ r
  else r.

(** ** A small store, used to exercise the statements below *)

Definition example_job_row (id status : string) (progress : dict) : dict :=
  <["id" := PStr id]> (
  <["idempotency_key" := PStr ("key-" +:+ id)]> (
  <["issue_id" := PNone]> (
  <["status" := PStr status]> (
  <["progress" := PDict progress]> (
  <["error_message" := PNone]> (
  <["created_at" := PStr "2024-01-15T10:00:00"]> (
  <["updated_at" := PStr "2024-01-15T10:00:00"]> ∅))))))).

Definition example_progress : dict :=
  <["pages_total" := PInt 10]> (
  <["pages_processed" := PInt 4]> (
  <["pages_succeeded" := PInt 4]> (
  <["pages_failed" := PInt 0]> (
  <["current_stage" := PStr "ocr"]> (
  <["errors" := PList []]> ∅))))).

(** What the store supplies for a new row: a generated id, the creation
    timestamps, and NULL for the columns an insert may leave out. *)
Definition example_defaults (table_name : string) (n : nat) : dict :=
  <["id" := PStr (table_name +:+ "-" +:+ pretty n)]> (
  <["created_at" := PStr "2024-02-01T00:00:00"]> (
  <["updated_at" := PStr "2024-02-01T00:00:00"]> (
  <["source_external_id" := PNone]> (
  <["metadata" := PNone]> ∅)))).

Definition example_store : db :=
  {| tables :=
       {[ "ingest_jobs" :=
            [ example_job_row "job-1" "completed" example_progress;
              example_job_row "job-2" "processing" ∅ ] ]};
     server_defaults := example_defaults;
     clock := 0;
     requests := [] |}.

Definition example_job : IngestJob.t :=
  IngestJob.mk "job-1" "key-job-1" None "completed" example_progress None
    "2024-01-15T10:00:00" "2024-01-15T10:00:00".

(** ** Reading a progress object *)

(** [progress.get(k, 0)] *)
Definition counter (p : dict) (k : string) : pyval :=
  default (PInt 0) (p !! k).

(** [progress.get("errors", [])] *)
Definition errors_of (p : dict) : pyval :=
  default (PList []) (p !! "errors").

(** The shape of a stored progress object: the two outcome counters, where
    present, are integers, and the error log, where present, is a list. *)
Definition progress_typed (p : dict) : Prop :=
  (∃ a, counter p "pages_succeeded" = PInt a)
  ∧ (∃ b, counter p "pages_failed" = PInt b)
  ∧ (∃ l, errors_of p = PList l).

(** The three fields every call overwrites with its arguments. *)
Definition position_recorded (p' : dict) (pages_processed pages_total : Z)
    (current_stage : string) : Prop :=
  p' !! "pages_processed" = Some (PInt pages_processed)
  ∧ p' !! "pages_total" = Some (PInt pages_total)
  ∧ p' !! "current_stage" = Some (PStr current_stage).

(** A success recorded in [p'], starting from the stored progress [p]. *)
Definition success_recorded (p p' : dict) : Prop :=
  (∃ a, counter p "pages_succeeded" = PInt a
        ∧ p' !! "pages_succeeded" = Some (PInt (a + 1)))
  ∧ counter p' "pages_failed" = counter p "pages_failed"
  ∧ errors_of p' = errors_of p.

(** A failure with message [e] recorded in [p'], starting from [p]: the
    error log of [p'] is the end of the old log followed by [e], cut to
    its last ten entries. *)
Definition failure_recorded (p p' : dict) (e : string) : Prop :=
  (∃ b, counter p "pages_failed" = PInt b
        ∧ p' !! "pages_failed" = Some (PInt (b + 1)))
  ∧ counter p' "pages_succeeded" = counter p "pages_succeeded"
  ∧ (∃ l errs' dropped,
       errors_of p = PList l
       ∧ p' !! "errors" = Some (PList errs')
       ∧ l ++ [PStr e] = dropped ++ errs'
       ∧ length errs' = Nat.min 10 (length l + 1)).

(** The outcome of [increment_progress] on a job whose stored progress is
    [p]: the call returns the updated job, the row in the store carries the
    progress the job was returned with, and that progress records the
    arguments and one more success (no [error]) or failure ([error]). *)
Definition increment_recorded (s : db) (job_id : UUID)
    (pages_processed pages_total : Z) (current_stage : string)
    (error : option string) (p : dict) : Prop :=
  ∃ (j' : IngestJob.t) (s' : db) (r' : dict),
    IngestJobRepository.increment_progress job_id pages_processed
      pages_total current_stage error s = (Ok j', s')
    ∧ List.filter (matches [("id", PStr job_id)]) (rows_of s' "ingest_jobs")
      = [r']
    ∧ r' !! "progress" = Some (PDict (IngestJob.progress j'))
    ∧ position_recorded (IngestJob.progress j') pages_processed pages_total
        current_stage
    ∧ match error with
      | None => success_recorded p (IngestJob.progress j')
      | Some e => failure_recorded p (IngestJob.progress j') e
      end.

(** The counters a call leaves in the job it returns. *)
Definition returned_counters (x : result IngestJob.t * db)
  : option (pyval * pyval * pyval) :=
  match x.1 with
  | Ok j =>
      Some (counter (IngestJob.progress j) "pages_succeeded",
            counter (IngestJob.progress j) "pages_failed",
            errors_of (IngestJob.progress j))
  | Raise _ => None
  end.

(** ** Interleaved calls of [increment_progress]

    A call of [increment_progress] talks to the store twice: it reads the
    job ([get_by_id]), and later writes the progress object it has merged
    in memory ([update_job]). Nothing joins the two requests, so requests
    of other calls may run between them. [call_step] is the part of a call
    up to and including its next request. *)

Inductive call : Type :=
| Start (job_id : UUID) (pages_processed pages_total : Z)
    (current_stage : string) (error : option string)
| Merged (job_id : UUID) (progress : dict)
| Returned (r : result IngestJob.t).

Definition call_step (c : call) (s : db) : call * db :=
  match c with
  | Start job_id pages_processed pages_total current_stage error =>
      match BaseRepository.get_by_id IngestJobRepository.self job_id s with
      | (Raise e, s') => (Returned (Raise e), s')
      | (Ok None, s') =>
          (Returned (Raise (ValueError ("Job " +:+ job_id +:+ " not found"))),
           s')
      | (Ok (Some job), s') =>
          match IngestJobRepository.merge_progress (IngestJob.progress job)
                  pages_processed pages_total current_stage error with
          | Raise e => (Returned (Raise e), s')
          | Ok progress => (Merged job_id progress, s')
          end
      end
  | Merged job_id progress =>
      let '(r, s') :=
        IngestJobRepository.update_job job_id None None (Some progress) None s
      in (Returned r, s')
  | Returned r => (Returned r, s)
  end.

Definition returned (c : call) : bool :=
  match c with Returned _ => true | _ => false end.

(** Calls running side by side on one store: any call that has not
    returned may perform its next request. *)
Inductive pool_step : list call * db → list call * db → Prop :=
| pool_step_call (i : nat) (c c' : call) (pool : list call) (s s' : db) :
    pool !! i = Some c →
    returned c = false →
    call_step c s = (c', s') →
    pool_step (pool, s) (<[i := c']> pool, s').

(** The progress object stored for a job, when exactly one row has its id. *)
Definition stored_progress (s : db) (job_id : UUID) : option pyval :=
  match List.filter (matches [("id", PStr job_id)])
          (rows_of s "ingest_jobs") with
  | [r] => r !! "progress"
  | _ => None
  end.

(** ** Outcomes of rasterization *)

(** The underlying library fails on an input with [e]: either the
    conversion of the document raises [e], or it yields the page images
    and encoding one of them raises [e] after the pages before it were
    encoded. *)
Definition rasterization_fails {Image : Type}
    (convert_from_bytes : bytes → Z → string → result (list Image))
    (save : Image → string → result bytes)
    (self : PdfDocumentProcessor.t) (file_bytes : bytes) (e : exn) : Prop :=
  convert_from_bytes file_bytes (PdfDocumentProcessor.dpi self)
    (lower (PdfDocumentProcessor.image_format self)) = Raise e
  ∨ ∃ (images done : list Image) (image : Image) (rest : list Image),
      convert_from_bytes file_bytes (PdfDocumentProcessor.dpi self)
        (lower (PdfDocumentProcessor.image_format self)) = Ok images
      ∧ images = done ++ image :: rest
      ∧ Forall (λ i, ∃ b, save i (PdfDocumentProcessor.image_format self)
                          = Ok b) done
      ∧ save image (PdfDocumentProcessor.image_format self) = Raise e.

(** A two-page document and a broken one, for a library whose images are
    page numbers. *)
Definition example_convert (file_bytes : bytes) (dpi : Z) (fmt : string)
  : result (list nat) :=
  match file_bytes with
  | [] => Raise (Exception "Unable to get page count" None)
  | _ => Ok [1%nat; 2%nat]
  end.

Definition example_save (image : nat) (fmt : string) : result bytes :=
  if String.eqb fmt "PNG" then Ok (repeat Byte.x89 image)
  else Raise (ValueError ("unknown file extension: " +:+ fmt)).

(** ** Listing issues *)

(** The rows the issue listing ranges over: what its request yields when
    nothing is skipped or cut off. With a newspaper filter these are the
    newspaper's issues, newest first; without one, every issue. *)
Definition available_issues (s : db) (newspaper_id : option UUID)
  : list dict :=
  match newspaper_id with
  | Some nid =>
      query_rows [("newspaper_id", PStr nid)] (Some ("issue_date", true))
        None None (rows_of s "issues")
  | None => query_rows [] None None None (rows_of s "issues")
  end.

(** The request [list_issues] sends for a page of [n] rows. *)
Definition issues_request (newspaper_id : option UUID) (n offset : Z)
  : request :=
  match newspaper_id with
  | Some nid =>
      ReqSelect "issues" [("newspaper_id", PStr nid)]
        (Some ("issue_date", true)) (Some n) (Some offset)
  | None => ReqSelect "issues" [] None (Some n) (Some offset)
  end.

(** The issues of a newspaper carry different dates, as the unique
    constraint on newspaper and date has it: ordering them by date leaves
    one order only. *)
Definition issue_dates_distinct (s : db) (newspaper_id : UUID) : Prop :=
  NoDup ((λ r : dict, r !! "issue_date")
         <$> List.filter (matches [("newspaper_id", PStr newspaper_id)])
               (rows_of s "issues")).

(** Every row validates against the model class. *)
Definition all_valid (T : Type) `{ModelClass T} (rows : list dict) : Prop :=
  Forall (λ r, is_Some (@validate T _ r)) rows.

Definition example_issue_row (n : nat) : dict :=
  <["id" := PStr ("issue-" +:+ pretty n)]> (
  <["newspaper_id" := PStr "paper-1"]> (
  <["issue_date" := PStr ("1924-03-" +:+ pretty (10 + n)%nat)]> (
  <["num_pages" := PInt 8]> (
  <["source_type" := PStr "upload"]> (
  <["source_external_id" := PNone]> (
  <["metadata" := PNone]> (
  <["created_at" := PStr "2024-01-15T10:00:00"]> ∅))))))).

(** A store holding [n] issues of one newspaper. *)
Definition example_issue_store (n : nat) : db :=
  {| tables := {[ "issues" := example_issue_row <$> seq 1 n ]};
     server_defaults := example_defaults;
     clock := n;
     requests := [] |}.

(** ** Issue detail *)

(** The pages of an issue as the detail endpoint lists them: the rows of
    the issue, by ascending page number. *)
Definition pages_of (s : db) (issue_id : UUID) : list dict :=
  query_rows [("issue_id", PStr issue_id)] (Some ("page_number", false))
    None None (rows_of s "pages").

Definition example_newspaper_row (id name : string) : dict :=
  <["id" := PStr id]> (
  <["name" := PStr name]> (
  <["city" := PNone]> (
  <["country" := PNone]> (
  <["start_year" := PInt 1887]> (
  <["end_year" := PNone]> (
  <["description" := PNone]> (
  <["source_type" := PStr "upload"]> (
  <["created_at" := PStr "2024-01-15T10:00:00"]> ∅)))))))).

Definition example_page_row (id issue_id : string) (page_number : Z) : dict :=
  <["id" := PStr id]> (
  <["issue_id" := PStr issue_id]> (
  <["page_number" := PInt page_number]> (
  <["image_path" := PStr ("pages/" +:+ id +:+ ".png")]> (
  <["ocr_text" := PNone]> (
  <["ocr_confidence" := PNone]> (
  <["ocr_provider" := PNone]> (
  <["ocr_version" := PNone]> (
  <["ocr_meta" := PNone]> (
  <["ingestion_status" := PStr "pending"]> (
  <["created_at" := PStr "2024-01-15T10:00:00"]> (
  <["updated_at" := PStr "2024-01-15T10:00:00"]> ∅))))))))))).

Definition example_orphan_issue_row : dict :=
  <["id" := PStr "issue-9"]> (
  <["newspaper_id" := PStr "paper-gone"]> (
  <["issue_date" := PStr "1924-03-19"]> (
  <["created_at" := PStr "2024-01-15T10:00:00"]> ∅))).

(** A browse store: two issues of one newspaper, one issue whose newspaper
    is missing, and the two pages of the first issue, stored out of
    order. *)
Definition example_browse_store : db :=
  {| tables :=
       <["newspapers" := [example_newspaper_row "paper-1" "The Gazette"]]> (
       <["issues" := [example_issue_row 1; example_issue_row 2;
                      example_orphan_issue_row]]> (
       <["pages" := [example_page_row "page-b" "issue-1" 2;
                     example_page_row "page-a" "issue-1" 1;
                     example_page_row "page-c" "issue-2" 1]]> ∅));
     server_defaults := example_defaults;
     clock := 7;
     requests := [] |}.

Definition example_issue_1 : Issue.t :=
  Issue.mk "issue-1" "paper-1" "1924-03-11" 8 "upload" None None
    "2024-01-15T10:00:00".

Definition example_orphan_issue : Issue.t :=
  Issue.mk "issue-9" "paper-gone" "1924-03-19" 0 "upload" None None
    "2024-01-15T10:00:00".

Definition example_newspaper : Newspaper.t :=
  Newspaper.mk "paper-1" "The Gazette" None None (Some 1887) None None
    "upload" "2024-01-15T10:00:00".

Definition example_page (id : string) (page_number : Z) : Page.t :=
  Page.mk id "issue-1" page_number ("pages/" +:+ id +:+ ".png") None None
    None None None "pending" "2024-01-15T10:00:00" "2024-01-15T10:00:00".

(** ** Create-or-get *)

(** The shape the two [create_or_get] methods share: look the natural key
    up, return the row found, otherwise upsert [data] with the key columns
    as conflict target. *)
Definition lookup_or_upsert {T} (self : BaseRepository.t T)
    (key : list (string * pyval)) (on_conflict : string) (data : dict)
  : M T :=
  existing ←
    (found ← select_maybe_single (BaseRepository.table_name self) key;
     match found with
     | Some row =>
         if truthy (PDict row)
         then x ← lift (@construct T (BaseRepository.model_class self) row);
              mret (Some x)
         else mret None
     | None => mret None
     end);
  match existing with
  | Some x => mret x
  | None => BaseRepository._execute_upsert self data on_conflict
  end.

(** The natural keys. *)
Definition issue_key (newspaper_id : UUID) (issue_date : date)
  : list (string * pyval) :=
  [("newspaper_id", PStr newspaper_id); ("issue_date", PStr issue_date)].

Definition page_key (issue_id : UUID) (page_number : Z)
  : list (string * pyval) :=
  [("issue_id", PStr issue_id); ("page_number", PInt page_number)].

(** The number of rows of a table that carry a key. *)
Definition rows_with (s : db) (table_name : string)
    (key : list (string * pyval)) : nat :=
  length (List.filter (matches key) (rows_of s table_name)).

(** ** Updates of a page *)

(** The cell a page update writes to a column, when it writes one: the
    arguments that are given, under the column they belong to. *)
Definition page_written (ocr_text : option string)
    (ocr_confidence : option float) (ocr_provider ocr_version : option string)
    (ocr_meta : option dict) (ingestion_status : option string)
    (col : string) : option pyval :=
  if decide (col = "ocr_text") then PStr <$> ocr_text
  else if decide (col = "ocr_confidence") then PFloat <$> ocr_confidence
  else if decide (col = "ocr_provider") then PStr <$> ocr_provider
  else if decide (col = "ocr_version") then PStr <$> ocr_version
  else if decide (col = "ocr_meta") then PDict <$> ocr_meta
  else if decide (col = "ingestion_status") then PStr <$> ingestion_status
  else None.

(** [new] when it is given, the old value otherwise. *)
Definition replaced {A} (new old : option A) : option A :=
  match new with Some a => Some a | None => old end.

(** A page with the given fields replaced. *)
Definition page_after (ocr_text : option string)
    (ocr_confidence : option float) (ocr_provider ocr_version : option string)
    (ocr_meta : option dict) (ingestion_status : option string)
    (p : Page.t) : Page.t :=
  Page.mk (Page.id p) (Page.issue_id p) (Page.page_number p)
    (Page.image_path p)
    (replaced ocr_text (Page.ocr_text p))
    (replaced ocr_confidence (Page.ocr_confidence p))
    (replaced ocr_provider (Page.ocr_provider p))
    (replaced ocr_version (Page.ocr_version p))
    (replaced ocr_meta (Page.ocr_meta p))
    (default (Page.ingestion_status p) ingestion_status)
    (Page.created_at p) (Page.updated_at p).

(** ** Requests that only read *)

(** The selects: rows, a single row, or the exact count. *)
Definition is_read (q : request) : bool :=
  match q with
  | ReqSelect _ _ _ _ _ | ReqMaybeSingle _ _ | ReqCount _ => true
  | ReqUpdate _ _ _ | ReqUpsert _ _ _ | ReqInsert _ _ | ReqDelete _ _ => false
  end.

(** The table a request is sent to. *)
Definition request_table (q : request) : string :=
  match q with
  | ReqSelect t _ _ _ _ | ReqMaybeSingle t _ | ReqUpdate t _ _
  | ReqUpsert t _ _ | ReqInsert t _ | ReqDelete t _ | ReqCount t => t
  end.

(** A call that leaves the store as it found it, apart from the history,
    to which it adds requests that read the browse tables. *)
Definition reads_browse_tables {A} (m : M A) (s : db) : Prop :=
  tables (m s).2 = tables s
  ∧ clock (m s).2 = clock s
  ∧ ∃ qs, requests (m s).2 = requests s ++ qs
          ∧ Forall (λ q, is_read q = true
                         ∧ request_table q ∈ ["newspapers"; "issues"; "pages"])
              qs.

(** ** Runs of [increment_progress] *)

(** The arguments of one call of [increment_progress] on a job. *)
Record progress_call : Type := mkCall {
  call_pages_processed : Z;
  call_pages_total : Z;
  call_current_stage : string;
  call_error : option string;
}.

(** The calls of a list made on one job, one after the other; a call that
    raises ends the run. *)
Fixpoint increment_each (job_id : UUID) (calls : list progress_call) : M () :=
  match calls with
  | [] => mret ()
  | c :: rest =>
      _ ← IngestJobRepository.increment_progress job_id
            (call_pages_processed c) (call_pages_total c)
            (call_current_stage c) (call_error c);
      increment_each job_id rest
  end.

(** The error messages of the calls that report a failure, in order. *)
Definition reported_errors (calls : list progress_call) : list string :=
  omap call_error calls.

(** The number of calls that report a success. *)
Definition reported_successes (calls : list progress_call) : nat :=
  length (List.filter (λ c, bool_decide (call_error c = None)) calls).

(** The progress object of a job's first call, when the job was stored
    with an empty one. *)
Definition first_progress (pages_processed pages_total : Z)
    (current_stage : string) (error : option string) : dict :=
  <["pages_total" := PInt pages_total]> (
  <["pages_processed" := PInt pages_processed]> (
  <["pages_succeeded" := PInt (if error is Some _ then 0 else 1)]> (
  <["pages_failed" := PInt (if error is Some _ then 1 else 0)]> (
  <["current_stage" := PStr current_stage]> (
  <["errors" := PList (match error with
                       | Some e => [PStr e]
                       | None => []
                       end)]> ∅))))).

(** A job with its progress object replaced. *)
Definition with_progress (j : IngestJob.t) (p : dict) : IngestJob.t :=
  IngestJob.mk (IngestJob.id j) (IngestJob.idempotency_key j)
    (IngestJob.issue_id j) (IngestJob.status j) p
    (IngestJob.error_message j) (IngestJob.created_at j)
    (IngestJob.updated_at j).

(** ** Newspapers by name *)

(** The row [get_or_create] asks the store to insert for a name. *)
Definition new_newspaper (name : string) : NewspaperCreate.t :=
  NewspaperCreate.mk name None None None None None "upload".

Definition name_key (name : string) : list (string * pyval) :=
  [("name", PStr name)].

(** ** Interleaved calls of [get_or_create]

    A call of [get_or_create] talks to the store once or twice: it looks
    the name up, and when it finds nothing it inserts a row. Requests of
    other calls may run between the two. [newspaper_call_step] is the part
    of a call up to and including its next request. *)

Inductive newspaper_call : Type :=
| NpLookup (name : string)
| NpCreate (name : string)
| NpReturned (r : result Newspaper.t).

Definition newspaper_call_step (c : newspaper_call) (s : db)
  : newspaper_call * db :=
  match c with
  | NpLookup name =>
      match select_maybe_single "newspapers" [("name", PStr name)] s with
      | (Raise e, s') => (NpReturned (Raise e), s')
      | (Ok (Some row), s') =>
          if truthy (PDict row) then (NpReturned (construct row), s')
          else (NpCreate name, s')
      | (Ok None, s') => (NpCreate name, s')
      end
  | NpCreate name =>
      let '(r, s') :=
        BaseRepository.create NewspaperRepository.self
          (NewspaperCreate.mk name None None None None None "upload") s
      in (NpReturned r, s')
  | NpReturned r => (NpReturned r, s)
  end.



(** ** Interleaved calls of [create_or_get]

    A call of [create_or_get] looks the natural key up and, when it finds
    nothing, sends an upsert. Requests of other calls may run between the
    two. [upsert_call_step] is the part of a call up to and including its
    next request, for a call that looks [key] up and would upsert [data]
    with the conflict target [on_conflict]. *)

Inductive upsert_call (T : Type) : Type :=
| CgLookup (key : list (string * pyval)) (on_conflict : string) (data : dict)
| CgUpsert (on_conflict : string) (data : dict)
| CgReturned (r : result T).
Arguments CgLookup {T} key on_conflict data.
Arguments CgUpsert {T} on_conflict data.
Arguments CgReturned {T} r.

Definition upsert_call_step {T} (self : BaseRepository.t T)
    (c : upsert_call T) (s : db) : upsert_call T * db :=
  match c with
  | CgLookup key on_conflict data =>
      match select_maybe_single (BaseRepository.table_name self) key s with
      | (Raise e, s') => (CgReturned (Raise e), s')
      | (Ok (Some row), s') =>
          if truthy (PDict row)
          then (CgReturned (@construct T (BaseRepository.model_class self)
                              row), s')
          else (CgUpsert on_conflict data, s')
      | (Ok None, s') => (CgUpsert on_conflict data, s')
      end
  | CgUpsert on_conflict data =>
      let '(r, s') := BaseRepository._execute_upsert self data on_conflict s
      in (CgReturned r, s')
  | CgReturned r => (CgReturned r, s)
  end.

Definition upsert_returned {T} (c : upsert_call T) : bool :=
  match c with CgReturned _ => true | _ => false end.

Inductive upsert_pool_step {T} (self : BaseRepository.t T)
  : list (upsert_call T) * db → list (upsert_call T) * db → Prop :=
| upsert_pool_step_call (i : nat) (c c' : upsert_call T)
    (pool : list (upsert_call T)) (s s' : db) :
    pool !! i = Some c →
    upsert_returned c = false →
    upsert_call_step self c s = (c', s') →
    upsert_pool_step self (pool, s) (<[i := c']> pool, s').

(** The calls of the two repositories as they start. *)
Definition issue_call (newspaper_id : UUID) (issue_date : date)
    (num_pages : Z) (source_type : string)
    (source_external_id : option string) (metadata : option dict)
  : upsert_call Issue.t :=
  CgLookup (issue_key newspaper_id issue_date) "newspaper_id,issue_date"
    (IssueCreate.model_dump_exclude_none
       (IssueCreate.mk newspaper_id issue_date num_pages source_type
          source_external_id metadata)).

Definition page_call (issue_id : UUID) (page_number : Z)
    (image_path ingestion_status : string) : upsert_call Page.t :=
  CgLookup (page_key issue_id page_number) "issue_id,page_number"
    (PageCreate.model_dump_exclude_none
       (PageCreate.mk issue_id page_number image_path ingestion_status)).

(** ** Lists of origins *)

(** The number of commas in a text. *)
Fixpoint comma_count (s : string) : nat :=
  match s with
  | EmptyString => 0
  | String c s' =>
      ((if Ascii.eqb c ","%char then 1 else 0) + comma_count s')%nat
  end.

(** [",".join(l)] *)
Fixpoint join_commas (l : list string) : string :=
  match l with
  | [] => ""
  | [o] => o
  | o :: rest => o +:+ "," +:+ join_commas rest
  end.

(** ** More small stores *)

(** A job whose success counter was stored as text. *)
Definition example_odd_store : db :=
  {| tables :=
       {[ "ingest_jobs" :=
            [ example_job_row "job-3" "processing"
                {[ "pages_succeeded" := PStr "4" ]} ] ]};
     server_defaults := example_defaults;
     clock := 0;
     requests := [] |}.

(** Two newspapers stored under one name. *)
Definition example_duplicate_store : db :=
  {| tables :=
       {[ "newspapers" :=
            [ example_newspaper_row "paper-1" "The Gazette";
              example_newspaper_row "paper-2" "The Gazette" ] ]};
     server_defaults := example_defaults;
     clock := 2;
     requests := [] |}.

Definition example_settings (cors_origins : string) : Settings.t :=
  Settings.mk "https://project.supabase.co" "service-key" "" "" "openai-key"
    "" "" "admin-key" "dev" cors_origins.

(** * Properties *)

(** ** The store *)

#[global] Arguments matches : simpl never.
#[global] Arguments conflicts : simpl never.

(** Unfolding one monadic step. *)
Ltac unfold_M :=
  unfold mbind, mret, M_bind, M_ret, raise, lift in *.

Lemma rows_of_set_rows_eq s tn rows :
  rows_of (set_rows s tn rows) tn = rows.
Proof. unfold rows_of, set_rows; simpl. by rewrite lookup_insert_eq. Qed.

Lemma rows_of_set_rows_ne s tn tn' rows :
  tn ≠ tn' → rows_of (set_rows s tn rows) tn' = rows_of s tn'.
Proof.
  intros Hne. unfold rows_of, set_rows; simpl.
  by rewrite lookup_insert_ne.
Qed.

Lemma rows_of_log_request q s tn :
  rows_of (log_request q s) tn = rows_of s tn.
Proof. reflexivity. Qed.

Lemma union_empty_rows (rows : list dict) (f : dict → bool) :
  (λ r : dict, if f r then (∅ : dict) ∪ r else r) <$> rows = rows.
Proof.
  induction rows as [|r rows IH]; csimpl; [done|].
  rewrite IH. destruct (f r); [|done]. by rewrite (left_id_L ∅ (∪)).
Qed.

(** What [exec_update] does to the tables, whatever the write set. *)
Lemma exec_update_rows tn data conds s :
  rows_of (exec_update tn data conds s).2 tn
  = (λ r, if matches conds r then data ∪ r else r) <$> rows_of s tn.
Proof.
  unfold exec_update. case_bool_decide as He; simpl.
  - subst data. by rewrite union_empty_rows.
  - by rewrite rows_of_set_rows_eq.
Qed.

Lemma exec_update_other tn data conds s tn' :
  tn ≠ tn' → rows_of (exec_update tn data conds s).2 tn' = rows_of s tn'.
Proof.
  intros Hne. unfold exec_update. case_bool_decide; simpl; [done|].
  by rewrite rows_of_set_rows_ne.
Qed.

Lemma exec_update_requests tn data conds s :
  requests (exec_update tn data conds s).2
  = requests s ++ [ReqUpdate tn data conds].
Proof. unfold exec_update. by case_bool_decide. Qed.

(** ** [BaseRepository.update] *)

Section Update.
Context {T : Type} (self : BaseRepository.t T).

Lemma update_final_state id data s :
  (BaseRepository.update self id data s).2
  = (exec_update (BaseRepository.table_name self)
       (BaseRepository.update_data data) [("id", PStr id)] s).2.
Proof.
  unfold BaseRepository.update. unfold_M.
  destruct (exec_update _ _ _ s) as [[rows|e] s']; simpl; [|done].
  destruct rows as [|row rows]; simpl; [done|].
  by destruct (@construct T (BaseRepository.model_class self) row).
Qed.

Lemma update_rows id data s :
  rows_of (BaseRepository.update self id data s).2
    (BaseRepository.table_name self)
  = (λ r, if matches [("id", PStr id)] r
          then BaseRepository.update_data data ∪ r else r)
    <$> rows_of s (BaseRepository.table_name self).
Proof. by rewrite update_final_state, exec_update_rows. Qed.

Lemma update_other id data s tn' :
  BaseRepository.table_name self ≠ tn' →
  rows_of (BaseRepository.update self id data s).2 tn' = rows_of s tn'.
Proof. intros. by rewrite update_final_state, exec_update_other. Qed.

Lemma update_requests id data s :
  requests (BaseRepository.update self id data s).2
  = requests s ++ [ReqUpdate (BaseRepository.table_name self)
                     (BaseRepository.update_data data) [("id", PStr id)]].
Proof. by rewrite update_final_state, exec_update_requests. Qed.

(** The value [update] returns when some row matches and the write set is
    not empty: the first updated row, validated. *)
Lemma update_result id data s r rest :
  BaseRepository.update_data data ≠ ∅ →
  List.filter (matches [("id", PStr id)])
    (rows_of s (BaseRepository.table_name self)) = r :: rest →
  (BaseRepository.update self id data s).1
  = @construct T (BaseRepository.model_class self)
      (BaseRepository.update_data data ∪ r).
Proof.
  intros Hne Hf. unfold BaseRepository.update. unfold_M.
  unfold exec_update. rewrite bool_decide_eq_false_2 by done.
  rewrite Hf. simpl.
  by destruct (@construct T (BaseRepository.model_class self) _).
Qed.

End Update.

Lemma update_data_lookup (data : dict) k :
  BaseRepository.update_data data !! k
  = match data !! k with
    | Some v => if is_not_None v then Some v else None
    | None => None
    end.
Proof.
  unfold BaseRepository.update_data.
  destruct (data !! k) as [v|] eqn:Hk.
  - destruct (is_not_None v) eqn:Hv.
    + apply map_lookup_filter_Some. split; [done|]. simpl. by rewrite Hv.
    + apply map_lookup_filter_None. right. intros v' Hv'. simpl.
      rewrite Hk in Hv'. injection Hv' as <-. rewrite Hv. intros [].
  - apply map_lookup_filter_None. by left.
Qed.

Lemma update_data_not_None (data : dict) k v :
  BaseRepository.update_data data !! k = Some v → v ≠ PNone.
Proof.
  rewrite update_data_lookup. destruct (data !! k) as [w|]; [|done].
  destruct w; simpl; congruence.
Qed.

(** ** [IngestJobRepository.update_job] *)

Lemma update_job_data_lookup issue_id status progress error_message col :
  IngestJobRepository.update_job_data issue_id status progress error_message
    !! col
  = supplied issue_id status progress error_message col.
Proof.
  unfold IngestJobRepository.update_job_data, supplied.
  destruct issue_id, status, progress, error_message;
    repeat case_decide; by simplify_map_eq.
Qed.

Lemma supplied_not_None issue_id status progress error_message col v :
  supplied issue_id status progress error_message col = Some v → v ≠ PNone.
Proof.
  unfold supplied.
  destruct issue_id, status, progress, error_message;
    repeat case_decide; simpl; congruence.
Qed.

(** Nothing [update_job] builds is dropped by [update]'s filter. *)
Lemma update_data_update_job_data issue_id status progress error_message :
  BaseRepository.update_data
    (IngestJobRepository.update_job_data issue_id status progress
       error_message)
  = IngestJobRepository.update_job_data issue_id status progress
      error_message.
Proof.
  apply map_eq. intros col. rewrite update_data_lookup.
  rewrite update_job_data_lookup.
  destruct (supplied _ _ _ _ col) as [v|] eqn:Hs; [|done].
  apply supplied_not_None in Hs. by destruct v.
Qed.

Lemma updated_row_lookup job_id issue_id status progress error_message r col :
  updated_row job_id issue_id status progress error_message r !! col
  = match supplied issue_id status progress error_message col with
    | Some v => if matches [("id", PStr job_id)] r then Some v else r !! col
    | None => r !! col
    end.
Proof.
  unfold updated_row.
  destruct (matches _ r).
  - rewrite lookup_union, update_job_data_lookup.
    destruct (supplied _ _ _ _ col); simpl; [|by rewrite (left_id_L None _)].
    by destruct (r !! col).
  - by destruct (supplied _ _ _ _ col).
Qed.

Lemma update_job_rows job_id issue_id status progress error_message s :
  rows_of (IngestJobRepository.update_job job_id issue_id status progress
             error_message s).2 "ingest_jobs"
  = updated_row job_id issue_id status progress error_message
    <$> rows_of s "ingest_jobs".
Proof.
  unfold IngestJobRepository.update_job.
  rewrite (update_rows IngestJobRepository.self).
  by rewrite update_data_update_job_data.
Qed.

(** C5. A call of [update_job] rewrites the table of ingest jobs row by row:
    in the rows whose id is the job's, each column for which the call
    supplies a value takes that value; every other column of those rows,
    every column of every other row, and every other table keep what they
    held. *)
Theorem update_job_frame (s : db) (job_id : UUID) (issue_id : option UUID)
    (status : option string) (progress : option dict)
    (error_message : option string) :
  let s' := (IngestJobRepository.update_job job_id issue_id status progress
               error_message s).2 in
  let row' := updated_row job_id issue_id status progress error_message in
  rows_of s' "ingest_jobs" = row' <$> rows_of s "ingest_jobs"
  ∧ (∀ (r : dict) (col : string),
       row' r !! col
       = match supplied issue_id status progress error_message col with
         | Some v =>
             if matches [("id", PStr job_id)] r then Some v else r !! col
         | None => r !! col
         end)
  ∧ (∀ tn : string, tn ≠ "ingest_jobs" → rows_of s' tn = rows_of s tn).
Proof.
  cbv zeta. split; [apply update_job_rows|].
  split; [intros; apply updated_row_lookup|].
  intros tn Hne. unfold IngestJobRepository.update_job.
  by apply (update_other IngestJobRepository.self).
Qed.

Lemma union_lookup_supplied a b c d (r : dict) col :
  (IngestJobRepository.update_job_data a b c d ∪ r) !! col
  = match supplied a b c d col with Some v => Some v | None => r !! col end.
Proof.
  rewrite lookup_union, update_job_data_lookup.
  destruct (supplied _ _ _ _ col); simpl; [by destruct (r !! col)|].
  by rewrite (left_id_L None _).
Qed.

(** A valid job row stays valid under [update_job], and validates to the
    job with the supplied fields replaced. *)
Lemma of_row_updated a b c d r j :
  IngestJob.of_row r = Some j →
  IngestJob.of_row (IngestJobRepository.update_job_data a b c d ∪ r)
  = Some (IngestJob.mk (IngestJob.id j) (IngestJob.idempotency_key j)
            (match a with Some i => Some i | None => IngestJob.issue_id j end)
            (default (IngestJob.status j) b)
            (default (IngestJob.progress j) c)
            (match d with Some m => Some m | None => IngestJob.error_message j end)
            (IngestJob.created_at j) (IngestJob.updated_at j)).
Proof.
  unfold IngestJob.of_row. intros Hj.
  apply bind_Some in Hj as (i & Ei & Hj).
  apply bind_Some in Hj as (k & Ek & Hj).
  apply bind_Some in Hj as (iss & Eiss & Hj).
  apply bind_Some in Hj as (st & Est & Hj).
  apply bind_Some in Hj as (pr & Epr & Hj).
  apply bind_Some in Hj as (em & Eem & Hj).
  apply bind_Some in Hj as (ca & Eca & Hj).
  apply bind_Some in Hj as (ua & Eua & Hj).
  injection Hj as <-.
  unfold req_str, opt_str, def_str, def_dict in *.
  rewrite !union_lookup_supplied.
  change (supplied a b c d "id") with (@None pyval).
  change (supplied a b c d "idempotency_key") with (@None pyval).
  change (supplied a b c d "created_at") with (@None pyval).
  change (supplied a b c d "updated_at") with (@None pyval).
  change (supplied a b c d "issue_id") with (PStr <$> a).
  change (supplied a b c d "status") with (PStr <$> b).
  change (supplied a b c d "progress") with (PDict <$> c).
  change (supplied a b c d "error_message") with (PStr <$> d).
  cbv beta iota.
  rewrite Ei, Ek, Eca, Eua.
  destruct a, b, c, d; cbn [fmap option_fmap option_map];
    rewrite ?Eiss, ?Est, ?Epr, ?Eem; reflexivity.
Qed.

(** A non-null cell stays non-null under [update], in every table. *)
Lemma update_keeps_cells {T} (self : BaseRepository.t T) id data s
    (i : nat) (r : dict) col v :
  rows_of s (BaseRepository.table_name self) !! i = Some r →
  r !! col = Some v → v ≠ PNone →
  ∃ r' v',
    rows_of (BaseRepository.update self id data s).2
      (BaseRepository.table_name self) !! i = Some r'
    ∧ r' !! col = Some v' ∧ v' ≠ PNone.
Proof.
  intros Hi Hcol Hv. rewrite update_rows, list_lookup_fmap, Hi. simpl.
  destruct (matches [("id", PStr id)] r); [|by exists r, v].
  destruct (BaseRepository.update_data data !! col) as [w|] eqn:Hw.
  - exists (BaseRepository.update_data data ∪ r), w. split; [done|].
    rewrite lookup_union, Hw, Hcol. split; [reflexivity|].
    by eapply update_data_not_None.
  - exists (BaseRepository.update_data data ∪ r), v. split; [done|].
    rewrite lookup_union, Hw, Hcol. split; [reflexivity|done].
Qed.

(** C9. Neither [update_job] nor the generic [update] under it can clear a
    cell of an ingest job: the write set that reaches the store holds no
    [None] (an argument that is [None] is not in it), and a cell that was
    not NULL before the call is not NULL after it. *)
Theorem update_never_clears (s : db) (i : nat) (r : dict) (col : string)
    (v : pyval) :
  rows_of s "ingest_jobs" !! i = Some r →
  r !! col = Some v →
  v ≠ PNone →
  (∀ job_id issue_id status progress error_message,
     let s' := (IngestJobRepository.update_job job_id issue_id status
                  progress error_message s).2 in
     (∃ w : dict,
        requests s'
        = requests s ++ [ReqUpdate "ingest_jobs" w [("id", PStr job_id)]]
        ∧ (∀ k, w !! k = supplied issue_id status progress error_message k)
        ∧ (∀ k x, w !! k = Some x → x ≠ PNone))
     ∧ ∃ r' v', rows_of s' "ingest_jobs" !! i = Some r'
                ∧ r' !! col = Some v' ∧ v' ≠ PNone)
  ∧ (∀ id (data : dict),
       let s' := (BaseRepository.update IngestJobRepository.self id data s).2
       in
       (∃ w : dict,
          requests s'
          = requests s ++ [ReqUpdate "ingest_jobs" w [("id", PStr id)]]
          ∧ (∀ k x, w !! k = Some x ↔ data !! k = Some x ∧ x ≠ PNone))
       ∧ ∃ r' v', rows_of s' "ingest_jobs" !! i = Some r'
                  ∧ r' !! col = Some v' ∧ v' ≠ PNone).
Proof.
  intros Hi Hcol Hv. split.
  - intros job_id a b c d. cbv zeta. split.
    + exists (IngestJobRepository.update_job_data a b c d).
      unfold IngestJobRepository.update_job.
      rewrite (update_requests IngestJobRepository.self).
      rewrite update_data_update_job_data.
      split; [done|]. split; [apply update_job_data_lookup|].
      intros k x. rewrite update_job_data_lookup. apply supplied_not_None.
    + unfold IngestJobRepository.update_job.
      by eapply (update_keeps_cells IngestJobRepository.self).
  - intros id data. cbv zeta. split.
    + exists (BaseRepository.update_data data).
      rewrite (update_requests IngestJobRepository.self).
      split; [done|]. intros k x. rewrite update_data_lookup.
      destruct (data !! k) as [[]|]; simpl; split.
      all: try (intros H;
                first [discriminate H
                      |split; [done|]; by injection H as <-]).
      all: intros [H1 H2];
        first [discriminate H1 | done | by injection H1 as <-].
    + by eapply (update_keeps_cells IngestJobRepository.self).
Qed.

Lemma matches_id_updated id a b c d (r : dict) :
  matches [("id", PStr id)] (IngestJobRepository.update_job_data a b c d ∪ r)
  = matches [("id", PStr id)] r.
Proof.
  unfold matches. cbn [forallb]. rewrite union_lookup_supplied.
  by change (supplied a b c d "id") with (@None pyval).
Qed.

Lemma filter_updated id a b c d (rows : list dict) :
  List.filter (matches [("id", PStr id)]) (updated_row id a b c d <$> rows)
  = (λ r, IngestJobRepository.update_job_data a b c d ∪ r)
    <$> List.filter (matches [("id", PStr id)]) rows.
Proof.
  induction rows as [|r rows IH]; [done|].
  rewrite fmap_cons. cbn [List.filter].
  destruct (matches [("id", PStr id)] r) eqn:Hm.
  - assert (updated_row id a b c d r
            = IngestJobRepository.update_job_data a b c d ∪ r) as ->
      by (unfold updated_row; by rewrite Hm).
    by rewrite matches_id_updated, Hm, fmap_cons, IH.
  - assert (updated_row id a b c d r = r) as ->
      by (unfold updated_row; by rewrite Hm).
    by rewrite Hm.
Qed.

Lemma of_row_status (r : dict) j st :
  IngestJob.of_row r = Some j → r !! "status" = Some (PStr st) →
  IngestJob.status j = st.
Proof.
  unfold IngestJob.of_row. intros Hj Hst.
  apply bind_Some in Hj as (i & Ei & Hj).
  apply bind_Some in Hj as (k & Ek & Hj).
  apply bind_Some in Hj as (iss & Eiss & Hj).
  apply bind_Some in Hj as (st' & Est & Hj).
  apply bind_Some in Hj as (pr & Epr & Hj).
  apply bind_Some in Hj as (em & Eem & Hj).
  apply bind_Some in Hj as (ca & Eca & Hj).
  apply bind_Some in Hj as (ua & Eua & Hj).
  injection Hj as <-. unfold def_str in Est. rewrite Hst in Est.
  by injection Est as <-.
Qed.

Lemma construct_ingest_job (r : dict) j :
  IngestJob.of_row r = Some j →
  @construct _ (BaseRepository.model_class IngestJobRepository.self) r = Ok j.
Proof.
  intros H. unfold construct.
  change (@validate _ _ r) with (IngestJob.of_row r). by rewrite H.
Qed.

(** C8. Nothing guards the status of a job: on a job whose stored status is
    terminal ([completed] or [failed]), [update_job] with any status
    returns normally, returns the job with that status, and leaves that
    status in the store. *)
Theorem update_job_leaves_terminal_status (s : db) (job_id : UUID)
    (r : dict) (rest : list dict) (j : IngestJob.t) (old new : string) :
  old = "completed" ∨ old = "failed" →
  List.filter (matches [("id", PStr job_id)]) (rows_of s "ingest_jobs")
  = r :: rest →
  r !! "status" = Some (PStr old) →
  IngestJob.of_row r = Some j →
  ∃ (j' : IngestJob.t) (s' : db) (r' : dict) (rest' : list dict),
    IngestJobRepository.update_job job_id None (Some new) None None s
    = (Ok j', s')
    ∧ IngestJob.status j = old
    ∧ IngestJob.status j' = new
    ∧ List.filter (matches [("id", PStr job_id)]) (rows_of s' "ingest_jobs")
      = r' :: rest'
    ∧ Forall (λ x : dict, x !! "status" = Some (PStr new)) (r' :: rest').
Proof.
  intros _ Hf Hst Hj.
  pose proof (of_row_updated None (Some new) None None r j Hj) as Hj'.
  eexists _, (IngestJobRepository.update_job job_id None (Some new) None None
                s).2, _, _.
  split; [|split; [by eapply of_row_status|]].
  - rewrite (surjective_pairing (IngestJobRepository.update_job _ _ _ _ _ s)).
    f_equal. unfold IngestJobRepository.update_job.
    rewrite (update_result IngestJobRepository.self _ _ _ r rest).
    + rewrite update_data_update_job_data.
      by rewrite (construct_ingest_job _ _ Hj').
    + rewrite update_data_update_job_data. intros He.
      apply (f_equal (λ m : dict, m !! "status")) in He.
      by rewrite update_job_data_lookup in He.
    + done.
  - split; [done|].
    rewrite update_job_rows, filter_updated, Hf, fmap_cons.
    split; [reflexivity|].
    rewrite <- fmap_cons. apply Forall_fmap, Forall_forall.
    intros x _. unfold compose. by rewrite union_lookup_supplied.
Qed.

(** ** Evaluating requests on a concrete store *)

(** Replaces each row filter applied to a concrete row by its value. *)
Ltac eval_matches :=
  repeat match goal with
  | |- context [matches ?c ?r] =>
      let b := eval vm_compute in (matches c r) in
      replace (matches c r) with b by (vm_compute; reflexivity)
  end.

Lemma example_store_jobs :
  rows_of example_store "ingest_jobs"
  = [ example_job_row "job-1" "completed" example_progress;
      example_job_row "job-2" "processing" ∅ ].
Proof.
  unfold rows_of, example_store. cbn [tables].
  by rewrite lookup_singleton_eq.
Qed.

Lemma example_store_job_1 :
  List.filter (matches [("id", PStr "job-1")])
    (rows_of example_store "ingest_jobs")
  = [example_job_row "job-1" "completed" example_progress].
Proof.
  rewrite example_store_jobs. cbn [List.filter]. eval_matches. reflexivity.
Qed.

Lemma update_job_leaves_terminal_status_witness :
  ∃ (j' : IngestJob.t) (s' : db) (r' : dict) (rest' : list dict),
    IngestJobRepository.update_job "job-1" None (Some "processing") None None
      example_store = (Ok j', s')
    ∧ IngestJob.status example_job = "completed"
    ∧ IngestJob.status j' = "processing"
    ∧ List.filter (matches [("id", PStr "job-1")]) (rows_of s' "ingest_jobs")
      = r' :: rest'
    ∧ Forall (λ x : dict, x !! "status" = Some (PStr "processing"))
        (r' :: rest').
Proof.
  apply (update_job_leaves_terminal_status example_store "job-1"
           (example_job_row "job-1" "completed" example_progress) []
           example_job "completed" "processing").
  - by left.
  - exact example_store_job_1.
  - vm_compute. reflexivity.
  - reflexivity.
Defined.

Lemma update_never_clears_witness :
  (∃ r' v',
     rows_of (IngestJobRepository.update_job "job-1" None None None
                (Some "boom") example_store).2 "ingest_jobs" !! 0%nat
     = Some r'
     ∧ r' !! "progress" = Some v' ∧ v' ≠ PNone)
  ∧ (∃ r' v',
       rows_of (BaseRepository.update IngestJobRepository.self "job-1"
                  {[ "progress" := PNone ]} example_store).2 "ingest_jobs"
         !! 0%nat = Some r'
       ∧ r' !! "progress" = Some v' ∧ v' ≠ PNone).
Proof.
  pose proof (update_never_clears example_store 0
                (example_job_row "job-1" "completed" example_progress)
                "progress" (PDict example_progress)) as [H1 H2].
  - by rewrite example_store_jobs.
  - reflexivity.
  - discriminate.
  - split.
    + exact (proj2 (H1 "job-1" None None None (Some "boom"))).
    + exact (proj2 (H2 "job-1" {[ "progress" := PNone ]})).
Defined.

(** ** [IngestJobRepository.increment_progress] *)

Lemma py_last_spec {A} (n : nat) (l : list A) :
  ∃ dropped, l = dropped ++ py_last n l
             ∧ length (py_last n l) = Nat.min n (length l).
Proof.
  exists (take (length l - n) l). unfold py_last. split.
  - by rewrite take_drop.
  - rewrite length_drop. lia.
Qed.

Lemma truthy_dict_false (p : dict) : truthy (PDict p) = false → p = ∅.
Proof.
  simpl. case_bool_decide; [done|discriminate].
Qed.

(** The progress object the merge starts from reads like the stored one. *)
Lemma start_counter (p : dict) pt k :
  k = "pages_succeeded" ∨ k = "pages_failed" →
  counter (if truthy (PDict p) then p
           else IngestJobRepository.initial_progress pt) k
  = counter p k.
Proof.
  intros Hk. destruct (truthy (PDict p)) eqn:Ht; [done|].
  apply truthy_dict_false in Ht as ->.
  by destruct Hk as [-> | ->].
Qed.

Lemma start_errors (p : dict) pt :
  errors_of (if truthy (PDict p) then p
             else IngestJobRepository.initial_progress pt)
  = errors_of p.
Proof.
  destruct (truthy (PDict p)) eqn:Ht; [done|].
  by apply truthy_dict_false in Ht as ->.
Qed.

Ltac lookup_inserts :=
  rewrite ?lookup_insert_eq;
  repeat (rewrite lookup_insert_ne by discriminate; rewrite ?lookup_insert_eq).

Lemma merge_progress_success (p : dict) pp pt st a :
  counter p "pages_succeeded" = PInt a →
  ∃ p', IngestJobRepository.merge_progress p pp pt st None = Ok p'
        ∧ position_recorded p' pp pt st
        ∧ success_recorded p p'.
Proof.
  intros Ha. unfold IngestJobRepository.merge_progress.
  set (base := if truthy (PDict p) then p
               else IngestJobRepository.initial_progress pt).
  cbv zeta. lookup_inserts.
  change (default (PInt 0) (base !! "pages_succeeded"))
    with (counter base "pages_succeeded").
  unfold base at 1. rewrite start_counter, Ha by (by left). cbn [py_add1].
  eexists. split; [reflexivity|]. split.
  - unfold position_recorded. by lookup_inserts.
  - unfold success_recorded. split; [|split].
    + exists a. split; [done|]. by lookup_inserts.
    + unfold counter at 1. lookup_inserts.
      change (default (PInt 0) (base !! "pages_failed"))
        with (counter base "pages_failed").
      unfold base. apply start_counter. by right.
    + unfold errors_of at 1. lookup_inserts.
      change (default (PList []) (base !! "errors")) with (errors_of base).
      unfold base. apply start_errors.
Qed.

Lemma merge_progress_failure (p : dict) pp pt st e b l :
  e ≠ "" →
  counter p "pages_failed" = PInt b →
  errors_of p = PList l →
  ∃ p', IngestJobRepository.merge_progress p pp pt st (Some e) = Ok p'
        ∧ position_recorded p' pp pt st
        ∧ failure_recorded p p' e.
Proof.
  intros He Hb Hl. unfold IngestJobRepository.merge_progress.
  set (base := if truthy (PDict p) then p
               else IngestJobRepository.initial_progress pt).
  cbv zeta.
  assert (truthy (PStr e) = true) as ->.
  { simpl. destruct (String.eqb_spec e ""); [done|reflexivity]. }
  lookup_inserts.
  change (default (PInt 0) (base !! "pages_failed"))
    with (counter base "pages_failed").
  unfold base at 1. rewrite start_counter, Hb by (by right).
  cbn [py_add1]. lookup_inserts.
  change (default (PList []) (base !! "errors")) with (errors_of base).
  unfold base at 1. rewrite start_errors, Hl.
  cbn [py_append].
  eexists. split; [reflexivity|]. split.
  - unfold position_recorded. by lookup_inserts.
  - unfold failure_recorded. split; [|split].
    + exists b. split; [done|]. by lookup_inserts.
    + unfold counter at 1. lookup_inserts.
      change (default (PInt 0) (base !! "pages_succeeded"))
        with (counter base "pages_succeeded").
      unfold base. apply start_counter. by left.
    + destruct (py_last_spec 10 (l ++ [PStr e])) as (dropped & Hd & Hlen).
      exists l, (py_last 10 (l ++ [PStr e])), dropped.
      split; [done|]. split; [by lookup_inserts|]. split; [done|].
      rewrite Hlen, length_app. simpl. done.
Qed.

(** ** [BaseRepository.get_by_id] *)

Section GetById.
Context {T : Type} (self : BaseRepository.t T).

Lemma get_by_id_one id s (r : dict) x :
  List.filter (matches [("id", PStr id)])
    (rows_of s (BaseRepository.table_name self)) = [r] →
  r ≠ ∅ →
  @validate T (BaseRepository.model_class self) r = Some x →
  BaseRepository.get_by_id self id s
  = (Ok (Some x),
     log_request (ReqMaybeSingle (BaseRepository.table_name self)
                    [("id", PStr id)]) s).
Proof.
  intros Hf Hne Hv. unfold BaseRepository.get_by_id, select_maybe_single.
  unfold_M. rewrite Hf. cbn [truthy].
  rewrite bool_decide_eq_false_2 by done. cbn [negb].
  unfold construct. by rewrite Hv.
Qed.

Lemma get_by_id_none id s :
  List.filter (matches [("id", PStr id)])
    (rows_of s (BaseRepository.table_name self)) = [] →
  BaseRepository.get_by_id self id s
  = (Ok None,
     log_request (ReqMaybeSingle (BaseRepository.table_name self)
                    [("id", PStr id)]) s).
Proof.
  intros Hf. unfold BaseRepository.get_by_id, select_maybe_single.
  unfold_M. by rewrite Hf.
Qed.

End GetById.

Lemma ingest_job_row_nonempty (r : dict) j :
  IngestJob.of_row r = Some j → r ≠ ∅.
Proof.
  unfold IngestJob.of_row. intros Hj ->.
  apply bind_Some in Hj as (i & Ei & _). unfold req_str in Ei.
  by rewrite lookup_empty in Ei.
Qed.

(** C1 (as amended). On a job that is present in the store, with a stored
    progress object of the expected shape, [increment_progress] without an
    error adds one to [pages_succeeded] and leaves [pages_failed] and the
    error log as they were; with a non-empty error message it adds one to
    [pages_failed], leaves [pages_succeeded] as it was, and appends the
    message to the error log, keeping the last ten entries. Either way
    [pages_processed], [pages_total] and [current_stage] take the values of
    the call, and the result is both returned and stored. *)
Theorem increment_progress_records (s : db) (job_id : UUID)
    (pages_processed pages_total : Z) (current_stage : string)
    (error : option string) (r : dict) (j : IngestJob.t) :
  List.filter (matches [("id", PStr job_id)]) (rows_of s "ingest_jobs") = [r] →
  IngestJob.of_row r = Some j →
  progress_typed (IngestJob.progress j) →
  error ≠ Some "" →
  increment_recorded s job_id pages_processed pages_total current_stage error
    (IngestJob.progress j).
Proof.
  intros Hf Hj (Ha & Hb & Hl) Herr.
  assert (∃ p',
    IngestJobRepository.merge_progress (IngestJob.progress j) pages_processed
      pages_total current_stage error = Ok p'
    ∧ position_recorded p' pages_processed pages_total current_stage
    ∧ match error with
      | None => success_recorded (IngestJob.progress j) p'
      | Some e => failure_recorded (IngestJob.progress j) p' e
      end) as (p' & Hm & Hpos & Hrec).
  { destruct error as [e|].
    - destruct Hb as [b Hb], Hl as [l Hl].
      apply (merge_progress_failure _ _ _ _ e b l); [congruence|done..].
    - destruct Ha as [a Ha]. by apply (merge_progress_success _ _ _ _ a). }
  set (s1 := log_request (ReqMaybeSingle "ingest_jobs" [("id", PStr job_id)]) s).
  pose proof (of_row_updated None None (Some p') None r j Hj) as Hj'.
  cbn [default] in Hj'.
  unfold increment_recorded.
  eexists _, (IngestJobRepository.update_job job_id None None (Some p') None
                s1).2,
    (IngestJobRepository.update_job_data None None (Some p') None ∪ r).
  split; [|split; [|split; [|split]]].
  - unfold IngestJobRepository.increment_progress. unfold_M.
    rewrite (get_by_id_one IngestJobRepository.self job_id s r j Hf
               (ingest_job_row_nonempty r j Hj) Hj).
    rewrite Hm. fold s1.
    rewrite (surjective_pairing (IngestJobRepository.update_job _ _ _ _ _ s1)).
    f_equal. unfold IngestJobRepository.update_job.
    rewrite (update_result IngestJobRepository.self _ _ _ r []).
    + rewrite update_data_update_job_data.
      by rewrite (construct_ingest_job _ _ Hj').
    + rewrite update_data_update_job_data. intros He.
      apply (f_equal (λ m : dict, m !! "progress")) in He.
      by rewrite update_job_data_lookup in He.
    + done.
  - unfold s1.
    by rewrite update_job_rows, filter_updated, rows_of_log_request, Hf.
  - by rewrite union_lookup_supplied.
  - done.
  - done.
Qed.

Lemma example_progress_typed : progress_typed (IngestJob.progress example_job).
Proof.
  split; [by exists 4|]. split; [by exists 0|]. by exists [].
Qed.

Lemma increment_progress_records_witness :
  increment_recorded example_store "job-1" 5 10 "ocr" (Some "timeout")
    (IngestJob.progress example_job)
  ∧ increment_recorded example_store "job-1" 5 10 "ocr" None
      (IngestJob.progress example_job).
Proof.
  split.
  - apply (increment_progress_records example_store "job-1" 5 10 "ocr"
             (Some "timeout")
             (example_job_row "job-1" "completed" example_progress)
             example_job).
    + exact example_store_job_1.
    + reflexivity.
    + exact example_progress_typed.
    + discriminate.
  - apply (increment_progress_records example_store "job-1" 5 10 "ocr" None
             (example_job_row "job-1" "completed" example_progress)
             example_job).
    + exact example_store_job_1.
    + reflexivity.
    + exact example_progress_typed.
    + discriminate.
Defined.

(** With the empty string as error message the call counts a success: the
    job had 4 successes and no failure, and is returned with 5 and none. *)
Lemma increment_progress_empty_error :
  returned_counters
    (IngestJobRepository.increment_progress "job-1" 5 10 "ocr" (Some "")
       example_store)
  = Some (PInt 5, PInt 0, PList []).
Proof. vm_compute. reflexivity. Qed.

(** C1, as stated, fails for the error argument [""]: no failure is
    recorded. *)
Lemma increment_progress_empty_error_not_recorded :
  ¬ increment_recorded example_store "job-1" 5 10 "ocr" (Some "")
      example_progress.
Proof.
  intros (j' & s' & r' & Hrun & _ & _ & _ & (b & Hb & Hb') & _).
  pose proof increment_progress_empty_error as Hc.
  unfold returned_counters in Hc. rewrite Hrun in Hc. cbn [fst] in Hc.
  injection Hc as _ Hc _. unfold counter in Hc. rewrite Hb' in Hc.
  cbn [default] in Hc. injection Hc as Hc.
  assert (b = 0) as -> by (vm_compute in Hb; by injection Hb).
  discriminate Hc.
Qed.

(** ** Interleavings of [increment_progress] *)

(** A call that runs alone is [increment_progress]. *)
Lemma call_step_alone job_id pp pt st err s :
  let '(c1, s1) := call_step (Start job_id pp pt st err) s in
  call_step c1 s1
  = (Returned (IngestJobRepository.increment_progress job_id pp pt st err s).1,
     (IngestJobRepository.increment_progress job_id pp pt st err s).2).
Proof.
  unfold call_step, IngestJobRepository.increment_progress. unfold_M.
  destruct (BaseRepository.get_by_id _ job_id s) as [[[job|]|e] s1];
    [|done..].
  destruct (IngestJobRepository.merge_progress _ _ _ _ _) as [p|e]; [|done].
  by destruct (IngestJobRepository.update_job _ _ _ _ _ s1).
Qed.

Lemma call_step_read job_id pp pt st err s (r : dict) j p' :
  List.filter (matches [("id", PStr job_id)]) (rows_of s "ingest_jobs") = [r] →
  IngestJob.of_row r = Some j →
  IngestJobRepository.merge_progress (IngestJob.progress j) pp pt st err
  = Ok p' →
  call_step (Start job_id pp pt st err) s
  = (Merged job_id p',
     log_request (ReqMaybeSingle "ingest_jobs" [("id", PStr job_id)]) s).
Proof.
  intros Hf Hj Hm. unfold call_step.
  rewrite (get_by_id_one IngestJobRepository.self job_id s r j Hf
             (ingest_job_row_nonempty r j Hj) Hj).
  by rewrite Hm.
Qed.

(** Writing a progress object back: the whole object replaces the stored
    one, whatever the stored one has become since it was read. *)
Lemma update_job_progress job_id (p' : dict) s (r : dict) j :
  List.filter (matches [("id", PStr job_id)]) (rows_of s "ingest_jobs") = [r] →
  IngestJob.of_row r = Some j →
  let w := IngestJobRepository.update_job_data None None (Some p') None in
  let j' := IngestJob.mk (IngestJob.id j) (IngestJob.idempotency_key j)
              (IngestJob.issue_id j) (IngestJob.status j) p'
              (IngestJob.error_message j) (IngestJob.created_at j)
              (IngestJob.updated_at j) in
  ∃ s',
    IngestJobRepository.update_job job_id None None (Some p') None s
    = (Ok j', s')
    ∧ List.filter (matches [("id", PStr job_id)]) (rows_of s' "ingest_jobs")
      = [w ∪ r]
    ∧ IngestJob.of_row (w ∪ r) = Some j'
    ∧ (w ∪ r) !! "progress" = Some (PDict p').
Proof.
  intros Hf Hj w j'.
  pose proof (of_row_updated None None (Some p') None r j Hj) as Hj'.
  cbn [default] in Hj'.
  exists (IngestJobRepository.update_job job_id None None (Some p') None s).2.
  split; [|split; [|split]].
  - rewrite (surjective_pairing (IngestJobRepository.update_job _ _ _ _ _ s)).
    f_equal. unfold IngestJobRepository.update_job.
    rewrite (update_result IngestJobRepository.self _ _ _ r []).
    + rewrite update_data_update_job_data.
      by rewrite (construct_ingest_job _ _ Hj').
    + rewrite update_data_update_job_data. intros He.
      apply (f_equal (λ m : dict, m !! "progress")) in He.
      by rewrite update_job_data_lookup in He.
    + done.
  - by rewrite update_job_rows, filter_updated, Hf.
  - exact Hj'.
  - unfold w. by rewrite union_lookup_supplied.
Qed.

Lemma call_step_write job_id (p' : dict) s (r : dict) j :
  List.filter (matches [("id", PStr job_id)]) (rows_of s "ingest_jobs") = [r] →
  IngestJob.of_row r = Some j →
  ∃ j' s' r',
    call_step (Merged job_id p') s = (Returned (Ok j'), s')
    ∧ List.filter (matches [("id", PStr job_id)]) (rows_of s' "ingest_jobs")
      = [r']
    ∧ IngestJob.of_row r' = Some j'
    ∧ r' !! "progress" = Some (PDict p').
Proof.
  intros Hf Hj.
  destruct (update_job_progress job_id p' s r j Hf Hj)
    as (s' & Hrun & Hf' & Hj' & Hp).
  eexists _, s', _. split; [|by eauto].
  unfold call_step. by rewrite Hrun.
Qed.

(** After one more success or failure the outcome counters add up to one
    more than before. *)
Lemma merged_counters (p p' : dict) (error : option string) a b :
  counter p "pages_succeeded" = PInt a →
  counter p "pages_failed" = PInt b →
  match error with
  | None => success_recorded p p'
  | Some e => failure_recorded p p' e
  end →
  ∃ a' b', counter p' "pages_succeeded" = PInt a'
           ∧ counter p' "pages_failed" = PInt b'
           ∧ a' + b' = a + b + 1.
Proof.
  intros Ha Hb Hrec. destruct error as [e|].
  - destruct Hrec as ((b0 & Hb0 & Hb') & Hs & _).
    rewrite Hb in Hb0. injection Hb0 as <-.
    exists a, (b + 1). rewrite Hs, Ha. unfold counter at 1. rewrite Hb'.
    split; [done|]. split; [done|lia].
  - destruct Hrec as ((a0 & Ha0 & Ha') & Hf & _).
    rewrite Ha in Ha0. injection Ha0 as <-.
    exists (a + 1), b. rewrite Hf, Hb. unfold counter at 1. rewrite Ha'.
    split; [done|]. split; [done|lia].
Qed.

Lemma merge_progress_recorded (p : dict) pp pt st (error : option string) :
  progress_typed p →
  error ≠ Some "" →
  ∃ p', IngestJobRepository.merge_progress p pp pt st error = Ok p'
        ∧ position_recorded p' pp pt st
        ∧ match error with
          | None => success_recorded p p'
          | Some e => failure_recorded p p' e
          end.
Proof.
  intros ([a Ha] & [b Hb] & [l Hl]) Herr. destruct error as [e|].
  - apply (merge_progress_failure _ _ _ _ e b l); [congruence|done..].
  - by apply (merge_progress_success _ _ _ _ a).
Qed.

(** C10. Two calls of [increment_progress] on one job can interleave so
    that one update is lost: when both read before either writes, both
    calls return normally, and the progress left in the store is the one
    the second writer merged from what it had read; its outcome counters
    add up to one more than before the two calls, not two. *)
Theorem concurrent_increments_lose_update (s : db) (job_id : UUID)
    (r : dict) (j : IngestJob.t) (a b : Z)
    (pp1 pt1 : Z) (st1 : string) (e1 : option string)
    (pp2 pt2 : Z) (st2 : string) (e2 : option string) :
  List.filter (matches [("id", PStr job_id)]) (rows_of s "ingest_jobs") = [r] →
  IngestJob.of_row r = Some j →
  counter (IngestJob.progress j) "pages_succeeded" = PInt a →
  counter (IngestJob.progress j) "pages_failed" = PInt b →
  (∃ l, errors_of (IngestJob.progress j) = PList l) →
  e1 ≠ Some "" →
  e2 ≠ Some "" →
  ∃ (j1 j2 : IngestJob.t) (s' : db) (p' : dict) (a' b' : Z),
    rtc pool_step
      ([Start job_id pp1 pt1 st1 e1; Start job_id pp2 pt2 st2 e2], s)
      ([Returned (Ok j1); Returned (Ok j2)], s')
    ∧ stored_progress s' job_id = Some (PDict p')
    ∧ IngestJobRepository.merge_progress (IngestJob.progress j) pp2 pt2 st2 e2
      = Ok p'
    ∧ counter p' "pages_succeeded" = PInt a'
    ∧ counter p' "pages_failed" = PInt b'
    ∧ a' + b' = a + b + 1.
Proof.
  intros Hf Hj Ha Hb Hl He1 He2.
  assert (progress_typed (IngestJob.progress j)) as Hty by (split; eauto).
  destruct (merge_progress_recorded _ pp1 pt1 st1 e1 Hty He1)
    as (pA & HmA & _ & _).
  destruct (merge_progress_recorded _ pp2 pt2 st2 e2 Hty He2)
    as (pB & HmB & _ & HrecB).
  set (q := ReqMaybeSingle "ingest_jobs" [("id", PStr job_id)]).
  pose proof (call_step_read job_id pp1 pt1 st1 e1 s r j pA Hf Hj HmA) as H1.
  pose proof (call_step_read job_id pp2 pt2 st2 e2 (log_request q s) r j pB
                Hf Hj HmB) as H2.
  destruct (call_step_write job_id pA (log_request q (log_request q s)) r j
              Hf Hj) as (jA & s3 & rA & H3 & Hf3 & Hj3 & _).
  destruct (call_step_write job_id pB s3 rA jA Hf3 Hj3)
    as (jB & s4 & rB & H4 & Hf4 & _ & Hp4).
  destruct (merged_counters _ pB e2 a b Ha Hb HrecB) as (a' & b' & Ha' & Hb' & Hsum).
  exists jA, jB, s4, pB, a', b'.
  split; [|split; [|by repeat split]].
  - eapply rtc_l.
    { eapply (pool_step_call 0); [reflexivity|reflexivity|exact H1]. }
    eapply rtc_l.
    { eapply (pool_step_call 1); [reflexivity|reflexivity|exact H2]. }
    eapply rtc_l.
    { eapply (pool_step_call 0); [reflexivity|reflexivity|exact H3]. }
    eapply rtc_l.
    { eapply (pool_step_call 1); [reflexivity|reflexivity|exact H4]. }
    apply rtc_refl.
  - unfold stored_progress. by rewrite Hf4.
Qed.

Lemma concurrent_increments_lose_update_witness :
  ∃ (j1 j2 : IngestJob.t) (s' : db) (p' : dict) (a' b' : Z),
    rtc pool_step
      ([Start "job-1" 5 10 "ocr" None; Start "job-1" 6 10 "ocr" None],
       example_store)
      ([Returned (Ok j1); Returned (Ok j2)], s')
    ∧ stored_progress s' "job-1" = Some (PDict p')
    ∧ IngestJobRepository.merge_progress (IngestJob.progress example_job)
        6 10 "ocr" None = Ok p'
    ∧ counter p' "pages_succeeded" = PInt a'
    ∧ counter p' "pages_failed" = PInt b'
    ∧ a' + b' = 4 + 0 + 1.
Proof.
  apply (concurrent_increments_lose_update example_store "job-1"
           (example_job_row "job-1" "completed" example_progress)
           example_job 4 0 5 10 "ocr" None 6 10 "ocr" None).
  - exact example_store_job_1.
  - reflexivity.
  - reflexivity.
  - reflexivity.
  - by exists [].
  - discriminate.
  - discriminate.
Defined.

(** ** [PdfDocumentProcessor.process] *)

Section ProcessProperties.
Context {Image : Type}.
Context (convert_from_bytes : bytes → Z → string → result (list Image)).
Context (save : Image → string → result bytes).

Lemma encode_pages_ok self (images : list Image) (pages acc : list bytes) :
  Forall2 (λ i b, save i (PdfDocumentProcessor.image_format self) = Ok b)
    images pages →
  PdfDocumentProcessor.encode_pages Image save self images acc
  = Ok (acc ++ pages).
Proof.
  intros H. revert acc.
  induction H as [|i b images pages Hi _ IH]; intros acc; simpl.
  - by rewrite app_nil_r.
  - rewrite Hi, IH. by rewrite <- app_assoc.
Qed.

Lemma encode_pages_fail self (done : list Image) image rest e acc :
  Forall (λ i, ∃ b, save i (PdfDocumentProcessor.image_format self) = Ok b)
    done →
  save image (PdfDocumentProcessor.image_format self) = Raise e →
  PdfDocumentProcessor.encode_pages Image save self (done ++ image :: rest) acc
  = Raise e.
Proof.
  intros H He. revert acc.
  induction H as [|i done [b Hi] _ IH]; intros acc; simpl.
  - by rewrite He.
  - by rewrite Hi, IH.
Qed.

Lemma process_body_fails self file_bytes e :
  rasterization_fails convert_from_bytes save self file_bytes e →
  PdfDocumentProcessor.process_body Image convert_from_bytes save self
    file_bytes = Raise e.
Proof.
  unfold PdfDocumentProcessor.process_body.
  intros [Hc | (images & done & image & rest & Hc & -> & Hd & He)].
  - by rewrite Hc.
  - rewrite Hc. by apply encode_pages_fail.
Qed.

End ProcessProperties.

Lemma py_in_prefix (needle post : string) : py_in needle (needle +:+ post).
Proof. by exists "", post. Qed.

Lemma string_app_nil_r (s : string) : s +:+ "" = s.
Proof.
  induction s as [|c s IH]; [done|].
  change (String c (s +:+ "") = String c s). by rewrite IH.
Qed.

Lemma py_in_suffix (pre needle : string) : py_in needle (pre +:+ needle).
Proof. exists pre, "". by rewrite string_app_nil_r. Qed.

(** C6. When rasterization fails with [e], [process] raises one exception:
    its message is "Failed to process PDF: " followed by the text of [e],
    its cause is [e], and no list of pages is returned, whatever was
    encoded before the failure. *)
Theorem process_wraps_failure {Image : Type}
    (convert_from_bytes : bytes → Z → string → result (list Image))
    (save : Image → string → result bytes)
    (self : PdfDocumentProcessor.t) (file_bytes : bytes) (e : exn) :
  rasterization_fails convert_from_bytes save self file_bytes e →
  ∃ wrapped : exn,
    PdfDocumentProcessor.process Image convert_from_bytes save self file_bytes
    = Raise wrapped
    ∧ exn_str wrapped = "Failed to process PDF: " +:+ exn_str e
    ∧ py_in "Failed to process" (exn_str wrapped)
    ∧ py_in (exn_str e) (exn_str wrapped)
    ∧ exn_cause wrapped = Some e
    ∧ ∀ pages : list bytes,
        PdfDocumentProcessor.process Image convert_from_bytes save self
          file_bytes ≠ Ok pages.
Proof.
  intros Hf. apply process_body_fails in Hf.
  exists (Exception ("Failed to process PDF: " +:+ exn_str e) (Some e)).
  unfold PdfDocumentProcessor.process. rewrite Hf.
  split; [done|]. split; [done|]. split.
  - apply (py_in_prefix "Failed to process" (" PDF: " +:+ exn_str e)).
  - split; [apply py_in_suffix|]. split; [done|]. discriminate.
Qed.

Lemma process_wraps_failure_witness :
  (∃ wrapped : exn,
     PdfDocumentProcessor.process nat example_convert example_save
       get_document_processor [] = Raise wrapped
     ∧ exn_str wrapped = "Failed to process PDF: Unable to get page count"
     ∧ py_in "Failed to process" (exn_str wrapped)
     ∧ py_in "Unable to get page count" (exn_str wrapped)
     ∧ exn_cause wrapped = Some (Exception "Unable to get page count" None)
     ∧ ∀ pages : list bytes,
         PdfDocumentProcessor.process nat example_convert example_save
           get_document_processor [] ≠ Ok pages)
  ∧ (∃ wrapped : exn,
       PdfDocumentProcessor.process nat example_convert example_save
         (PdfDocumentProcessor.mk 150 "JPG") [Byte.x25] = Raise wrapped
       ∧ exn_str wrapped
         = "Failed to process PDF: unknown file extension: JPG"
       ∧ py_in "Failed to process" (exn_str wrapped)
       ∧ py_in "unknown file extension: JPG" (exn_str wrapped)
       ∧ exn_cause wrapped
         = Some (ValueError "unknown file extension: JPG")
       ∧ ∀ pages : list bytes,
           PdfDocumentProcessor.process nat example_convert example_save
             (PdfDocumentProcessor.mk 150 "JPG") [Byte.x25] ≠ Ok pages).
Proof.
  split.
  - apply (process_wraps_failure example_convert example_save
             get_document_processor []
             (Exception "Unable to get page count" None)).
    by left.
  - apply (process_wraps_failure example_convert example_save
             (PdfDocumentProcessor.mk 150 "JPG") [Byte.x25]
             (ValueError "unknown file extension: JPG")).
    right. exists [1%nat; 2%nat], [], 1%nat, [2%nat].
    split; [reflexivity|]. split; [reflexivity|]. split; [constructor|].
    reflexivity.
Defined.

(** C7. When the library converts the document into [N] page images and
    encodes each of them, [process] returns exactly the [N] encodings, in
    page order: page [i] of the result is image [i] of the conversion at the
    configured resolution, written in the configured format. The processor
    is configured with 300 DPI and PNG unless told otherwise. *)
Theorem process_returns_pages {Image : Type}
    (convert_from_bytes : bytes → Z → string → result (list Image))
    (save : Image → string → result bytes)
    (self : PdfDocumentProcessor.t) (file_bytes : bytes)
    (images : list Image) (pages : list bytes) :
  convert_from_bytes file_bytes (PdfDocumentProcessor.dpi self)
    (lower (PdfDocumentProcessor.image_format self)) = Ok images →
  Forall2 (λ i b, save i (PdfDocumentProcessor.image_format self) = Ok b)
    images pages →
  PdfDocumentProcessor.process Image convert_from_bytes save self file_bytes
  = Ok pages
  ∧ length pages = length images
  ∧ (∀ (n : nat) (image : Image),
       images !! n = Some image →
       ∃ b, pages !! n = Some b
            ∧ save image (PdfDocumentProcessor.image_format self) = Ok b)
  ∧ PdfDocumentProcessor.dpi PdfDocumentProcessor.default = 300
  ∧ PdfDocumentProcessor.image_format PdfDocumentProcessor.default = "PNG"
  ∧ get_document_processor = PdfDocumentProcessor.default.
Proof.
  intros Hc Hs. split; [|split; [|split; [|done]]].
  - unfold PdfDocumentProcessor.process, PdfDocumentProcessor.process_body.
    rewrite Hc. by rewrite (encode_pages_ok save self images pages []).
  - symmetry. by eapply Forall2_length.
  - intros n image Hn.
    destruct (Forall2_lookup_l _ _ _ _ _ Hs Hn) as (b & Hb & Hsave).
    by exists b.
Qed.

Lemma process_returns_pages_witness :
  PdfDocumentProcessor.process nat example_convert example_save
    get_document_processor [Byte.x25; Byte.x50; Byte.x44; Byte.x46]
  = Ok [[Byte.x89]; [Byte.x89; Byte.x89]]
  ∧ length [[Byte.x89]; [Byte.x89; Byte.x89]] = length [1%nat; 2%nat]
  ∧ (∀ (n : nat) (image : nat),
       [1%nat; 2%nat] !! n = Some image →
       ∃ b, [[Byte.x89]; [Byte.x89; Byte.x89]] !! n = Some b
            ∧ example_save image "PNG" = Ok b)
  ∧ PdfDocumentProcessor.dpi PdfDocumentProcessor.default = 300
  ∧ PdfDocumentProcessor.image_format PdfDocumentProcessor.default = "PNG"
  ∧ get_document_processor = PdfDocumentProcessor.default.
Proof.
  apply (process_returns_pages example_convert example_save
           get_document_processor
           [Byte.x25; Byte.x50; Byte.x44; Byte.x46]
           [1%nat; 2%nat] [[Byte.x89]; [Byte.x89; Byte.x89]]).
  - reflexivity.
  - repeat constructor.
Defined.

(** ** [list_issues] *)

Lemma mapM_result_valid (T : Type) `{ModelClass T} (rows : list dict) :
  all_valid T rows →
  ∃ xs : list T, mapM_result construct rows = Ok xs
                 ∧ Forall2 (λ r x, validate r = Some x) rows xs.
Proof.
  induction 1 as [|r rows [x Hx] _ (xs & Hxs & IH)].
  - by exists [].
  - exists (x :: xs). simpl. unfold construct at 1. rewrite Hx, Hxs.
    split; [done|]. by constructor.
Qed.

Lemma all_valid_take (T : Type) `{ModelClass T} n (rows : list dict) :
  all_valid T rows → all_valid T (take n rows).
Proof. apply Forall_take. Qed.

Lemma all_valid_drop (T : Type) `{ModelClass T} n (rows : list dict) :
  all_valid T rows → all_valid T (drop n rows).
Proof. apply Forall_drop. Qed.

(** Both branches of [list_issues] send one request and get the first
    [n] rows after [offset] of the available ones. *)
Lemma list_issues_fetch (newspaper_id : option UUID) (n offset : Z) s :
  all_valid Issue.t (available_issues s newspaper_id) →
  ∃ issues,
    match newspaper_id with
    | Some nid => IssueRepository.list_by_newspaper nid n offset true
    | None => BaseRepository.list_all IssueRepository.self n offset
    end s
    = (Ok issues, log_request (issues_request newspaper_id n offset) s)
    ∧ Forall2 (λ r x, Issue.of_row r = Some x)
        (take (Z.to_nat n)
           (drop (Z.to_nat offset) (available_issues s newspaper_id)))
        issues.
Proof.
  intros Hv.
  apply (all_valid_drop Issue.t (Z.to_nat offset)),
    (all_valid_take Issue.t (Z.to_nat n)) in Hv.
  destruct (mapM_result_valid Issue.t _ Hv) as (issues & Hm & Hall).
  exists issues. split; [|done].
  destruct newspaper_id as [nid|];
    unfold IssueRepository.list_by_newspaper, BaseRepository.list_all,
      select_rows; unfold_M; unfold available_issues in Hm;
    unfold query_rows in *; cbn [limit_rows offset_rows] in *.
  - change (BaseRepository.table_name IssueRepository.self) with "issues".
    by rewrite Hm.
  - change (BaseRepository.table_name IssueRepository.self) with "issues".
    change (BaseRepository.model_class IssueRepository.self) with Issue_model.
    by rewrite Hm.
Qed.

(** C3. For a limit between 1 and 100 and a non-negative offset, the issue
    listing sends one request, for [limit + 1] rows after [offset]; it
    returns the first [limit] of the rows available after the offset, says
    [has_more] exactly when more than [limit] rows are available after the
    offset, and reports [offset + returned + (1 if has_more)] as the total.
    Against 11 available issues a listing with limit 10 and offset 0 returns
    10 items and [has_more]; against 10 it returns 10 items and no
    [has_more]. *)
Theorem list_issues_paginates (s : db) (limit offset : Z)
    (newspaper_id : option UUID) :
  1 ≤ limit ≤ 100 →
  0 ≤ offset →
  all_valid Issue.t (available_issues s newspaper_id) →
  let available := available_issues s newspaper_id in
  let remaining := drop (Z.to_nat offset) available in
  ∃ (resp : PaginatedIssuesResponse.t) (s' : db) (issues : list Issue.t),
    Routes.get_issues (Some limit) (Some offset) newspaper_id s = (Ok resp, s')
    ∧ requests s'
      = requests s ++ [issues_request newspaper_id (limit + 1) offset]
    ∧ tables s' = tables s
    ∧ Forall2 (λ r x, Issue.of_row r = Some x)
        (take (Z.to_nat limit) remaining) issues
    ∧ PaginatedIssuesResponse.items resp
      = IssueResponse.model_validate <$> issues
    ∧ (length (PaginatedIssuesResponse.items resp) ≤ Z.to_nat limit)%nat
    ∧ (PaginatedIssuesResponse.has_more resp = true
       ↔ (Z.to_nat limit < length remaining)%nat)
    ∧ PaginatedIssuesResponse.total resp
      = offset + Routes.len (PaginatedIssuesResponse.items resp)
        + (if PaginatedIssuesResponse.has_more resp then 1 else 0)
    ∧ PaginatedIssuesResponse.limit resp = limit
    ∧ PaginatedIssuesResponse.offset resp = offset
    ∧ (limit = 10 → offset = 0 → length available = 11%nat →
       PaginatedIssuesResponse.has_more resp = true
       ∧ length (PaginatedIssuesResponse.items resp) = 10%nat)
    ∧ (limit = 10 → offset = 0 → length available = 10%nat →
       PaginatedIssuesResponse.has_more resp = false
       ∧ length (PaginatedIssuesResponse.items resp) = 10%nat).
Proof.
  intros Hlimit Hoffset Hv available remaining.
  destruct (list_issues_fetch newspaper_id (limit + 1) offset s Hv)
    as (fetched & Hrun & Hall).
  fold available in Hall. fold remaining in Hall.
  assert (length fetched
          = Nat.min (Z.to_nat limit + 1) (length remaining)) as Hlen.
  { rewrite <- (Forall2_length _ _ _ Hall), length_take.
    replace (Z.to_nat (limit + 1)) with (Z.to_nat limit + 1)%nat by lia.
    done. }
  assert (py_slice_to limit fetched = take (Z.to_nat limit) fetched) as Hslice.
  { unfold py_slice_to. by rewrite (proj2 (Z.leb_le 0 limit)) by lia. }
  assert ((Routes.len fetched >? limit) = true
          ↔ (Z.to_nat limit < length remaining)%nat) as Hmore.
  { unfold Routes.len. rewrite Z.gtb_ltb, Z.ltb_lt, Hlen. lia. }
  assert (length (IssueResponse.model_validate
                    <$> take (Z.to_nat limit) fetched)
          = Nat.min (Z.to_nat limit) (length remaining)) as Hitems.
  { rewrite length_fmap, length_take, Hlen. lia. }
  eexists _, _, (take (Z.to_nat limit) fetched).
  split.
  { unfold Routes.get_issues.
    change (default 50 (Some limit)) with limit.
    change (default 0 (Some offset)) with offset. cbv zeta.
    rewrite (proj2 (Z.leb_le 1 limit)), (proj2 (Z.leb_le limit 100)),
      (proj2 (Z.leb_le 0 offset)) by lia.
    cbn [andb]. unfold Routes.list_issues. unfold_M.
    rewrite Hrun, Hslice. reflexivity. }
  cbn [PaginatedIssuesResponse.items PaginatedIssuesResponse.has_more
       PaginatedIssuesResponse.total PaginatedIssuesResponse.limit
       PaginatedIssuesResponse.offset].
  split; [reflexivity|]. split; [reflexivity|]. split.
  { apply (Forall2_take _ _ _ (Z.to_nat limit)) in Hall.
    rewrite take_take in Hall.
    by replace (Z.to_nat limit `min` Z.to_nat (limit + 1))%nat
      with (Z.to_nat limit) in Hall by lia. }
  split; [reflexivity|]. split; [rewrite Hitems; lia|]. split; [done|].
  split; [unfold Routes.len; by rewrite length_fmap|].
  split; [reflexivity|]. split; [reflexivity|]. split.
  - intros -> -> Ha. split.
    + apply Hmore. unfold remaining. rewrite length_drop, Ha. simpl. lia.
    + rewrite Hitems. unfold remaining. rewrite length_drop, Ha. simpl. lia.
  - intros -> -> Ha. split.
    + apply not_true_is_false. rewrite Hmore. unfold remaining.
      rewrite length_drop, Ha. simpl. lia.
    + rewrite Hitems. unfold remaining. rewrite length_drop, Ha. simpl. lia.
Qed.

Lemma filter_matches_nil (rows : list dict) :
  List.filter (matches []) rows = rows.
Proof. induction rows as [|r rows IH]; [done|]. simpl. by rewrite IH. Qed.

Lemma example_issues_available n :
  available_issues (example_issue_store n) None
  = example_issue_row <$> seq 1 n.
Proof.
  unfold available_issues, query_rows, rows_of, example_issue_store.
  cbn [tables limit_rows offset_rows order_rows].
  by rewrite lookup_singleton_eq, filter_matches_nil.
Qed.

Lemma example_issues_valid n :
  all_valid Issue.t (available_issues (example_issue_store n) None).
Proof.
  rewrite example_issues_available. apply Forall_fmap, Forall_forall.
  intros i _. eexists. reflexivity.
Qed.

Lemma list_issues_paginates_witness :
  (∃ resp s',
     Routes.get_issues (Some 10) (Some 0) None (example_issue_store 11)
     = (Ok resp, s')
     ∧ requests s' = [ReqSelect "issues" [] None (Some 11) (Some 0)]
     ∧ PaginatedIssuesResponse.has_more resp = true
     ∧ length (PaginatedIssuesResponse.items resp) = 10%nat
     ∧ PaginatedIssuesResponse.total resp = 11)
  ∧ (∃ resp s',
       Routes.get_issues (Some 10) (Some 0) None (example_issue_store 10)
       = (Ok resp, s')
       ∧ requests s' = [ReqSelect "issues" [] None (Some 11) (Some 0)]
       ∧ PaginatedIssuesResponse.has_more resp = false
       ∧ length (PaginatedIssuesResponse.items resp) = 10%nat
       ∧ PaginatedIssuesResponse.total resp = 10).
Proof.
  split.
  - destruct (list_issues_paginates (example_issue_store 11) 10 0 None)
      as (resp & s' & issues & Hrun & Hreq & _ & _ & _ & _ & _ & Htot & _ & _
          & H11 & _).
    + lia.
    + lia.
    + apply example_issues_valid.
    + destruct H11 as [Hmore Hlen]; [done|done|..].
      { by rewrite example_issues_available, length_fmap, length_seq. }
      exists resp, s'. unfold Routes.len in Htot.
      rewrite Hmore, Hlen in Htot. by repeat split.
  - destruct (list_issues_paginates (example_issue_store 10) 10 0 None)
      as (resp & s' & issues & Hrun & Hreq & _ & _ & _ & _ & _ & Htot & _ & _
          & _ & H10).
    + lia.
    + lia.
    + apply example_issues_valid.
    + destruct H10 as [Hmore Hlen]; [done|done|..].
      { by rewrite example_issues_available, length_fmap, length_seq. }
      exists resp, s'. unfold Routes.len in Htot.
      rewrite Hmore, Hlen in Htot. by repeat split.
Defined.

(** ** [get_issue_detail] *)

Lemma mapM_result_Forall2 (T : Type) `{ModelClass T} (rows : list dict)
    (xs : list T) :
  Forall2 (λ r x, validate r = Some x) rows xs →
  mapM_result construct rows = Ok xs.
Proof.
  induction 1 as [|r x rows xs Hx _ IH]; [done|].
  simpl. unfold construct at 1. by rewrite Hx, IH.
Qed.

Lemma issue_row_nonempty (r : dict) i : Issue.of_row r = Some i → r ≠ ∅.
Proof.
  unfold Issue.of_row. intros Hi ->.
  apply bind_Some in Hi as (x & Ex & _). unfold req_str in Ex.
  by rewrite lookup_empty in Ex.
Qed.

Lemma newspaper_row_nonempty (r : dict) n :
  Newspaper.of_row r = Some n → r ≠ ∅.
Proof.
  unfold Newspaper.of_row. intros Hn ->.
  apply bind_Some in Hn as (x & Ex & _). unfold req_str in Ex.
  by rewrite lookup_empty in Ex.
Qed.

Lemma list_by_issue_pages issue_id s (pages : list Page.t) :
  Forall2 (λ r p, Page.of_row r = Some p) (pages_of s issue_id) pages →
  PageRepository.list_by_issue issue_id true s
  = (Ok pages,
     log_request (ReqSelect "pages" [("issue_id", PStr issue_id)]
                    (Some ("page_number", false)) None None) s).
Proof.
  intros Hp. unfold PageRepository.list_by_issue, select_rows. unfold_M.
  change (BaseRepository.table_name PageRepository.self) with "pages".
  fold (pages_of s issue_id).
  by rewrite (mapM_result_Forall2 Page.t (H:=Page_model) _ _ Hp).
Qed.

(** C4. The issue-detail endpoint answers 404, with a message that
    contains "not found", when no issue has the id; it answers 500 when the
    issue exists and no newspaper has the id the issue refers to; and when
    both exist it returns the fields of the issue, the fields of that
    newspaper, and one entry with the page's fields for each page of the
    issue, by ascending page number. *)
Theorem get_issue_detail_outcomes (s : db) (issue_id : UUID) :
  (List.filter (matches [("id", PStr issue_id)]) (rows_of s "issues") = [] →
   ∃ detail s',
     Routes.get_issue_detail issue_id s
     = (Raise (HTTPException 404 detail), s')
     ∧ py_in "not found" detail)
  ∧ (∀ (r : dict) (issue : Issue.t),
       List.filter (matches [("id", PStr issue_id)]) (rows_of s "issues")
       = [r] →
       Issue.of_row r = Some issue →
       List.filter (matches [("id", PStr (Issue.newspaper_id issue))])
         (rows_of s "newspapers") = [] →
       ∃ detail s',
         Routes.get_issue_detail issue_id s
         = (Raise (HTTPException 500 detail), s'))
  ∧ (∀ (r rn : dict) (issue : Issue.t) (newspaper : Newspaper.t)
       (pages : list Page.t),
       List.filter (matches [("id", PStr issue_id)]) (rows_of s "issues")
       = [r] →
       Issue.of_row r = Some issue →
       List.filter (matches [("id", PStr (Issue.newspaper_id issue))])
         (rows_of s "newspapers") = [rn] →
       Newspaper.of_row rn = Some newspaper →
       Forall2 (λ row p, Page.of_row row = Some p) (pages_of s issue_id)
         pages →
       ∃ s',
         Routes.get_issue_detail issue_id s
         = (Ok (IssueDetailResponse.mk
                  (Issue.id issue) (Issue.newspaper_id issue)
                  (Issue.issue_date issue) (Issue.num_pages issue)
                  (Issue.source_type issue) (Issue.source_external_id issue)
                  (Issue.metadata issue) (Issue.created_at issue)
                  (NewspaperResponse.mk
                     (Newspaper.id newspaper) (Newspaper.name newspaper)
                     (Newspaper.city newspaper) (Newspaper.country newspaper)
                     (Newspaper.start_year newspaper)
                     (Newspaper.end_year newspaper)
                     (Newspaper.description newspaper)
                     (Newspaper.source_type newspaper)
                     (Newspaper.created_at newspaper))
                  ((λ p, PageResponse.mk
                           (Page.id p) (Page.issue_id p) (Page.page_number p)
                           (Page.image_path p) (Page.ocr_text p)
                           (Page.ocr_confidence p) (Page.ocr_provider p)
                           (Page.ingestion_status p) (Page.created_at p))
                   <$> pages)), s')).
Proof.
  split; [|split].
  - intros Hf. eexists _, _. split.
    + unfold Routes.get_issue_detail. unfold_M.
      by rewrite (get_by_id_none IssueRepository.self issue_id s Hf).
    + by exists "Issue ", "".
  - intros r issue Hf Hi Hn. eexists _, _.
    unfold Routes.get_issue_detail. unfold_M.
    rewrite (get_by_id_one IssueRepository.self issue_id s r issue Hf
               (issue_row_nonempty r issue Hi) Hi).
    by rewrite (get_by_id_none NewspaperRepository.self _
                  (log_request _ s) Hn).
  - intros r rn issue newspaper pages Hf Hi Hn Hnp Hp. eexists.
    unfold Routes.get_issue_detail. unfold_M.
    rewrite (get_by_id_one IssueRepository.self issue_id s r issue Hf
               (issue_row_nonempty r issue Hi) Hi).
    rewrite (get_by_id_one NewspaperRepository.self _ (log_request _ s)
               rn newspaper Hn (newspaper_row_nonempty rn newspaper Hnp) Hnp).
    by rewrite (list_by_issue_pages issue_id
                  (log_request _ (log_request _ s)) pages Hp).
Qed.

(** The pages listed for an issue are its rows in the table of pages, in
    ascending order of page number. *)
Lemma cell_le_total (a b : pyval) : cell_le a b = true ∨ cell_le b a = true.
Proof.
  destruct a, b; simpl; auto.
  - destruct (Z.leb_spec n n0); [by left|right]. apply Z.leb_le. lia.
  - apply String.leb_total.
Qed.

#[global] Instance row_le_total col desc : Total (row_le col desc).
Proof.
  intros r1 r2. unfold row_le. cbv zeta.
  destruct desc;
    [destruct (cell_le_total (default PNone (r2 !! col))
                 (default PNone (r1 !! col))) as [-> | ->]
    |destruct (cell_le_total (default PNone (r1 !! col))
                 (default PNone (r2 !! col))) as [-> | ->]];
    simpl; auto.
Qed.

Lemma pages_of_permutation s issue_id :
  pages_of s issue_id
  ≡ₚ List.filter (matches [("issue_id", PStr issue_id)]) (rows_of s "pages").
Proof.
  unfold pages_of, query_rows. cbn [order_rows limit_rows offset_rows].
  apply merge_sort_Permutation.
Qed.

Lemma pages_of_sorted s issue_id :
  Sorted (row_le "page_number" false) (pages_of s issue_id).
Proof.
  unfold pages_of, query_rows. cbn [order_rows limit_rows offset_rows].
  apply Sorted_merge_sort, _.
Qed.

Lemma example_browse_issues :
  rows_of example_browse_store "issues"
  = [example_issue_row 1; example_issue_row 2; example_orphan_issue_row].
Proof.
  unfold rows_of, example_browse_store. cbn [tables].
  rewrite lookup_insert_ne by discriminate. by rewrite lookup_insert_eq.
Qed.

Lemma example_browse_newspapers :
  rows_of example_browse_store "newspapers"
  = [example_newspaper_row "paper-1" "The Gazette"].
Proof.
  unfold rows_of, example_browse_store. cbn [tables].
  by rewrite lookup_insert_eq.
Qed.

Lemma example_browse_page_rows :
  rows_of example_browse_store "pages"
  = [example_page_row "page-b" "issue-1" 2;
     example_page_row "page-a" "issue-1" 1;
     example_page_row "page-c" "issue-2" 1].
Proof.
  unfold rows_of, example_browse_store. cbn [tables].
  do 2 rewrite lookup_insert_ne by discriminate.
  by rewrite lookup_insert_eq.
Qed.

Lemma example_browse_pages :
  pages_of example_browse_store "issue-1"
  = [example_page_row "page-a" "issue-1" 1;
     example_page_row "page-b" "issue-1" 2].
Proof.
  unfold pages_of, query_rows. rewrite example_browse_page_rows.
  cbn [List.filter]. eval_matches. cbv iota.
  cbn [order_rows limit_rows offset_rows].
  unfold merge_sort.
  cbn [merge_sort_aux merge_list_to_stack merge_stack list_merge app].
  rewrite decide_False by (vm_compute; tauto).
  reflexivity.
Qed.

Lemma get_issue_detail_outcomes_witness :
  (∃ detail s',
     Routes.get_issue_detail "issue-404" example_browse_store
     = (Raise (HTTPException 404 detail), s')
     ∧ py_in "not found" detail)
  ∧ (∃ detail s',
       Routes.get_issue_detail "issue-9" example_browse_store
       = (Raise (HTTPException 500 detail), s'))
  ∧ (∃ s',
       Routes.get_issue_detail "issue-1" example_browse_store
       = (Ok (IssueDetailResponse.mk "issue-1" "paper-1" "1924-03-11" 8
                "upload" None None "2024-01-15T10:00:00"
                (NewspaperResponse.mk "paper-1" "The Gazette" None None
                   (Some 1887) None None "upload" "2024-01-15T10:00:00")
                [PageResponse.mk "page-a" "issue-1" 1 "pages/page-a.png"
                   None None None "pending" "2024-01-15T10:00:00";
                 PageResponse.mk "page-b" "issue-1" 2 "pages/page-b.png"
                   None None None "pending" "2024-01-15T10:00:00"]), s')).
Proof.
  split; [|split].
  - apply (proj1 (get_issue_detail_outcomes example_browse_store "issue-404")).
    rewrite example_browse_issues. cbn [List.filter]. by eval_matches.
  - apply (proj1 (proj2 (get_issue_detail_outcomes example_browse_store
                           "issue-9"))
             example_orphan_issue_row example_orphan_issue).
    + rewrite example_browse_issues. cbn [List.filter]. by eval_matches.
    + reflexivity.
    + rewrite example_browse_newspapers. cbn [List.filter]. by eval_matches.
  - apply (proj2 (proj2 (get_issue_detail_outcomes example_browse_store
                           "issue-1"))
             (example_issue_row 1)
             (example_newspaper_row "paper-1" "The Gazette")
             example_issue_1 example_newspaper
             [example_page "page-a" 1; example_page "page-b" 2]).
    + rewrite example_browse_issues. cbn [List.filter]. by eval_matches.
    + reflexivity.
    + rewrite example_browse_newspapers. cbn [List.filter]. by eval_matches.
    + reflexivity.
    + rewrite example_browse_pages. by repeat constructor.
Defined.

(** ** [create_or_get] *)

Lemma issue_create_or_get_shape nid d np st ext meta :
  IssueRepository.create_or_get nid d np st ext meta
  = lookup_or_upsert IssueRepository.self (issue_key nid d)
      "newspaper_id,issue_date"
      (IssueCreate.model_dump_exclude_none
         (IssueCreate.mk nid d np st ext meta)).
Proof. reflexivity. Qed.

Lemma page_create_or_get_shape iid n path st :
  PageRepository.create_or_get iid n path st
  = lookup_or_upsert PageRepository.self (page_key iid n)
      "issue_id,page_number"
      (PageCreate.model_dump_exclude_none (PageCreate.mk iid n path st)).
Proof. reflexivity. Qed.

Lemma matches_nonempty c v key (r : dict) :
  matches ((c, v) :: key) r = true → r ≠ ∅.
Proof.
  unfold matches. cbn [forallb]. intros Hm ->.
  by rewrite lookup_empty in Hm.
Qed.

Lemma filter_singleton_matches (key : list (string * pyval))
    (rows : list dict) (r : dict) :
  List.filter (matches key) rows = [r] → matches key r = true.
Proof.
  intros Hf. assert (In r (List.filter (matches key) rows)) as Hin
    by (rewrite Hf; by left).
  by apply filter_In in Hin as [_ ?].
Qed.

Section LookupOrUpsert.
Context {T : Type} (self : BaseRepository.t T).
Context (c : string) (v : pyval) (key' : list (string * pyval)).
Context (on_conflict : string).

Let key := (c, v) :: key'.
Let tn := BaseRepository.table_name self.

Lemma lookup_or_upsert_found data s (r : dict) x :
  List.filter (matches key) (rows_of s tn) = [r] →
  @validate T (BaseRepository.model_class self) r = Some x →
  lookup_or_upsert self key on_conflict data s
  = (Ok x, log_request (ReqMaybeSingle tn key) s).
Proof.
  intros Hf Hx. unfold lookup_or_upsert, select_maybe_single. unfold_M.
  fold tn. rewrite Hf. cbn [truthy].
  rewrite bool_decide_eq_false_2
    by (eapply matches_nonempty, filter_singleton_matches, Hf).
  cbn [negb]. unfold construct. by rewrite Hx.
Qed.

Lemma lookup_or_upsert_created data s x :
  (∀ r, conflicts (split_commas on_conflict) data r = matches key r) →
  List.filter (matches key) (rows_of s tn) = [] →
  @validate T (BaseRepository.model_class self)
    (data ∪ server_defaults s tn (clock s)) = Some x →
  ∃ s',
    lookup_or_upsert self key on_conflict data s = (Ok x, s')
    ∧ rows_of s' tn = rows_of s tn ++ [data ∪ server_defaults s tn (clock s)].
Proof.
  intros Hc Hf Hx.
  assert (existsb (conflicts (split_commas on_conflict) data) (rows_of s tn)
          = false) as He.
  { apply not_true_is_false. intros (r & Hin & Hr)%existsb_exists.
    rewrite Hc in Hr.
    assert (In r (List.filter (matches key) (rows_of s tn))) as Hin'
      by (by apply filter_In).
    by rewrite Hf in Hin'. }
  eexists. unfold lookup_or_upsert, select_maybe_single. unfold_M.
  fold tn. rewrite Hf.
  unfold BaseRepository._execute_upsert, exec_upsert. unfold_M.
  fold tn. cbv zeta.
  change (rows_of (log_request (ReqMaybeSingle tn key) s) tn)
    with (rows_of s tn).
  change (server_defaults (log_request (ReqMaybeSingle tn key) s))
    with (server_defaults s).
  change (clock (log_request (ReqMaybeSingle tn key) s)) with (clock s).
  rewrite He. unfold construct. rewrite Hx. split; [reflexivity|].
  unfold rows_of. cbn [tables]. by rewrite lookup_insert_eq.
Qed.

(** Two calls in a row with one natural key. *)
Lemma lookup_or_upsert_twice data1 data2 s :
  (∀ r, conflicts (split_commas on_conflict) data1 r = matches key r) →
  (∀ d, matches key (data1 ∪ d) = true) →
  (rows_with s tn key ≤ 1)%nat →
  all_valid T (H:=BaseRepository.model_class self)
    (List.filter (matches key) (rows_of s tn)) →
  (rows_with s tn key = 0%nat →
   is_Some (@validate T (BaseRepository.model_class self)
              (data1 ∪ server_defaults s tn (clock s)))) →
  ∃ x s1 s2,
    lookup_or_upsert self key on_conflict data1 s = (Ok x, s1)
    ∧ lookup_or_upsert self key on_conflict data2 s1 = (Ok x, s2)
    ∧ rows_with s1 tn key = 1%nat
    ∧ rows_with s2 tn key = 1%nat.
Proof.
  intros Hc Hk Hu Hv Hnew. unfold rows_with in *.
  destruct (List.filter (matches key) (rows_of s tn)) as [|r [|r' rest]] eqn:Hf.
  - destruct (Hnew eq_refl) as [xn Hxn].
    destruct (lookup_or_upsert_created data1 s xn Hc Hf Hxn) as (s1 & H1 & Hr).
    assert (List.filter (matches key) (rows_of s1 tn)
            = [data1 ∪ server_defaults s tn (clock s)]) as Hf1.
    { rewrite Hr, List.filter_app, Hf. cbn [List.filter app]. by rewrite Hk. }
    exists xn, s1, (log_request (ReqMaybeSingle tn key) s1).
    split; [done|].
    split; [by apply (lookup_or_upsert_found data2 s1
                        (data1 ∪ server_defaults s tn (clock s)) xn)|].
    by rewrite rows_of_log_request, Hf1.
  - apply Forall_cons in Hv as [[x Hx] _].
    exists x, (log_request (ReqMaybeSingle tn key) s),
      (log_request (ReqMaybeSingle tn key)
         (log_request (ReqMaybeSingle tn key) s)).
    split; [by apply (lookup_or_upsert_found data1 s r x)|].
    split; [by apply (lookup_or_upsert_found data2 _ r x)|].
    by rewrite !rows_of_log_request, Hf.
  - simpl in Hu. lia.
Qed.

End LookupOrUpsert.

Lemma issue_dump_key (x : IssueCreate.t) :
  IssueCreate.model_dump_exclude_none x !! "newspaper_id"
  = Some (PStr (IssueCreate.newspaper_id x))
  ∧ IssueCreate.model_dump_exclude_none x !! "issue_date"
    = Some (PStr (IssueCreate.issue_date x)).
Proof.
  unfold IssueCreate.model_dump_exclude_none.
  destruct (IssueCreate.source_external_id x), (IssueCreate.metadata x);
    split; by lookup_inserts.
Qed.

Lemma page_dump_key (x : PageCreate.t) :
  PageCreate.model_dump_exclude_none x !! "issue_id"
  = Some (PStr (PageCreate.issue_id x))
  ∧ PageCreate.model_dump_exclude_none x !! "page_number"
    = Some (PInt (PageCreate.page_number x)).
Proof.
  unfold PageCreate.model_dump_exclude_none. split; by lookup_inserts.
Qed.

Lemma issue_conflicts nid d np st ext meta (r : dict) :
  conflicts (split_commas "newspaper_id,issue_date")
    (IssueCreate.model_dump_exclude_none (IssueCreate.mk nid d np st ext meta))
    r
  = matches (issue_key nid d) r.
Proof.
  change (split_commas "newspaper_id,issue_date")
    with ["newspaper_id"; "issue_date"].
  unfold conflicts, matches, issue_key. cbn [forallb].
  destruct (issue_dump_key (IssueCreate.mk nid d np st ext meta)) as [-> ->].
  reflexivity.
Qed.

Lemma page_conflicts iid n path st (r : dict) :
  conflicts (split_commas "issue_id,page_number")
    (PageCreate.model_dump_exclude_none (PageCreate.mk iid n path st)) r
  = matches (page_key iid n) r.
Proof.
  change (split_commas "issue_id,page_number")
    with ["issue_id"; "page_number"].
  unfold conflicts, matches, page_key. cbn [forallb].
  destruct (page_dump_key (PageCreate.mk iid n path st)) as [-> ->].
  reflexivity.
Qed.

Lemma issue_dump_matches nid d np st ext meta (defaults : dict) :
  matches (issue_key nid d)
    (IssueCreate.model_dump_exclude_none (IssueCreate.mk nid d np st ext meta)
     ∪ defaults) = true.
Proof.
  destruct (issue_dump_key (IssueCreate.mk nid d np st ext meta)) as [H1 H2].
  unfold matches, issue_key. cbn [forallb].
  rewrite (lookup_union_Some_l _ _ _ _ H1), (lookup_union_Some_l _ _ _ _ H2).
  cbn [sql_eq IssueCreate.newspaper_id IssueCreate.issue_date].
  by rewrite !String.eqb_refl.
Qed.

Lemma page_dump_matches iid n path st (defaults : dict) :
  matches (page_key iid n)
    (PageCreate.model_dump_exclude_none (PageCreate.mk iid n path st)
     ∪ defaults) = true.
Proof.
  destruct (page_dump_key (PageCreate.mk iid n path st)) as [H1 H2].
  unfold matches, page_key. cbn [forallb].
  rewrite (lookup_union_Some_l _ _ _ _ H1), (lookup_union_Some_l _ _ _ _ H2).
  cbn [sql_eq PageCreate.issue_id PageCreate.page_number].
  by rewrite String.eqb_refl, Z.eqb_refl.
Qed.

(** C2. Two calls of [create_or_get] in a row with one natural key return
    the same record, and the table then holds exactly one row with that
    key: for issues keyed on newspaper and date, and for pages keyed on
    issue and page number. The table satisfies its unique constraint
    beforehand (at most one row with the key, a valid one), and when no
    row has the key the store completes the new row into a valid one. *)
Theorem create_or_get_idempotent :
  (∀ (s : db) (newspaper_id : UUID) (issue_date : date)
     (num_pages1 : Z) (source_type1 : string) (ext1 : option string)
     (meta1 : option dict)
     (num_pages2 : Z) (source_type2 : string) (ext2 : option string)
     (meta2 : option dict),
     (rows_with s "issues" (issue_key newspaper_id issue_date) ≤ 1)%nat →
     all_valid Issue.t
       (List.filter (matches (issue_key newspaper_id issue_date))
          (rows_of s "issues")) →
     (rows_with s "issues" (issue_key newspaper_id issue_date) = 0%nat →
      is_Some (Issue.of_row
                 (IssueCreate.model_dump_exclude_none
                    (IssueCreate.mk newspaper_id issue_date num_pages1
                       source_type1 ext1 meta1)
                  ∪ server_defaults s "issues" (clock s)))) →
     ∃ (i1 i2 : Issue.t) (s1 s2 : db),
       IssueRepository.create_or_get newspaper_id issue_date num_pages1
         source_type1 ext1 meta1 s = (Ok i1, s1)
       ∧ IssueRepository.create_or_get newspaper_id issue_date num_pages2
           source_type2 ext2 meta2 s1 = (Ok i2, s2)
       ∧ Issue.id i1 = Issue.id i2
       ∧ i1 = i2
       ∧ rows_with s1 "issues" (issue_key newspaper_id issue_date) = 1%nat
       ∧ rows_with s2 "issues" (issue_key newspaper_id issue_date) = 1%nat)
  ∧ (∀ (s : db) (issue_id : UUID) (page_number : Z)
       (image_path1 status1 image_path2 status2 : string),
       (rows_with s "pages" (page_key issue_id page_number) ≤ 1)%nat →
       all_valid Page.t
         (List.filter (matches (page_key issue_id page_number))
            (rows_of s "pages")) →
       (rows_with s "pages" (page_key issue_id page_number) = 0%nat →
        is_Some (Page.of_row
                   (PageCreate.model_dump_exclude_none
                      (PageCreate.mk issue_id page_number image_path1 status1)
                    ∪ server_defaults s "pages" (clock s)))) →
       ∃ (p1 p2 : Page.t) (s1 s2 : db),
         PageRepository.create_or_get issue_id page_number image_path1
           status1 s = (Ok p1, s1)
         ∧ PageRepository.create_or_get issue_id page_number image_path2
             status2 s1 = (Ok p2, s2)
         ∧ Page.id p1 = Page.id p2
         ∧ p1 = p2
         ∧ rows_with s1 "pages" (page_key issue_id page_number) = 1%nat
         ∧ rows_with s2 "pages" (page_key issue_id page_number) = 1%nat).
Proof.
  split.
  - intros s nid d np1 st1 ext1 meta1 np2 st2 ext2 meta2 Hu Hv Hnew.
    rewrite !issue_create_or_get_shape.
    destruct (lookup_or_upsert_twice IssueRepository.self
                "newspaper_id" (PStr nid) [("issue_date", PStr d)]
                "newspaper_id,issue_date"
                (IssueCreate.model_dump_exclude_none
                   (IssueCreate.mk nid d np1 st1 ext1 meta1))
                (IssueCreate.model_dump_exclude_none
                   (IssueCreate.mk nid d np2 st2 ext2 meta2))
                s)
      as (x & s1 & s2 & H1 & H2 & Hc1 & Hc2).
    + apply issue_conflicts.
    + apply issue_dump_matches.
    + exact Hu.
    + exact Hv.
    + exact Hnew.
    + by exists x, x, s1, s2.
  - intros s iid n path1 st1 path2 st2 Hu Hv Hnew.
    rewrite !page_create_or_get_shape.
    destruct (lookup_or_upsert_twice PageRepository.self
                "issue_id" (PStr iid) [("page_number", PInt n)]
                "issue_id,page_number"
                (PageCreate.model_dump_exclude_none
                   (PageCreate.mk iid n path1 st1))
                (PageCreate.model_dump_exclude_none
                   (PageCreate.mk iid n path2 st2))
                s)
      as (x & s1 & s2 & H1 & H2 & Hc1 & Hc2).
    + apply page_conflicts.
    + apply page_dump_matches.
    + exact Hu.
    + exact Hv.
    + exact Hnew.
    + by exists x, x, s1, s2.
Qed.

Lemma create_or_get_idempotent_witness :
  (∃ (i1 i2 : Issue.t) (s1 s2 : db),
     IssueRepository.create_or_get "paper-1" "1924-04-01" 4 "upload" None None
       example_browse_store = (Ok i1, s1)
     ∧ IssueRepository.create_or_get "paper-1" "1924-04-01" 0 "loc_batch"
         (Some "sn-1") None s1 = (Ok i2, s2)
     ∧ Issue.id i1 = Issue.id i2
     ∧ i1 = i2
     ∧ rows_with s1 "issues" (issue_key "paper-1" "1924-04-01") = 1%nat
     ∧ rows_with s2 "issues" (issue_key "paper-1" "1924-04-01") = 1%nat)
  ∧ (∃ (p1 p2 : Page.t) (s1 s2 : db),
       PageRepository.create_or_get "issue-1" 1 "pages/new.png" "pending"
         example_browse_store = (Ok p1, s1)
       ∧ PageRepository.create_or_get "issue-1" 1 "pages/other.png"
           "ocr_pending" s1 = (Ok p2, s2)
       ∧ Page.id p1 = Page.id p2
       ∧ p1 = p2
       ∧ rows_with s1 "pages" (page_key "issue-1" 1) = 1%nat
       ∧ rows_with s2 "pages" (page_key "issue-1" 1) = 1%nat).
Proof.
  split.
  - apply (proj1 create_or_get_idempotent example_browse_store
             "paper-1" "1924-04-01" 4 "upload" None None
             0 "loc_batch" (Some "sn-1") None).
    + unfold rows_with. rewrite example_browse_issues.
      cbn [List.filter]. eval_matches. simpl. lia.
    + rewrite example_browse_issues. cbn [List.filter]. eval_matches.
      constructor.
    + intros _. eexists. reflexivity.
  - apply (proj2 create_or_get_idempotent example_browse_store
             "issue-1" 1 "pages/new.png" "pending" "pages/other.png"
             "ocr_pending").
    + unfold rows_with. rewrite example_browse_page_rows.
      cbn [List.filter]. eval_matches. simpl. lia.
    + rewrite example_browse_page_rows. cbn [List.filter]. eval_matches.
      repeat constructor. eexists. reflexivity.
    + unfold rows_with. rewrite example_browse_page_rows.
      cbn [List.filter]. eval_matches. discriminate.
Defined.

(** * Further properties *)

(** ** Updates that find no row, or have nothing to write *)

Lemma fmap_if_filter_nil {A} (f : A → bool) (g : A → A) (l : list A) :
  List.filter f l = [] → (λ x, if f x then g x else x) <$> l = l.
Proof.
  induction l as [|x l IH]; csimpl; [done|].
  destruct (f x) eqn:E; [done|]. intros H. by rewrite IH.
Qed.

Lemma update_missing_rows {T} (self : BaseRepository.t T) id data s tn' :
  List.filter (matches [("id", PStr id)])
    (rows_of s (BaseRepository.table_name self)) = [] →
  rows_of (BaseRepository.update self id data s).2 tn' = rows_of s tn'.
Proof.
  intros Hf.
  destruct (decide (BaseRepository.table_name self = tn')) as [<-|Hne].
  - by rewrite update_rows, fmap_if_filter_nil.
  - by rewrite update_other.
Qed.

(** X1. An update of a record that is not there fails and writes
    nothing: when no row of the table has the id, [update] raises
    [ValueError] "Failed to update record <id> in <table>", whatever the
    data, and every table keeps its rows. *)
Theorem update_missing_record {T} (self : BaseRepository.t T) (id : UUID)
    (data : dict) (s : db) :
  List.filter (matches [("id", PStr id)])
    (rows_of s (BaseRepository.table_name self)) = [] →
  (BaseRepository.update self id data s).1
  = Raise (ValueError ("Failed to update record " +:+ id +:+ " in "
                       +:+ BaseRepository.table_name self))
  ∧ ∀ tn, rows_of (BaseRepository.update self id data s).2 tn = rows_of s tn.
Proof.
  intros Hf. split; [|intros tn; by apply update_missing_rows].
  unfold BaseRepository.update, exec_update. unfold_M.
  case_bool_decide; [done|]. by rewrite Hf.
Qed.

Lemma update_data_all_None (data : dict) :
  (∀ k v, data !! k = Some v → v = PNone) →
  BaseRepository.update_data data = ∅.
Proof.
  intros H. apply map_eq. intros k. rewrite update_data_lookup, lookup_empty.
  destruct (data !! k) as [v|] eqn:E; [|done].
  by rewrite (H k v E).
Qed.

Lemma update_empty_write_set {T} (self : BaseRepository.t T) (id : UUID)
    (data : dict) (s : db) :
  (∀ k v, data !! k = Some v → v = PNone) →
  BaseRepository.update self id data s
  = (Raise (ValueError ("Failed to update record " +:+ id +:+ " in "
                        +:+ BaseRepository.table_name self)),
     log_request (ReqUpdate (BaseRepository.table_name self) ∅
                    [("id", PStr id)]) s).
Proof.
  intros H. unfold BaseRepository.update, exec_update. unfold_M.
  rewrite (update_data_all_None data H).
  by rewrite bool_decide_eq_true_2.
Qed.

(** X2. An update with nothing to write fails even when the record is
    there: when every value of the data is [None], the request that
    reaches the store has no column, the store returns no row, and
    [update] raises [ValueError] "Failed to update record <id> in
    <table>"; [update_job] called with every field left out is such an
    update. No table changes. *)
Theorem update_nothing_to_write :
  (∀ {T} (self : BaseRepository.t T) (id : UUID) (data : dict) (s : db),
     (∀ k v, data !! k = Some v → v = PNone) →
     BaseRepository.update self id data s
     = (Raise (ValueError ("Failed to update record " +:+ id +:+ " in "
                           +:+ BaseRepository.table_name self)),
        log_request (ReqUpdate (BaseRepository.table_name self) ∅
                       [("id", PStr id)]) s))
  ∧ (∀ (job_id : UUID) (s : db),
       IngestJobRepository.update_job job_id None None None None s
       = (Raise (ValueError ("Failed to update record " +:+ job_id
                             +:+ " in ingest_jobs")),
          log_request (ReqUpdate "ingest_jobs" ∅ [("id", PStr job_id)]) s)).
Proof.
  split.
  - intros T self id data s H. by apply update_empty_write_set.
  - intros job_id s. unfold IngestJobRepository.update_job.
    apply (update_empty_write_set IngestJobRepository.self).
    intros k v. unfold IngestJobRepository.update_job_data. cbv zeta.
    by rewrite lookup_empty.
Qed.

(** ** [PageRepository.update_ocr] and [update_status] *)

Lemma page_written_not_None a b c d e f col v :
  page_written a b c d e f col = Some v → v ≠ PNone.
Proof.
  unfold page_written. repeat case_decide; try done;
    by (destruct a, b, c, d, e, f; simpl; intros [= <-]).
Qed.

(** A write set with the cells of [page_written] turns a valid page row
    into the row of the page with those fields replaced. *)
Lemma page_of_row_written a b c d e f (w r : dict) p :
  (∀ col, w !! col = page_written a b c d e f col) →
  Page.of_row r = Some p →
  Page.of_row (w ∪ r) = Some (page_after a b c d e f p).
Proof.
  intros Hw Hp. unfold Page.of_row in *.
  apply bind_Some in Hp as (i & Ei & Hp).
  apply bind_Some in Hp as (iss & Eiss & Hp).
  apply bind_Some in Hp as (pn & Epn & Hp).
  apply bind_Some in Hp as (ip & Eip & Hp).
  apply bind_Some in Hp as (ot & Eot & Hp).
  apply bind_Some in Hp as (oc & Eoc & Hp).
  apply bind_Some in Hp as (op & Eop & Hp).
  apply bind_Some in Hp as (ov & Eov & Hp).
  apply bind_Some in Hp as (om & Eom & Hp).
  apply bind_Some in Hp as (st & Est & Hp).
  apply bind_Some in Hp as (ca & Eca & Hp).
  apply bind_Some in Hp as (ua & Eua & Hp).
  injection Hp as <-.
  unfold page_after. cbn [Page.id Page.issue_id Page.page_number
    Page.image_path Page.ocr_text Page.ocr_confidence Page.ocr_provider
    Page.ocr_version Page.ocr_meta Page.ingestion_status Page.created_at
    Page.updated_at].
  unfold req_str, req_int, opt_str, opt_float, opt_dict, def_str in *.
  rewrite !lookup_union, !Hw.
  change (page_written a b c d e f "id") with (@None pyval).
  change (page_written a b c d e f "issue_id") with (@None pyval).
  change (page_written a b c d e f "page_number") with (@None pyval).
  change (page_written a b c d e f "image_path") with (@None pyval).
  change (page_written a b c d e f "created_at") with (@None pyval).
  change (page_written a b c d e f "updated_at") with (@None pyval).
  change (page_written a b c d e f "ocr_text") with (PStr <$> a).
  change (page_written a b c d e f "ocr_confidence") with (PFloat <$> b).
  change (page_written a b c d e f "ocr_provider") with (PStr <$> c).
  change (page_written a b c d e f "ocr_version") with (PStr <$> d).
  change (page_written a b c d e f "ocr_meta") with (PDict <$> e).
  change (page_written a b c d e f "ingestion_status") with (PStr <$> f).
  rewrite !(left_id_L None _).
  rewrite Ei, Eiss, Epn, Eip, Eca, Eua. cbn [mbind option_bind].
  destruct a, b, c, d, e, f;
    cbn [fmap option_fmap option_map replaced default];
    rewrite ?union_Some_l, ?(left_id_L None _), ?Eot, ?Eoc, ?Eop, ?Eov,
      ?Eom, ?Est;
    reflexivity.
Qed.


Lemma matches_id_union id (w r : dict) :
  w !! "id" = None →
  matches [("id", PStr id)] (w ∪ r) = matches [("id", PStr id)] r.
Proof.
  intros Hw. unfold matches. cbn [forallb].
  by rewrite lookup_union, Hw, (left_id_L None _).
Qed.

Lemma filter_id_union id (w : dict) (rows : list dict) :
  w !! "id" = None →
  List.filter (matches [("id", PStr id)])
    ((λ r, if matches [("id", PStr id)] r then w ∪ r else r) <$> rows)
  = (λ r, w ∪ r) <$> List.filter (matches [("id", PStr id)]) rows.
Proof.
  intros Hw. induction rows as [|r rows IH]; [done|].
  rewrite fmap_cons. cbn [List.filter].
  destruct (matches [("id", PStr id)] r) eqn:Hm.
  - by rewrite matches_id_union, Hm, fmap_cons, IH.
  - by rewrite Hm.
Qed.

Lemma union_lookup_written a b c d e f (w r : dict) col :
  (∀ col, w !! col = page_written a b c d e f col) →
  (w ∪ r) !! col
  = match page_written a b c d e f col with
    | Some v => Some v
    | None => r !! col
    end.
Proof.
  intros Hw. rewrite lookup_union, Hw.
  destruct (page_written _ _ _ _ _ _ col); simpl; [by destruct (r !! col)|].
  by rewrite (left_id_L None _).
Qed.

(** An update of a page whose write set is given by [page_written]. *)
Lemma page_update_written a b c d e f (data : dict) page_id s (r : dict) p :
  (∀ col, BaseRepository.update_data data !! col
          = page_written a b c d e f col) →
  BaseRepository.update_data data ≠ ∅ →
  List.filter (matches [("id", PStr page_id)]) (rows_of s "pages") = [r] →
  Page.of_row r = Some p →
  ∃ (s' : db) (r' : dict),
    BaseRepository.update PageRepository.self page_id data s
    = (Ok (page_after a b c d e f p), s')
    ∧ List.filter (matches [("id", PStr page_id)]) (rows_of s' "pages") = [r']
    ∧ Page.of_row r' = Some (page_after a b c d e f p)
    ∧ (∀ col, r' !! col = match page_written a b c d e f col with
                          | Some v => Some v
                          | None => r !! col
                          end)
    ∧ (∀ (i : nat) (x : dict),
         rows_of s "pages" !! i = Some x →
         matches [("id", PStr page_id)] x = false →
         rows_of s' "pages" !! i = Some x)
    ∧ (∀ tn, tn ≠ "pages" → rows_of s' tn = rows_of s tn).
Proof.
  intros Hw Hne Hf Hp.
  pose proof (page_of_row_written a b c d e f _ r p Hw Hp) as Hp'.
  pose proof (update_rows PageRepository.self page_id data s) as Hr.
  change (BaseRepository.table_name PageRepository.self) with "pages" in Hr.
  exists (BaseRepository.update PageRepository.self page_id data s).2,
    (BaseRepository.update_data data ∪ r).
  split; [|split; [|split; [|split; [|split]]]].
  - rewrite (surjective_pairing (BaseRepository.update _ _ _ s)). f_equal.
    rewrite (update_result PageRepository.self _ _ _ r []); [|done|done].
    unfold construct.
    change (@validate _ (BaseRepository.model_class PageRepository.self))
      with Page.of_row.
    by rewrite Hp'.
  - rewrite Hr, filter_id_union, Hf; [done|].
    by rewrite Hw.
  - exact Hp'.
  - intros col. by apply union_lookup_written.
  - intros i x Hi Hm.
    by rewrite Hr, list_lookup_fmap, Hi; simpl; rewrite Hm.
  - intros tn Hn. by apply (update_other PageRepository.self).
Qed.

Lemma update_ocr_data_lookup text conf prov ver meta st col :
  BaseRepository.update_data
    (<["ocr_text" := PStr text]> (
     <["ocr_confidence" := PageRepository.cell_of PFloat conf]> (
     <["ocr_provider" := PageRepository.cell_of PStr prov]> (
     <["ocr_version" := PageRepository.cell_of PStr ver]> (
     <["ocr_meta" := PageRepository.cell_of PDict meta]> (
     <["ingestion_status" := PStr st]> ∅)))))) !! col
  = page_written (Some text) conf prov ver meta (Some st) col.
Proof.
  rewrite update_data_lookup. unfold page_written.
  repeat case_decide; subst; lookup_inserts;
    try (by destruct conf); try (by destruct prov); try (by destruct ver);
    try (by destruct meta); try done.
  rewrite !lookup_insert_ne by done. by rewrite lookup_empty.
Qed.

Lemma update_status_data_lookup st col :
  BaseRepository.update_data {[ "ingestion_status" := PStr st ]} !! col
  = page_written None None None None None (Some st) col.
Proof.
  rewrite update_data_lookup. unfold page_written.
  repeat case_decide; subst;
    rewrite ?lookup_singleton_eq, ?lookup_singleton_ne by done; done.
Qed.

Lemma lookup_Some_nonempty (m : dict) k v : m !! k = Some v → m ≠ ∅.
Proof. intros H ->. by rewrite lookup_empty in H. Qed.

(** X3. [update_ocr] on a stored page always overwrites the text and the
    ingestion status, and overwrites the confidence, the provider, the
    version and the metadata only where the call gives one: a field the
    call leaves out keeps the value the page had, it is not cleared. The
    page returned is the page stored; no other page and no other table
    changes. *)
Theorem update_ocr_keeps_fields_not_given (s : db) (page_id : UUID)
    (ocr_text : string) (ocr_confidence : option float)
    (ocr_provider ocr_version : option string) (ocr_meta : option dict)
    (ingestion_status : string) (r : dict) (p : Page.t) :
  List.filter (matches [("id", PStr page_id)]) (rows_of s "pages") = [r] →
  Page.of_row r = Some p →
  let p' := page_after (Some ocr_text) ocr_confidence ocr_provider ocr_version
              ocr_meta (Some ingestion_status) p in
  ∃ (s' : db) (r' : dict),
    PageRepository.update_ocr page_id ocr_text ocr_confidence ocr_provider
      ocr_version ocr_meta ingestion_status s = (Ok p', s')
    ∧ Page.ocr_text p' = Some ocr_text
    ∧ Page.ingestion_status p' = ingestion_status
    ∧ (ocr_confidence = None → Page.ocr_confidence p' = Page.ocr_confidence p)
    ∧ (ocr_provider = None → Page.ocr_provider p' = Page.ocr_provider p)
    ∧ (ocr_version = None → Page.ocr_version p' = Page.ocr_version p)
    ∧ (ocr_meta = None → Page.ocr_meta p' = Page.ocr_meta p)
    ∧ List.filter (matches [("id", PStr page_id)]) (rows_of s' "pages") = [r']
    ∧ Page.of_row r' = Some p'
    ∧ (∀ col, r' !! col
              = match page_written (Some ocr_text) ocr_confidence ocr_provider
                        ocr_version ocr_meta (Some ingestion_status) col with
                | Some v => Some v
                | None => r !! col
                end)
    ∧ (∀ (i : nat) (x : dict),
         rows_of s "pages" !! i = Some x →
         matches [("id", PStr page_id)] x = false →
         rows_of s' "pages" !! i = Some x)
    ∧ (∀ tn, tn ≠ "pages" → rows_of s' tn = rows_of s tn).
Proof.
  intros Hf Hp p'. unfold PageRepository.update_ocr. cbv zeta.
  destruct (page_update_written (Some ocr_text) ocr_confidence ocr_provider
              ocr_version ocr_meta (Some ingestion_status) _ page_id s r p
              (update_ocr_data_lookup ocr_text ocr_confidence ocr_provider
                 ocr_version ocr_meta ingestion_status))
    as (s' & r' & H1 & H2 & H3 & H4 & H5 & H6); [|done|done|].
  { apply (lookup_Some_nonempty _ "ocr_text" (PStr ocr_text)).
    by rewrite update_ocr_data_lookup. }
  exists s', r'.
  split; [exact H1|]. split; [reflexivity|]. split; [reflexivity|].
  split; [by intros ->|]. split; [by intros ->|].
  split; [by intros ->|]. split; [by intros ->|].
  split; [exact H2|]. split; [exact H3|]. split; [exact H4|].
  split; [exact H5|exact H6].
Qed.

(** X4. [update_status] on a stored page writes the ingestion status and
    nothing else: the page comes back with the new status and every other
    field as stored, and no other page and no other table changes. *)
Theorem update_status_writes_status_only (s : db) (page_id : UUID)
    (status : string) (r : dict) (p : Page.t) :
  List.filter (matches [("id", PStr page_id)]) (rows_of s "pages") = [r] →
  Page.of_row r = Some p →
  let p' := Page.mk (Page.id p) (Page.issue_id p) (Page.page_number p)
              (Page.image_path p) (Page.ocr_text p) (Page.ocr_confidence p)
              (Page.ocr_provider p) (Page.ocr_version p) (Page.ocr_meta p)
              status (Page.created_at p) (Page.updated_at p) in
  ∃ (s' : db) (r' : dict),
    PageRepository.update_status page_id status s = (Ok p', s')
    ∧ List.filter (matches [("id", PStr page_id)]) (rows_of s' "pages") = [r']
    ∧ Page.of_row r' = Some p'
    ∧ r' !! "ingestion_status" = Some (PStr status)
    ∧ (∀ col, col ≠ "ingestion_status" → r' !! col = r !! col)
    ∧ (∀ (i : nat) (x : dict),
         rows_of s "pages" !! i = Some x →
         matches [("id", PStr page_id)] x = false →
         rows_of s' "pages" !! i = Some x)
    ∧ (∀ tn, tn ≠ "pages" → rows_of s' tn = rows_of s tn).
Proof.
  intros Hf Hp p'. unfold PageRepository.update_status.
  destruct (page_update_written None None None None None (Some status)
              _ page_id s r p (update_status_data_lookup status))
    as (s' & r' & H1 & H2 & H3 & H4 & H5 & H6); [|done|done|].
  { apply (lookup_Some_nonempty _ "ingestion_status" (PStr status)).
    by rewrite update_status_data_lookup. }
  exists s', r'.
  split; [exact H1|]. split; [exact H2|]. split; [exact H3|].
  split; [by rewrite H4|].
  split; [|split; [exact H5|exact H6]].
  intros col Hc. rewrite H4. unfold page_written.
  repeat case_decide; first [reflexivity | contradiction].
Qed.

(** ** The browse routes *)

Lemma select_maybe_single_reads tn conds s :
  (select_maybe_single tn conds s).2 = log_request (ReqMaybeSingle tn conds) s.
Proof.
  unfold select_maybe_single. cbv zeta.
  by destruct (List.filter _ _) as [|? [|? ?]].
Qed.

Lemma get_by_id_reads {T} (self : BaseRepository.t T) id s :
  (BaseRepository.get_by_id self id s).2
  = log_request (ReqMaybeSingle (BaseRepository.table_name self)
                   [("id", PStr id)]) s.
Proof.
  unfold BaseRepository.get_by_id, select_maybe_single. unfold_M. cbv zeta.
  destruct (List.filter _ _) as [|r [|? ?]]; [done| |done].
  destruct (truthy (PDict r)); [|done].
  by destruct (construct r).
Qed.

Lemma select_list_reads {T} `{ModelClass T} tn conds order limit offset s :
  ((rows ← select_rows tn conds order limit offset;
    lift (mapM_result (@construct T _) rows)) s).2
  = log_request (ReqSelect tn conds order limit offset) s.
Proof. unfold select_rows. unfold_M. reflexivity. Qed.

Lemma reads_log_one (s : db) (q : request) :
  is_read q = true →
  request_table q ∈ ["newspapers"; "issues"; "pages"] →
  ∀ {A} (m : M A), (m s).2 = log_request q s → reads_browse_tables m s.
Proof.
  intros Hq Ht A m Hm. unfold reads_browse_tables. rewrite Hm.
  split; [done|]. split; [done|].
  exists [q]. split; [done|]. by constructor.
Qed.

Lemma page_detail_reads page_id s :
  reads_browse_tables (Routes.get_page_detail page_id) s.
Proof.
  apply (reads_log_one s (ReqMaybeSingle "pages" [("id", PStr page_id)]));
    [done|set_solver|].
  unfold Routes.get_page_detail. unfold_M.
  pose proof (get_by_id_reads PageRepository.self page_id s) as H.
  destruct (BaseRepository.get_by_id PageRepository.self page_id s)
    as [[[p|]|e] s1]; exact H.
Qed.

Lemma list_issues_reads limit offset newspaper_id s :
  reads_browse_tables (Routes.get_issues limit offset newspaper_id) s.
Proof.
  unfold Routes.get_issues. cbv zeta.
  destruct (_ && _).
  - apply (reads_log_one s
             (issues_request newspaper_id (default 50 limit + 1)
                (default 0 offset)));
      [by destruct newspaper_id|destruct newspaper_id; set_solver|].
    unfold Routes.list_issues. destruct newspaper_id as [nid|].
    + unfold IssueRepository.list_by_newspaper, select_rows. unfold_M.
      cbn [fst snd]. by destruct (mapM_result _ _).
    + unfold BaseRepository.list_all, select_rows. unfold_M.
      cbn [fst snd]. by destruct (mapM_result _ _).
  - split; [done|]. split; [done|]. exists []. split; [|done].
    unfold raise. simpl. by rewrite app_nil_r.
Qed.

Lemma list_by_issue_reads issue_id order s :
  (PageRepository.list_by_issue issue_id order s).2
  = log_request (ReqSelect "pages" [("issue_id", PStr issue_id)]
                   (if order then Some ("page_number", false) else None)
                   None None) s.
Proof.
  unfold PageRepository.list_by_issue, select_rows. unfold_M.
  reflexivity.
Qed.

Lemma issue_detail_reads issue_id s :
  reads_browse_tables (Routes.get_issue_detail issue_id) s.
Proof.
  unfold reads_browse_tables, Routes.get_issue_detail. unfold_M.
  pose proof (get_by_id_reads IssueRepository.self issue_id s) as H1.
  destruct (BaseRepository.get_by_id IssueRepository.self issue_id s)
    as [[[issue|]|e] s1]; cbn [snd] in H1 |- *; subst s1.
  2,3: split; [done|]; split; [done|]; eexists [_]; split; [done|];
       constructor; [split; [done|set_solver]|done].
  pose proof (get_by_id_reads NewspaperRepository.self
                (Issue.newspaper_id issue)
                (log_request (ReqMaybeSingle "issues" [("id", PStr issue_id)])
                   s)) as H2.
  change (BaseRepository.table_name IssueRepository.self) with "issues".
  destruct (BaseRepository.get_by_id NewspaperRepository.self _ _)
    as [[[newspaper|]|e] s2]; cbn [snd] in H2 |- *; subst s2.
  2,3: split; [done|]; split; [done|]; eexists [_; _]; split;
       [cbn [requests log_request]; by rewrite <- app_assoc|];
       repeat (constructor; [split; [done|set_solver]|]); done.
  match goal with
  | |- context [PageRepository.list_by_issue ?i ?o ?st] =>
      pose proof (list_by_issue_reads i o st) as H3;
      destruct (PageRepository.list_by_issue i o st) as [[pages|e] s3]
  end; cbn [snd] in H3 |- *; subst s3.
  all: split; [done|]; split; [done|]; eexists [_; _; _]; split;
       [cbn [requests log_request]; by rewrite <- !app_assoc|];
       repeat (constructor; [split; [done|set_solver]|]); done.
Qed.

(** X5. The browse routes only read: whatever they answer (a response, a
    404, a 500, a validation failure), the issue listing, the issue detail
    and the page detail leave every table as it was, and every request
    they send is a select on the newspapers, issues or pages table. *)
Theorem browse_routes_only_read (s : db) :
  (∀ limit offset newspaper_id,
     reads_browse_tables (Routes.get_issues limit offset newspaper_id) s)
  ∧ (∀ issue_id, reads_browse_tables (Routes.get_issue_detail issue_id) s)
  ∧ (∀ page_id, reads_browse_tables (Routes.get_page_detail page_id) s).
Proof.
  split; [|split].
  - intros. apply list_issues_reads.
  - intros. apply issue_detail_reads.
  - intros. apply page_detail_reads.
Qed.

Lemma page_row_nonempty (r : dict) p : Page.of_row r = Some p → r ≠ ∅.
Proof.
  intros H ->. unfold Page.of_row, req_str in H.
  by rewrite lookup_empty in H.
Qed.

(** X6. The page-detail endpoint answers 404 "Page not found" when no page
    has the id, and otherwise the stored page as a response: its id, issue,
    page number, image path, OCR text, confidence and provider, status and
    creation time. It sends one request, a lookup of the id in the pages
    table. *)
Theorem get_page_detail_outcomes (s : db) (page_id : UUID) :
  let s' := log_request (ReqMaybeSingle "pages" [("id", PStr page_id)]) s in
  (List.filter (matches [("id", PStr page_id)]) (rows_of s "pages") = [] →
   Routes.get_page_detail page_id s
   = (Raise (HTTPException 404 "Page not found"), s'))
  ∧ (∀ (r : dict) (p : Page.t),
       List.filter (matches [("id", PStr page_id)]) (rows_of s "pages")
       = [r] →
       Page.of_row r = Some p →
       Routes.get_page_detail page_id s
       = (Ok (PageResponse.mk (Page.id p) (Page.issue_id p)
                (Page.page_number p) (Page.image_path p) (Page.ocr_text p)
                (Page.ocr_confidence p) (Page.ocr_provider p)
                (Page.ingestion_status p) (Page.created_at p)), s')).
Proof.
  intros s'. split.
  - intros Hf. unfold Routes.get_page_detail. unfold_M.
    by rewrite (get_by_id_none PageRepository.self page_id s Hf).
  - intros r p Hf Hp. unfold Routes.get_page_detail. unfold_M.
    by rewrite (get_by_id_one PageRepository.self page_id s r p Hf
                  (page_row_nonempty r p Hp) Hp).
Qed.

(** ** Pages of the issue listing *)

(** One page of the listing, in full. *)
Lemma get_issues_page (s : db) (limit offset : Z)
    (newspaper_id : option UUID) :
  1 ≤ limit ≤ 100 →
  0 ≤ offset →
  all_valid Issue.t (available_issues s newspaper_id) →
  let remaining :=
    drop (Z.to_nat offset) (available_issues s newspaper_id) in
  let has_more := bool_decide (Z.to_nat limit < length remaining)%nat in
  ∃ issues : list Issue.t,
    Routes.get_issues (Some limit) (Some offset) newspaper_id s
    = (Ok (PaginatedIssuesResponse.mk
             (IssueResponse.model_validate <$> issues)
             (offset + Z.of_nat (length issues)
              + (if has_more then 1 else 0))
             limit offset has_more),
       log_request (issues_request newspaper_id (limit + 1) offset) s)
    ∧ Forall2 (λ r x, Issue.of_row r = Some x)
        (take (Z.to_nat limit) remaining) issues.
Proof.
  intros Hl Ho Hv remaining has_more.
  destruct (list_issues_fetch newspaper_id (limit + 1) offset s Hv)
    as (fetched & Hrun & Hall).
  fold remaining in Hall.
  assert (length fetched
          = Nat.min (Z.to_nat limit + 1) (length remaining)) as Hlen.
  { rewrite <- (Forall2_length _ _ _ Hall), length_take.
    by replace (Z.to_nat (limit + 1)) with (Z.to_nat limit + 1)%nat by lia. }
  assert (py_slice_to limit fetched = take (Z.to_nat limit) fetched) as Hslice.
  { unfold py_slice_to. by rewrite (proj2 (Z.leb_le 0 limit)) by lia. }
  assert ((Routes.len fetched >? limit) = has_more) as Hmore.
  { unfold has_more, Routes.len. rewrite Z.gtb_ltb, Hlen.
    case_bool_decide; [apply Z.ltb_lt|apply Z.ltb_ge]; lia. }
  exists (take (Z.to_nat limit) fetched). split.
  - unfold Routes.get_issues.
    change (default 50 (Some limit)) with limit.
    change (default 0 (Some offset)) with offset. cbv zeta.
    rewrite (proj2 (Z.leb_le 1 limit)), (proj2 (Z.leb_le limit 100)),
      (proj2 (Z.leb_le 0 offset)) by lia.
    cbn [andb]. unfold Routes.list_issues. unfold_M.
    rewrite Hrun, Hslice, Hmore. reflexivity.
  - apply (Forall2_take _ _ _ (Z.to_nat limit)) in Hall.
    rewrite take_take in Hall.
    by replace (Z.to_nat limit `min` Z.to_nat (limit + 1))%nat
      with (Z.to_nat limit) in Hall by lia.
Qed.

Lemma Forall2_of_row_nil_iff (rows : list dict) (xs : list Issue.t) :
  Forall2 (λ r x, Issue.of_row r = Some x) rows xs → xs = [] ↔ rows = [].
Proof. intros H. destruct H; split; done. Qed.

Lemma of_row_issue_date (r : dict) (x : Issue.t) :
  Issue.of_row r = Some x →
  r !! "issue_date" = Some (PStr (Issue.issue_date x)).
Proof.
  unfold Issue.of_row. intros Hx.
  apply bind_Some in Hx as (i & Ei & Hx).
  apply bind_Some in Hx as (n & En & Hx).
  apply bind_Some in Hx as (da & Eda & Hx).
  apply bind_Some in Hx as (np & Enp & Hx).
  apply bind_Some in Hx as (st & Est & Hx).
  apply bind_Some in Hx as (se & Ese & Hx).
  apply bind_Some in Hx as (me & Eme & Hx).
  apply bind_Some in Hx as (ca & Eca & Hx).
  injection Hx as <-. cbn [Issue.issue_date].
  unfold req_str in Eda. destruct (r !! "issue_date") as [[]|]; try done.
  by injection Eda as ->.
Qed.

Lemma issue_dates_of_rows (rows : list dict) (issues : list Issue.t) :
  Forall2 (λ r x, Issue.of_row r = Some x) rows issues →
  (λ r : dict, r !! "issue_date") <$> rows
  = (λ d, Some (PStr d)) <$> (Issue.issue_date <$> issues).
Proof.
  induction 1 as [|r x rows issues Hx _ IH]; [done|].
  cbn [fmap list_fmap]. f_equal; [by apply of_row_issue_date|exact IH].
Qed.

Lemma shown_issue_dates_distinct (s : db) (nid : UUID) (n k : nat)
    (issues : list Issue.t) :
  issue_dates_distinct s nid →
  Forall2 (λ r x, Issue.of_row r = Some x)
    (take n (drop k (available_issues s (Some nid)))) issues →
  NoDup (Issue.issue_date <$> issues).
Proof.
  intros Hd Hall. apply (NoDup_fmap_1 (λ d, Some (PStr d))).
  rewrite <- (issue_dates_of_rows _ _ Hall).
  eapply sublist_NoDup;
    [|apply fmap_sublist; etrans; [apply sublist_take|apply sublist_drop]].
  unfold available_issues, query_rows.
  cbn [order_rows limit_rows offset_rows].
  eapply NoDup_Permutation_proper; [|exact Hd].
  apply fmap_Permutation, merge_sort_Permutation.
Qed.

(** X7. Walking through the issue listing page by page, a page at
    [offset] followed by the page at [offset + limit]: the first page says
    [has_more] exactly when the next page has an item, whatever the order
    of the rows. For the issues of one newspaper, which the request orders
    by date, newest first, and whose dates all differ, the two pages
    together are the first [2 * limit] issues after [offset] in that
    order, with none missing, and no date is shown twice. *)
Theorem list_issues_consecutive_pages (s : db) (limit offset : Z)
    (newspaper_id : option UUID) :
  1 ≤ limit ≤ 100 →
  0 ≤ offset →
  all_valid Issue.t (available_issues s newspaper_id) →
  ∃ (page1 page2 : PaginatedIssuesResponse.t) (s1 s2 : db),
    Routes.get_issues (Some limit) (Some offset) newspaper_id s
    = (Ok page1, s1)
    ∧ Routes.get_issues (Some limit) (Some (offset + limit)) newspaper_id s1
      = (Ok page2, s2)
    ∧ (PaginatedIssuesResponse.has_more page1 = true
       ↔ PaginatedIssuesResponse.items page2 ≠ [])
    ∧ (∀ nid : UUID,
         newspaper_id = Some nid →
         issue_dates_distinct s nid →
         let item (i : Issue.t) :=
           IssueResponse.mk (Issue.id i) (Issue.newspaper_id i)
             (Issue.issue_date i) (Issue.num_pages i) (Issue.source_type i)
             (Issue.source_external_id i) (Issue.metadata i)
             (Issue.created_at i) None None in
         ∃ issues1 issues2 : list Issue.t,
           PaginatedIssuesResponse.items page1 = item <$> issues1
           ∧ PaginatedIssuesResponse.items page2 = item <$> issues2
           ∧ Forall2 (λ r x, Issue.of_row r = Some x)
               (take (Z.to_nat (2 * limit))
                  (drop (Z.to_nat offset)
                     (query_rows [("newspaper_id", PStr nid)]
                        (Some ("issue_date", true)) None None
                        (rows_of s "issues"))))
               (issues1 ++ issues2)
           ∧ NoDup (Issue.issue_date <$> issues1 ++ issues2)).
Proof.
  intros Hl Ho Hv.
  destruct (get_issues_page s limit offset newspaper_id Hl Ho Hv)
    as (issues1 & H1 & Hall1).
  set (s1 := log_request (issues_request newspaper_id (limit + 1) offset) s)
    in *.
  assert (available_issues s1 newspaper_id = available_issues s newspaper_id)
    as Hs1 by (by destruct newspaper_id).
  destruct (get_issues_page s1 limit (offset + limit) newspaper_id Hl)
    as (issues2 & H2 & Hall2); [lia|by rewrite Hs1|].
  rewrite Hs1 in H2, Hall2.
  set (available := available_issues s newspaper_id) in *.
  replace (Z.to_nat (offset + limit))
    with (Z.to_nat offset + Z.to_nat limit)%nat in * by lia.
  rewrite <- drop_drop in H2, Hall2.
  set (remaining := drop (Z.to_nat offset) available) in *.
  assert (Forall2 (λ r x, Issue.of_row r = Some x)
            (take (Z.to_nat (2 * limit)) remaining) (issues1 ++ issues2))
    as Hall.
  { replace (Z.to_nat (2 * limit))
      with (Z.to_nat limit + Z.to_nat limit)%nat by lia.
    rewrite <- take_take_drop. by apply Forall2_app. }
  eexists _, _, s1, _.
  split; [exact H1|]. split; [exact H2|].
  cbn [PaginatedIssuesResponse.items PaginatedIssuesResponse.has_more].
  split.
  - rewrite bool_decide_eq_true.
    assert (issues2 = [] ↔ take (Z.to_nat limit)
                              (drop (Z.to_nat limit) remaining) = [])
      as Hnil by (by apply Forall2_of_row_nil_iff).
    assert (IssueResponse.model_validate <$> issues2 = [] ↔ issues2 = [])
      as Hmap by (by destruct issues2).
    rewrite Hmap, Hnil.
    rewrite <- length_zero_iff_nil, length_take, length_drop. lia.
  - intros nid Hnid Hd. exists issues1, issues2.
    split; [reflexivity|]. split; [reflexivity|].
    unfold remaining, available in Hall. rewrite Hnid in Hall.
    split; [exact Hall|].
    exact (shown_issue_dates_distinct s nid _ _ _ Hd Hall).
Qed.

(** X8. The total the issue listing reports. With [N] issues available:
    while the offset is within them, the total never exceeds [N], and on a
    page without [has_more] it is exactly [N]; with an offset beyond them
    the page is empty and the total is the offset itself, more than [N]. *)
Theorem list_issues_total_bounds (s : db) (limit offset : Z)
    (newspaper_id : option UUID) :
  1 ≤ limit ≤ 100 →
  0 ≤ offset →
  all_valid Issue.t (available_issues s newspaper_id) →
  let N := Routes.len (available_issues s newspaper_id) in
  ∃ (page : PaginatedIssuesResponse.t) (s' : db),
    Routes.get_issues (Some limit) (Some offset) newspaper_id s
    = (Ok page, s')
    ∧ (offset ≤ N →
       PaginatedIssuesResponse.total page ≤ N
       ∧ (PaginatedIssuesResponse.has_more page = false →
          PaginatedIssuesResponse.total page = N)
       ∧ (PaginatedIssuesResponse.has_more page = true →
          PaginatedIssuesResponse.total page = offset + limit + 1))
    ∧ (N < offset →
       PaginatedIssuesResponse.items page = []
       ∧ PaginatedIssuesResponse.has_more page = false
       ∧ PaginatedIssuesResponse.total page = offset).
Proof.
  intros Hl Ho Hv N.
  destruct (get_issues_page s limit offset newspaper_id Hl Ho Hv)
    as (issues & H1 & Hall).
  eexists _, _. split; [exact H1|]. clear H1.
  cbn [PaginatedIssuesResponse.items PaginatedIssuesResponse.has_more
       PaginatedIssuesResponse.total].
  pose proof (Forall2_length _ _ _ Hall) as Hlen.
  rewrite length_take, length_drop in Hlen.
  unfold N, Routes.len. rewrite length_drop.
  set (n := length (available_issues s newspaper_id)) in *.
  split.
  - intros Hn.
    destruct (bool_decide (Z.to_nat limit < n - Z.to_nat offset)%nat)
      eqn:Hm;
      [apply bool_decide_eq_true in Hm|apply bool_decide_eq_false in Hm];
      (split; [lia|split]); intros Hb; first [discriminate Hb | lia].
  - intros Hn. rewrite bool_decide_eq_false_2 by lia.
    assert (issues = []) as -> by (apply length_zero_iff_nil; lia).
    split; [done|]. split; [done|]. simpl. lia.
Qed.

(** ** [create_or_get] on a key that is present *)

(** X9. [create_or_get] never changes a record that exists: when one row
    carries the natural key, the call returns that record as stored,
    whatever page count, source, metadata, image path or status the call
    was given, and it sends nothing but the lookup. *)
Theorem create_or_get_keeps_existing (s : db) :
  (∀ (newspaper_id : UUID) (issue_date : date) (num_pages : Z)
     (source_type : string) (source_external_id : option string)
     (metadata : option dict) (r : dict) (issue : Issue.t),
     List.filter (matches (issue_key newspaper_id issue_date))
       (rows_of s "issues") = [r] →
     Issue.of_row r = Some issue →
     IssueRepository.create_or_get newspaper_id issue_date num_pages
       source_type source_external_id metadata s
     = (Ok issue,
        log_request
          (ReqMaybeSingle "issues" (issue_key newspaper_id issue_date)) s))
  ∧ (∀ (issue_id : UUID) (page_number : Z) (image_path : string)
       (ingestion_status : string) (r : dict) (page : Page.t),
       List.filter (matches (page_key issue_id page_number))
         (rows_of s "pages") = [r] →
       Page.of_row r = Some page →
       PageRepository.create_or_get issue_id page_number image_path
         ingestion_status s
       = (Ok page,
          log_request
            (ReqMaybeSingle "pages" (page_key issue_id page_number)) s)).
Proof.
  split.
  - intros nid d np st ext meta r issue Hf Hi.
    rewrite issue_create_or_get_shape.
    by apply (lookup_or_upsert_found IssueRepository.self
                "newspaper_id" (PStr nid) [("issue_date", PStr d)]
                "newspaper_id,issue_date" _ s r issue).
  - intros iid n path st r page Hf Hp.
    rewrite page_create_or_get_shape.
    by apply (lookup_or_upsert_found PageRepository.self
                "issue_id" (PStr iid) [("page_number", PInt n)]
                "issue_id,page_number" _ s r page).
Qed.

(** ** More on [increment_progress] *)

(** A call on a stored job whose merge succeeds: the job comes back with
    the merged progress, which is also what the store then holds. *)
Lemma increment_progress_run job_id pp pt st err s (r : dict) j p' :
  List.filter (matches [("id", PStr job_id)]) (rows_of s "ingest_jobs") = [r] →
  IngestJob.of_row r = Some j →
  IngestJobRepository.merge_progress (IngestJob.progress j) pp pt st err
  = Ok p' →
  ∃ (s' : db) (r' : dict),
    IngestJobRepository.increment_progress job_id pp pt st err s
    = (Ok (with_progress j p'), s')
    ∧ List.filter (matches [("id", PStr job_id)]) (rows_of s' "ingest_jobs")
      = [r']
    ∧ IngestJob.of_row r' = Some (with_progress j p')
    ∧ r' !! "progress" = Some (PDict p').
Proof.
  intros Hf Hj Hm.
  set (s1 := log_request (ReqMaybeSingle "ingest_jobs" [("id", PStr job_id)]) s).
  destruct (update_job_progress job_id p' s1 r j Hf Hj)
    as (s' & H1 & H2 & H3 & H4).
  exists s', (IngestJobRepository.update_job_data None None (Some p') None ∪ r).
  split; [|split; [exact H2|split; [exact H3|exact H4]]].
  unfold IngestJobRepository.increment_progress. unfold_M.
  rewrite (get_by_id_one IngestJobRepository.self job_id s r j Hf
             (ingest_job_row_nonempty r j Hj) Hj).
  rewrite Hm. exact H1.
Qed.

(** A call on a stored job whose merge raises: nothing is written. *)
Lemma increment_progress_merge_raises job_id pp pt st err s (r : dict) j e :
  List.filter (matches [("id", PStr job_id)]) (rows_of s "ingest_jobs") = [r] →
  IngestJob.of_row r = Some j →
  IngestJobRepository.merge_progress (IngestJob.progress j) pp pt st err
  = Raise e →
  IngestJobRepository.increment_progress job_id pp pt st err s
  = (Raise e,
     log_request (ReqMaybeSingle "ingest_jobs" [("id", PStr job_id)]) s).
Proof.
  intros Hf Hj Hm.
  unfold IngestJobRepository.increment_progress. unfold_M.
  rewrite (get_by_id_one IngestJobRepository.self job_id s r j Hf
             (ingest_job_row_nonempty r j Hj) Hj).
  by rewrite Hm.
Qed.

(** X10. [increment_progress] on a job that is not in the store raises
    [ValueError] "Job <id> not found" after the lookup, and writes
    nothing. *)
Theorem increment_progress_missing_job (s : db) (job_id : UUID)
    (pages_processed pages_total : Z) (current_stage : string)
    (error : option string) :
  List.filter (matches [("id", PStr job_id)]) (rows_of s "ingest_jobs") = [] →
  IngestJobRepository.increment_progress job_id pages_processed pages_total
    current_stage error s
  = (Raise (ValueError ("Job " +:+ job_id +:+ " not found")),
     log_request (ReqMaybeSingle "ingest_jobs" [("id", PStr job_id)]) s).
Proof.
  intros Hf. unfold IngestJobRepository.increment_progress. unfold_M.
  by rewrite (get_by_id_none IngestJobRepository.self job_id s Hf).
Qed.

Lemma merge_progress_first pp pt st (error : option string) :
  error ≠ Some "" →
  IngestJobRepository.merge_progress ∅ pp pt st error
  = Ok (first_progress pp pt st error).
Proof.
  intros He. unfold IngestJobRepository.merge_progress.
  change (truthy (PDict ∅)) with false. cbv iota zeta.
  unfold IngestJobRepository.initial_progress, first_progress.
  lookup_inserts. cbn [default py_add1 py_append].
  destruct error as [e|].
  - assert (truthy (PStr e) = true) as ->.
    { cbn [truthy]. apply negb_true_iff, String.eqb_neq. congruence. }
    lookup_inserts. cbn [default py_add1 py_append].
    reflexivity.
  - reflexivity.
Qed.

(** X11. The first call of [increment_progress] on a job stored with an
    empty progress object starts from zero counters and an empty error
    log: the job comes back, and is stored, with the position of the call,
    one success and no failure (no error), or no success, one failure and
    the error message as the only entry of the log (an error). *)
Theorem increment_progress_from_empty (s : db) (job_id : UUID)
    (pages_processed pages_total : Z) (current_stage : string)
    (error : option string) (r : dict) (j : IngestJob.t) :
  List.filter (matches [("id", PStr job_id)]) (rows_of s "ingest_jobs") = [r] →
  IngestJob.of_row r = Some j →
  IngestJob.progress j = ∅ →
  error ≠ Some "" →
  let p' := first_progress pages_processed pages_total current_stage error in
  ∃ (s' : db) (r' : dict),
    IngestJobRepository.increment_progress job_id pages_processed pages_total
      current_stage error s = (Ok (with_progress j p'), s')
    ∧ List.filter (matches [("id", PStr job_id)]) (rows_of s' "ingest_jobs")
      = [r']
    ∧ r' !! "progress" = Some (PDict p').
Proof.
  intros Hf Hj Hp He p'.
  destruct (increment_progress_run job_id pages_processed pages_total
              current_stage error s r j p' Hf Hj)
    as (s' & r' & H1 & H2 & H3 & H4).
  { rewrite Hp. by apply merge_progress_first. }
  exists s', r'. split; [exact H1|]. split; [exact H2|exact H4].
Qed.

Lemma merge_progress_counter_raises (p : dict) pp pt st (error : option string)
    e :
  py_add1 (counter p (if error is Some _ then "pages_failed"
                      else "pages_succeeded")) = Raise e →
  error ≠ Some "" →
  IngestJobRepository.merge_progress p pp pt st error = Raise e.
Proof.
  intros Hc He. unfold IngestJobRepository.merge_progress.
  set (base := if truthy (PDict p) then p
               else IngestJobRepository.initial_progress pt).
  cbv zeta. lookup_inserts.
  destruct error as [m|].
  - assert (truthy (PStr m) = true) as ->.
    { cbn [truthy]. apply negb_true_iff, String.eqb_neq. congruence. }
    change (default (PInt 0) (base !! "pages_failed"))
      with (counter base "pages_failed").
    unfold base. rewrite start_counter by (by right). by rewrite Hc.
  - change (default (PInt 0) (base !! "pages_succeeded"))
      with (counter base "pages_succeeded").
    unfold base. rewrite start_counter by (by left). by rewrite Hc.
Qed.

(** X12. A stored counter that is not a number stops [increment_progress]:
    when the counter the call would add to ([pages_succeeded] without an
    error, [pages_failed] with one) holds null, text, a list or an object,
    the call raises [TypeError] after reading the job and writes nothing. *)
Theorem increment_progress_bad_counter (s : db) (job_id : UUID)
    (pages_processed pages_total : Z) (current_stage : string)
    (error : option string) (r : dict) (j : IngestJob.t) (v : pyval) :
  List.filter (matches [("id", PStr job_id)]) (rows_of s "ingest_jobs") = [r] →
  IngestJob.of_row r = Some j →
  IngestJob.progress j !! (if error is Some _ then "pages_failed"
                           else "pages_succeeded") = Some v →
  (v = PNone ∨ (∃ x, v = PStr x) ∨ (∃ l, v = PList l) ∨ ∃ d, v = PDict d) →
  error ≠ Some "" →
  ∃ msg : string,
    IngestJobRepository.increment_progress job_id pages_processed pages_total
      current_stage error s
    = (Raise (TypeError msg),
       log_request (ReqMaybeSingle "ingest_jobs" [("id", PStr job_id)]) s).
Proof.
  intros Hf Hj Hv Hbad He.
  assert (∃ msg, py_add1 v = Raise (TypeError msg)) as [msg Hmsg].
  { destruct Hbad as [->|[[x ->]|[[l ->]|[d ->]]]]; by eexists. }
  exists msg.
  apply (increment_progress_merge_raises _ _ _ _ _ _ r j); [done|done|].
  apply merge_progress_counter_raises; [|done].
  unfold counter. by rewrite Hv.
Qed.

Lemma counter_lookup (p : dict) k v :
  p !! k = Some v → counter p k = v.
Proof. intros H. unfold counter. by rewrite H. Qed.

(** X13. Calls of [increment_progress] made one after the other on a job
    all count: after a run of calls, none with an empty error message,
    [pages_succeeded] has grown by the number of calls without an error
    and [pages_failed] by the number of calls with one; the error log is
    the end of the old log followed by the reported messages, in order,
    cut to ten entries as soon as one message is reported. *)
Theorem sequential_increments_all_count (calls : list progress_call) :
  ∀ (s : db) (job_id : UUID) (r : dict) (j : IngestJob.t) (a b : Z)
    (l : list pyval),
    List.filter (matches [("id", PStr job_id)]) (rows_of s "ingest_jobs")
    = [r] →
    IngestJob.of_row r = Some j →
    counter (IngestJob.progress j) "pages_succeeded" = PInt a →
    counter (IngestJob.progress j) "pages_failed" = PInt b →
    errors_of (IngestJob.progress j) = PList l →
    Forall (λ c, call_error c ≠ Some "") calls →
    ∃ (s' : db) (r' : dict) (j' : IngestJob.t) (l' dropped : list pyval),
      increment_each job_id calls s = (Ok (), s')
      ∧ List.filter (matches [("id", PStr job_id)])
          (rows_of s' "ingest_jobs") = [r']
      ∧ IngestJob.of_row r' = Some j'
      ∧ counter (IngestJob.progress j') "pages_succeeded"
        = PInt (a + Z.of_nat (reported_successes calls))
      ∧ counter (IngestJob.progress j') "pages_failed"
        = PInt (b + Z.of_nat (length (reported_errors calls)))
      ∧ errors_of (IngestJob.progress j') = PList l'
      ∧ l ++ (PStr <$> reported_errors calls) = dropped ++ l'
      ∧ (reported_errors calls = [] → l' = l)
      ∧ (reported_errors calls ≠ [] → (length l' ≤ 10)%nat).
Proof.
  induction calls as [|c rest IH]; intros s job_id r j a b l Hf Hj Ha Hb Hl Hc.
  - exists s, r, j, l, []. cbn [increment_each reported_successes
      reported_errors omap list_omap List.filter length fmap list_fmap].
    rewrite !Z.add_0_r, app_nil_r.
    split; [reflexivity|]. split; [exact Hf|]. split; [exact Hj|].
    split; [exact Ha|]. split; [exact Hb|]. split; [exact Hl|].
    split; [reflexivity|]. split; [reflexivity|]. by intros [].
  - apply Forall_cons in Hc as [Hc Hrest].
    destruct c as [pp pt st err]. cbn [call_error] in Hc.
    destruct (merge_progress_recorded (IngestJob.progress j) pp pt st err)
      as (p' & Hm & _ & Hrec); [|exact Hc|].
    { split; [by exists a|]. split; [by exists b|by exists l]. }
    destruct (increment_progress_run job_id pp pt st err s r j p' Hf Hj Hm)
      as (s1 & r1 & H1 & Hf1 & Hj1 & _).
    cbn [increment_each call_pages_processed call_pages_total
         call_current_stage call_error].
    unfold mbind at 1, M_bind at 1. rewrite H1.
    assert (IngestJob.progress (with_progress j p') = p') as Hwp
      by reflexivity.
    destruct err as [e|].
    + destruct Hrec as ((b0 & Hb0 & Hb') & Hs' & (l0 & errs' & dropped1 & Hl0
                        & Hl' & Happ & Hlen)).
      rewrite Hb in Hb0. injection Hb0 as <-.
      rewrite Hl in Hl0. injection Hl0 as <-.
      destruct (IH s1 job_id r1 (with_progress j p') a (b + 1) errs' Hf1 Hj1)
        as (s' & r' & j' & l' & dropped2 & R1 & R2 & R3 & R4 & R5 & R6 & R7
            & R8 & R9);
        [rewrite Hwp, Hs'; exact Ha
        |rewrite Hwp; by apply counter_lookup
        |rewrite Hwp; unfold errors_of; by rewrite Hl'
        |exact Hrest|].
      exists s', r', j', l', (dropped1 ++ dropped2).
      split; [exact R1|]. split; [exact R2|]. split; [exact R3|].
      assert (reported_successes (mkCall pp pt st (Some e) :: rest)
              = reported_successes rest) as -> by reflexivity.
      assert (reported_errors (mkCall pp pt st (Some e) :: rest)
              = e :: reported_errors rest) as -> by reflexivity.
      split; [exact R4|]. split.
      { rewrite R5. f_equal. cbn [length]. lia. }
      split; [exact R6|]. split.
      { rewrite fmap_cons, <- app_assoc, <- R7, (app_assoc dropped1).
        rewrite <- Happ, <- app_assoc. reflexivity. }
      split; [done|]. intros _.
      destruct (reported_errors rest) as [|e' es] eqn:Hes.
      * rewrite R8 by done. rewrite Hlen. lia.
      * by apply R9.
    + destruct Hrec as ((a0 & Ha0 & Ha') & Hb' & Hl').
      rewrite Ha in Ha0. injection Ha0 as <-.
      destruct (IH s1 job_id r1 (with_progress j p') (a + 1) b l Hf1 Hj1)
        as (s' & r' & j' & l' & dropped2 & R1 & R2 & R3 & R4 & R5 & R6 & R7
            & R8 & R9);
        [rewrite Hwp; by apply counter_lookup
        |rewrite Hwp, Hb'; exact Hb
        |rewrite Hwp, Hl'; exact Hl
        |exact Hrest|].
      exists s', r', j', l', dropped2.
      split; [exact R1|]. split; [exact R2|]. split; [exact R3|].
      assert (reported_successes (mkCall pp pt st None :: rest)
              = S (reported_successes rest)) as -> by reflexivity.
      assert (reported_errors (mkCall pp pt st None :: rest)
              = reported_errors rest) as -> by reflexivity.
      split; [rewrite R4; f_equal; lia|].
      split; [exact R5|]. split; [exact R6|]. split; [exact R7|].
      split; [exact R8|exact R9].
Qed.

(** X14. What [update_job] returns is what a lookup then finds: after an
    update of a stored job that supplies at least one field,
    [get_by_id] returns the same job as the update did, with the supplied
    fields replaced and the others as they were. *)
Theorem update_job_then_get_by_id (s : db) (job_id : UUID)
    (issue_id : option UUID) (status : option string)
    (progress : option dict) (error_message : option string)
    (r : dict) (j : IngestJob.t) :
  List.filter (matches [("id", PStr job_id)]) (rows_of s "ingest_jobs") = [r] →
  IngestJob.of_row r = Some j →
  (∃ col v, supplied issue_id status progress error_message col = Some v) →
  let j' := IngestJob.mk (IngestJob.id j) (IngestJob.idempotency_key j)
              (replaced issue_id (IngestJob.issue_id j))
              (default (IngestJob.status j) status)
              (default (IngestJob.progress j) progress)
              (replaced error_message (IngestJob.error_message j))
              (IngestJob.created_at j) (IngestJob.updated_at j) in
  ∃ s1 s2 : db,
    IngestJobRepository.update_job job_id issue_id status progress
      error_message s = (Ok j', s1)
    ∧ BaseRepository.get_by_id IngestJobRepository.self job_id s1
      = (Ok (Some j'), s2).
Proof.
  intros Hf Hj (col & v & Hs) j'.
  pose proof (of_row_updated issue_id status progress error_message r j Hj)
    as Hj'.
  pose (w := IngestJobRepository.update_job_data issue_id status progress
               error_message).
  set (s1 := (IngestJobRepository.update_job job_id issue_id status progress
                error_message s).2).
  assert (List.filter (matches [("id", PStr job_id)])
            (rows_of s1 "ingest_jobs") = [w ∪ r]) as Hf1.
  { unfold s1. by rewrite update_job_rows, filter_updated, Hf. }
  exists s1, (log_request (ReqMaybeSingle "ingest_jobs" [("id", PStr job_id)])
                s1).
  split.
  - rewrite (surjective_pairing (IngestJobRepository.update_job _ _ _ _ _ s)).
    fold s1. f_equal. unfold IngestJobRepository.update_job.
    rewrite (update_result IngestJobRepository.self _ _ _ r []).
    + rewrite update_data_update_job_data.
      by rewrite (construct_ingest_job _ _ Hj').
    + rewrite update_data_update_job_data. intros He.
      apply (f_equal (λ m : dict, m !! col)) in He.
      by rewrite update_job_data_lookup, Hs in He.
    + exact Hf.
  - apply (get_by_id_one IngestJobRepository.self job_id s1 (w ∪ r) j' Hf1).
    + by apply (ingest_job_row_nonempty _ j').
    + exact Hj'.
Qed.

(** ** Listings by status *)

Lemma order_rows_permutation order (rows : list dict) :
  order_rows order rows ≡ₚ rows.
Proof.
  destruct order as [[col desc]|]; [|done]. apply merge_sort_Permutation.
Qed.

(** Every row a select yields is a row of the table that passes the
    filters. *)
Lemma query_rows_elem conds order limit offset (rows : list dict) (r : dict) :
  r ∈ query_rows conds order limit offset rows →
  r ∈ rows ∧ matches conds r = true.
Proof.
  unfold query_rows. intros H.
  assert (r ∈ order_rows order (List.filter (matches conds) rows)) as H'.
  { destruct limit as [n|], offset as [k|]; cbn [limit_rows offset_rows] in H.
    - by eapply subseteq_drop, subseteq_take.
    - by eapply subseteq_take.
    - by eapply subseteq_drop.
    - done. }
  rewrite order_rows_permutation in H'.
  apply list_elem_of_In, filter_In in H' as [Hin Hm].
  by rewrite list_elem_of_In.
Qed.

Lemma query_rows_length conds order limit offset (rows : list dict) :
  length (query_rows conds order (Some limit) (Some offset) rows)
  = Nat.min (Z.to_nat limit)
      (length (List.filter (matches conds) rows) - Z.to_nat offset).
Proof.
  unfold query_rows. cbn [limit_rows offset_rows].
  by rewrite length_take, length_drop, order_rows_permutation.
Qed.

Lemma all_valid_query (T : Type) `{ModelClass T} conds order limit offset
    (rows : list dict) :
  all_valid T (List.filter (matches conds) rows) →
  all_valid T (query_rows conds order limit offset rows).
Proof.
  unfold all_valid. rewrite !Forall_forall. intros Hv r Hr.
  apply query_rows_elem in Hr as [Hin Hm]. apply Hv.
  apply list_elem_of_In, filter_In. by rewrite <- list_elem_of_In.
Qed.

Lemma matches_text (col v : string) (r : dict) :
  matches [(col, PStr v)] r = true → r !! col = Some (PStr v).
Proof.
  unfold matches. cbn [forallb]. rewrite andb_true_r.
  destruct (r !! col) as [[]|]; simpl; try done.
  by intros ->%String.eqb_eq.
Qed.

Lemma page_of_row_status (r : dict) p st :
  Page.of_row r = Some p → r !! "ingestion_status" = Some (PStr st) →
  Page.ingestion_status p = st.
Proof.
  unfold Page.of_row. intros Hp Hst.
  apply bind_Some in Hp as (i & Ei & Hp).
  apply bind_Some in Hp as (iss & Eiss & Hp).
  apply bind_Some in Hp as (pn & Epn & Hp).
  apply bind_Some in Hp as (ip & Eip & Hp).
  apply bind_Some in Hp as (ot & Eot & Hp).
  apply bind_Some in Hp as (oc & Eoc & Hp).
  apply bind_Some in Hp as (op & Eop & Hp).
  apply bind_Some in Hp as (ov & Eov & Hp).
  apply bind_Some in Hp as (om & Eom & Hp).
  apply bind_Some in Hp as (st' & Est & Hp).
  apply bind_Some in Hp as (ca & Eca & Hp).
  apply bind_Some in Hp as (ua & Eua & Hp).
  injection Hp as <-. cbn [Page.ingestion_status].
  unfold def_str in Est. rewrite Hst in Est. by injection Est.
Qed.

(** A listing whose rows are all valid returns them, validated. *)
Lemma select_list_valid (T : Type) `{ModelClass T} tn conds order limit
    offset s :
  all_valid T (List.filter (matches conds) (rows_of s tn)) →
  ∃ xs : list T,
    (rows ← select_rows tn conds order limit offset;
     lift (mapM_result (@construct T _) rows)) s
    = (Ok xs, log_request (ReqSelect tn conds order limit offset) s)
    ∧ Forall2 (λ r x, validate r = Some x)
        (query_rows conds order limit offset (rows_of s tn)) xs.
Proof.
  intros Hv.
  destruct (mapM_result_valid T _
              (all_valid_query T conds order limit offset _ Hv))
    as (xs & Hxs & Hall).
  exists xs. split; [|done].
  unfold select_rows. unfold_M. by rewrite Hxs.
Qed.

(** The rows a select yields are rows that pass the filters, each taken
    at most as often as the table holds it. *)
Lemma query_rows_submseteq conds order limit offset (rows : list dict) :
  query_rows conds order limit offset rows ⊆+ List.filter (matches conds) rows.
Proof.
  unfold query_rows.
  trans (order_rows order (List.filter (matches conds) rows));
    [|by rewrite order_rows_permutation].
  destruct limit as [n|], offset as [k|]; cbn [limit_rows offset_rows].
  - etrans; [apply submseteq_take|apply submseteq_drop].
  - apply submseteq_take.
  - apply submseteq_drop.
  - done.
Qed.

(** X15. A listing by status returns only records with that status: the
    jobs (or pages) returned are stored rows whose status is the one asked
    for, none of them twice, and there are as many as [limit] allows of
    those left after [offset]. Nothing is written. *)
Theorem list_by_status_only_that_status (s : db) (status : string)
    (limit offset : Z) :
  0 ≤ limit →
  0 ≤ offset →
  (all_valid IngestJob.t
     (List.filter (matches [("status", PStr status)])
        (rows_of s "ingest_jobs")) →
   ∃ (jobs : list IngestJob.t) (rows : list dict),
     IngestJobRepository.list_by_status status limit offset s
     = (Ok jobs,
        log_request (ReqSelect "ingest_jobs" [("status", PStr status)]
                       (Some ("created_at", true)) (Some limit)
                       (Some offset)) s)
     ∧ Forall2 (λ r j, IngestJob.of_row r = Some j) rows jobs
     ∧ rows ⊆+ List.filter (matches [("status", PStr status)])
                 (rows_of s "ingest_jobs")
     ∧ Forall (λ j, IngestJob.status j = status) jobs
     ∧ length jobs
       = Nat.min (Z.to_nat limit)
           (rows_with s "ingest_jobs" [("status", PStr status)]
            - Z.to_nat offset))
  ∧ (all_valid Page.t
       (List.filter (matches [("ingestion_status", PStr status)])
          (rows_of s "pages")) →
     ∃ (pages : list Page.t) (rows : list dict),
       PageRepository.list_by_status status limit offset s
       = (Ok pages,
          log_request (ReqSelect "pages" [("ingestion_status", PStr status)]
                         None (Some limit) (Some offset)) s)
       ∧ Forall2 (λ r p, Page.of_row r = Some p) rows pages
       ∧ rows ⊆+ List.filter (matches [("ingestion_status", PStr status)])
                   (rows_of s "pages")
       ∧ Forall (λ p, Page.ingestion_status p = status) pages
       ∧ length pages
         = Nat.min (Z.to_nat limit)
             (rows_with s "pages" [("ingestion_status", PStr status)]
              - Z.to_nat offset)).
Proof.
  intros _ _. split.
  - intros Hv.
    destruct (select_list_valid IngestJob.t "ingest_jobs"
                [("status", PStr status)] (Some ("created_at", true))
                (Some limit) (Some offset) s Hv) as (jobs & Hrun & Hall).
    exists jobs, (query_rows [("status", PStr status)]
                    (Some ("created_at", true)) (Some limit) (Some offset)
                    (rows_of s "ingest_jobs")).
    split; [exact Hrun|]. split; [exact Hall|].
    split; [apply query_rows_submseteq|]. split.
    + apply Forall_forall. intros j Hj.
      apply list_elem_of_lookup in Hj as [i Hi].
      destruct (Forall2_lookup_r _ _ _ _ _ Hall Hi) as (r & Hr & Hrj).
      apply list_elem_of_lookup_2, query_rows_elem in Hr as [_ Hm].
      by apply (of_row_status r j status Hrj), matches_text.
    + by rewrite <- (Forall2_length _ _ _ Hall), query_rows_length.
  - intros Hv.
    destruct (select_list_valid Page.t "pages"
                [("ingestion_status", PStr status)] None
                (Some limit) (Some offset) s Hv) as (pages & Hrun & Hall).
    exists pages, (query_rows [("ingestion_status", PStr status)] None
                     (Some limit) (Some offset) (rows_of s "pages")).
    split; [exact Hrun|]. split; [exact Hall|].
    split; [apply query_rows_submseteq|]. split.
    + apply Forall_forall. intros p Hp.
      apply list_elem_of_lookup in Hp as [i Hi].
      destruct (Forall2_lookup_r _ _ _ _ _ Hall Hi) as (r & Hr & Hrp).
      apply list_elem_of_lookup_2, query_rows_elem in Hr as [_ Hm].
      by apply (page_of_row_status r p status Hrp), matches_text.
    + by rewrite <- (Forall2_length _ _ _ Hall), query_rows_length.
Qed.

(** ** [BaseRepository.create], [delete] and [count] *)

Section Create.
Context {T C : Type} `{BaseModel C} (self : BaseRepository.t T).

Let tn := BaseRepository.table_name self.

(** The row the store makes of [data]. *)
Let new_row (data : C) (s : db) : dict :=
  dump_exclude_none data ∪ server_defaults s tn (clock s).

(** The store after it has accepted the insert of [data]. *)
Let inserted (data : C) (s : db) : db :=
  {| tables := <[tn := rows_of s tn ++ [new_row data s]]> (tables s);
     server_defaults := server_defaults s;
     clock := S (clock s);
     requests := requests s ++ [ReqInsert tn (dump_exclude_none data)] |}.

Lemma create_accepted (data : C) s :
  violates_unique tn (new_row data s) (rows_of s tn) = false →
  BaseRepository.create self data s
  = (@construct T (BaseRepository.model_class self) (new_row data s),
     inserted data s).
Proof.
  intros Hu. unfold BaseRepository.create, exec_insert. cbv zeta. unfold_M.
  fold tn. unfold new_row in Hu. rewrite Hu. reflexivity.
Qed.

Lemma create_rejected (data : C) s :
  violates_unique tn (new_row data s) (rows_of s tn) = true →
  BaseRepository.create self data s
  = (Raise (APIError "duplicate key value violates unique constraint"),
     log_request (ReqInsert tn (dump_exclude_none data)) s).
Proof.
  intros Hu. unfold BaseRepository.create, exec_insert. cbv zeta. unfold_M.
  fold tn. unfold new_row in Hu. rewrite Hu. reflexivity.
Qed.

Lemma create_rows (data : C) s :
  violates_unique tn (new_row data s) (rows_of s tn) = false →
  rows_of (BaseRepository.create self data s).2 tn
  = rows_of s tn ++ [new_row data s].
Proof.
  intros Hu. rewrite (create_accepted data s Hu). unfold rows_of at 1.
  cbn [snd inserted tables]. by rewrite lookup_insert_eq.
Qed.

Lemma create_other (data : C) s tn' :
  violates_unique tn (new_row data s) (rows_of s tn) = false →
  tn ≠ tn' → rows_of (BaseRepository.create self data s).2 tn' = rows_of s tn'.
Proof.
  intros Hu Hne. rewrite (create_accepted data s Hu). unfold rows_of at 1.
  cbn [snd inserted tables]. by rewrite lookup_insert_ne.
Qed.

Lemma create_result (data : C) s x :
  violates_unique tn (new_row data s) (rows_of s tn) = false →
  @validate T (BaseRepository.model_class self) (new_row data s) = Some x →
  (BaseRepository.create self data s).1 = Ok x.
Proof.
  intros Hu Hx. rewrite (create_accepted data s Hu). cbn [fst].
  unfold construct. by rewrite Hx.
Qed.

Lemma create_raises (data : C) s :
  violates_unique tn (new_row data s) (rows_of s tn) = false →
  @validate T (BaseRepository.model_class self) (new_row data s) = None →
  (BaseRepository.create self data s).1
  = Raise (ValidationError (@model_name T (BaseRepository.model_class self))).
Proof.
  intros Hu Hx. rewrite (create_accepted data s Hu). cbn [fst].
  unfold construct. by rewrite Hx.
Qed.

Lemma filter_after_create key (data : C) s :
  violates_unique tn (new_row data s) (rows_of s tn) = false →
  List.filter (matches key) (rows_of (BaseRepository.create self data s).2 tn)
  = List.filter (matches key) (rows_of s tn)
    ++ (if matches key (new_row data s) then [new_row data s] else []).
Proof.
  intros Hu. rewrite (create_rows data s Hu), List.filter_app.
  cbn [List.filter]. by destruct (matches key (new_row data s)).
Qed.

End Create.

(** A table without unique constraints accepts every insert, and one whose
    constraint is on a single column accepts a row whose value there no
    stored row has. *)
Lemma violates_unique_none tn new rows :
  unique_constraints tn = [] → violates_unique tn new rows = false.
Proof. intros Hc. unfold violates_unique. by rewrite Hc. Qed.

Lemma conflicts_one_matches col v (new r : dict) :
  new !! col = Some v → conflicts [col] new r = matches [(col, v)] r.
Proof.
  intros Hv. unfold conflicts, matches. cbn [forallb]. rewrite Hv.
  by destruct (r !! col).
Qed.

Lemma existsb_filter_nil {A} (f : A → bool) (l : list A) :
  List.filter f l = [] → existsb f l = false.
Proof.
  induction l as [|x l IH]; [done|]. cbn [List.filter existsb].
  destruct (f x); [done|]. exact IH.
Qed.

Lemma filter_nil_existsb {A} (f : A → bool) (l : list A) :
  existsb f l = false → List.filter f l = [].
Proof.
  induction l as [|x l IH]; [done|]. cbn [List.filter existsb].
  destruct (f x); [done|]. exact IH.
Qed.

(** X16. A record that [create] returns can be fetched by its id: when no
    stored row conflicts with the new row on a unique constraint of the
    table, the store gives the new row an id that no row of the table has,
    and the completed row is valid, [create] returns the record, the table
    gains that one row at its end, and [get_by_id] on the new id then
    returns the same record. *)
Theorem create_then_get_by_id {T C : Type} `{BaseModel C}
    (self : BaseRepository.t T) (data : C) (s : db) (id : UUID) (x : T) :
  let tn := BaseRepository.table_name self in
  let new := dump_exclude_none data ∪ server_defaults s tn (clock s) in
  violates_unique tn new (rows_of s tn) = false →
  @validate T (BaseRepository.model_class self) new = Some x →
  new !! "id" = Some (PStr id) →
  List.filter (matches [("id", PStr id)]) (rows_of s tn) = [] →
  ∃ s1 s2 : db,
    BaseRepository.create self data s = (Ok x, s1)
    ∧ rows_of s1 tn = rows_of s tn ++ [new]
    ∧ (∀ tn', tn' ≠ tn → rows_of s1 tn' = rows_of s tn')
    ∧ BaseRepository.get_by_id self id s1 = (Ok (Some x), s2).
Proof.
  intros tn new Hu Hx Hid Hf.
  exists (BaseRepository.create self data s).2.
  eexists. split; [|split; [|split]].
  - rewrite (surjective_pairing (BaseRepository.create self data s)).
    f_equal. by apply create_result.
  - by apply create_rows.
  - intros tn' Hne. by apply create_other.
  - apply (get_by_id_one self id _ new x).
    + rewrite filter_after_create by exact Hu. fold tn new. rewrite Hf.
      unfold matches at 1. cbn [forallb]. rewrite Hid. cbn [sql_eq].
      by rewrite String.eqb_refl.
    + by apply (lookup_Some_nonempty _ "id" (PStr id)).
    + exact Hx.
Qed.

(** [delete] *)

Lemma delete_run {T} (self : BaseRepository.t T) id s :
  BaseRepository.delete self id s
  = (Ok (),
     set_rows
       (log_request
          (ReqDelete (BaseRepository.table_name self) [("id", PStr id)]) s)
       (BaseRepository.table_name self)
       (List.filter (λ r, negb (matches [("id", PStr id)] r))
          (rows_of s (BaseRepository.table_name self)))).
Proof. reflexivity. Qed.

Lemma filter_negb_filter {A} (f : A → bool) (l : list A) :
  List.filter f (List.filter (λ x, negb (f x)) l) = [].
Proof.
  induction l as [|x l IH]; [done|]. cbn [List.filter].
  destruct (f x) eqn:E; cbn [negb List.filter]; [done|]. by rewrite E.
Qed.

Lemma filter_negb_idemp {A} (f : A → bool) (l : list A) :
  List.filter (λ x, negb (f x)) (List.filter (λ x, negb (f x)) l)
  = List.filter (λ x, negb (f x)) l.
Proof.
  induction l as [|x l IH]; [done|]. cbn [List.filter].
  destruct (f x) eqn:E; cbn [negb List.filter]; [done|].
  by rewrite E, IH.
Qed.

Lemma length_filter_negb {A} (f : A → bool) (l : list A) :
  (length (List.filter (λ x, negb (f x)) l) + length (List.filter f l)
   = length l)%nat.
Proof.
  induction l as [|x l IH]; [done|]. cbn [List.filter].
  destruct (f x); cbn [negb length]; lia.
Qed.

(** X17. [delete] removes the rows with the id and nothing else: the other
    rows of the table stay, in their order, and so does every other table;
    a lookup of the id then finds nothing; deleting again, or deleting an
    id that no row has, changes no row and raises nothing. *)
Theorem delete_removes_only_that_id {T} (self : BaseRepository.t T)
    (id : UUID) (s : db) :
  let tn := BaseRepository.table_name self in
  ∃ s1 : db,
    BaseRepository.delete self id s = (Ok (), s1)
    ∧ rows_of s1 tn
      = List.filter (λ r, negb (matches [("id", PStr id)] r)) (rows_of s tn)
    ∧ (∀ tn', tn' ≠ tn → rows_of s1 tn' = rows_of s tn')
    ∧ (∃ s2, BaseRepository.get_by_id self id s1 = (Ok None, s2))
    ∧ (∃ s2, BaseRepository.delete self id s1 = (Ok (), s2)
             ∧ ∀ tn', rows_of s2 tn' = rows_of s1 tn')
    ∧ (List.filter (matches [("id", PStr id)]) (rows_of s tn) = [] →
       ∀ tn', rows_of s1 tn' = rows_of s tn').
Proof.
  intros tn. eexists. split; [apply delete_run|]. fold tn.
  assert (∀ s0 rows tn', tn' ≠ tn →
            rows_of (set_rows s0 tn rows) tn' = rows_of s0 tn') as Hother.
  { intros s0 rows tn' Hne. by apply rows_of_set_rows_ne. }
  split; [apply rows_of_set_rows_eq|]. split.
  { intros tn' Hne. by rewrite (Hother _ _ _ Hne), rows_of_log_request. }
  split; [|split].
  - eexists. apply get_by_id_none. fold tn.
    rewrite rows_of_set_rows_eq. apply filter_negb_filter.
  - eexists. split; [apply delete_run|]. fold tn. intros tn'.
    destruct (decide (tn' = tn)) as [->|Hne].
    + by rewrite !rows_of_set_rows_eq, filter_negb_idemp.
    + by rewrite (Hother _ _ _ Hne), rows_of_log_request.
  - intros Hf tn'. destruct (decide (tn' = tn)) as [->|Hne];
      [|by rewrite (Hother _ _ _ Hne), rows_of_log_request].
    + rewrite rows_of_set_rows_eq.
      pose proof (length_filter_negb (matches [("id", PStr id)])
                    (rows_of s tn)) as Hlen.
      rewrite Hf in Hlen. cbn [length] in Hlen.
      assert (∀ (l : list dict) f, length (List.filter f l) = length l →
                List.filter f l = l) as Hall.
      { clear. induction l as [|x l IH]; intros f Hl; [done|].
        cbn [List.filter] in *. destruct (f x); cbn [length] in *.
        - f_equal. apply IH. lia.
        - pose proof (List.filter_length_le f l). lia. }
      apply Hall. lia.
Qed.

Lemma count_run {T} (self : BaseRepository.t T) s :
  BaseRepository.count self s
  = (Ok (Z.of_nat (length (rows_of s (BaseRepository.table_name self)))),
     log_request (ReqCount (BaseRepository.table_name self)) s).
Proof.
  unfold BaseRepository.count, exec_count. unfold_M. cbn [truthy].
  destruct (Z.eqb_spec (Z.of_nat (length (rows_of s
              (BaseRepository.table_name self)))) 0) as [->|]; done.
Qed.

(** X18. [count] follows the table: it returns the number of rows (0 for a
    table without rows) and changes no row; after a [create] whose row
    conflicts with no stored row on a unique constraint of the table it is
    one more than before; a [create] whose row does conflict raises the
    store's error and leaves the count as it was; and after a [delete] the
    count is less by the number of rows that had the id. *)
Theorem count_follows_create_and_delete {T C : Type} `{BaseModel C}
    (self : BaseRepository.t T) (s : db) :
  let tn := BaseRepository.table_name self in
  let n := Z.of_nat (length (rows_of s tn)) in
  BaseRepository.count self s = (Ok n, log_request (ReqCount tn) s)
  ∧ (∀ data : C,
       let new := dump_exclude_none data ∪ server_defaults s tn (clock s) in
       let s1 := (BaseRepository.create self data s).2 in
       (violates_unique tn new (rows_of s tn) = false →
        BaseRepository.count self s1
        = (Ok (n + 1), log_request (ReqCount tn) s1))
       ∧ (violates_unique tn new (rows_of s tn) = true →
          (∃ message : string,
             (BaseRepository.create self data s).1
             = Raise (APIError message))
          ∧ BaseRepository.count self s1
            = (Ok n, log_request (ReqCount tn) s1)))
  ∧ (∀ id : UUID,
       let s1 := (BaseRepository.delete self id s).2 in
       BaseRepository.count self s1
       = (Ok (n - Z.of_nat (rows_with s tn [("id", PStr id)])),
          log_request (ReqCount tn) s1)).
Proof.
  intros tn n. split; [apply count_run|]. split.
  - intros data new s1. split.
    + intros Hu. rewrite count_run. fold tn. unfold s1, tn.
      rewrite create_rows by exact Hu. rewrite length_app. cbn [length].
      do 2 f_equal. unfold n, tn. lia.
    + intros Hu. unfold s1.
      rewrite (create_rejected self data s Hu). cbn [fst snd].
      split; [by eexists|]. rewrite count_run. fold tn.
      by rewrite rows_of_log_request.
  - intros id s1. rewrite count_run. fold tn. unfold s1.
    rewrite delete_run. cbn [snd]. fold tn. rewrite rows_of_set_rows_eq.
    do 2 f_equal. unfold n, rows_with.
    pose proof (length_filter_negb (matches [("id", PStr id)]) (rows_of s tn)).
    lia.
Qed.

(** ** [create_with_key] and [get_by_key] *)

Lemma of_row_key (r : dict) j k :
  IngestJob.of_row r = Some j → r !! "idempotency_key" = Some (PStr k) →
  IngestJob.idempotency_key j = k.
Proof.
  unfold IngestJob.of_row. intros Hj Hk.
  apply bind_Some in Hj as (i & Ei & Hj).
  apply bind_Some in Hj as (k' & Ek & Hj).
  apply bind_Some in Hj as (iss & Eiss & Hj).
  apply bind_Some in Hj as (st' & Est & Hj).
  apply bind_Some in Hj as (pr & Epr & Hj).
  apply bind_Some in Hj as (em & Eem & Hj).
  apply bind_Some in Hj as (ca & Eca & Hj).
  apply bind_Some in Hj as (ua & Eua & Hj).
  injection Hj as <-. cbn [IngestJob.idempotency_key].
  unfold req_str in Ek. rewrite Hk in Ek. by injection Ek.
Qed.

Lemma get_by_key_one k s (r : dict) j :
  List.filter (matches [("idempotency_key", PStr k)])
    (rows_of s "ingest_jobs") = [r] →
  IngestJob.of_row r = Some j →
  IngestJobRepository.get_by_key k s
  = (Ok (Some j),
     log_request (ReqMaybeSingle "ingest_jobs" [("idempotency_key", PStr k)])
       s).
Proof.
  intros Hf Hj. unfold IngestJobRepository.get_by_key, select_maybe_single.
  unfold_M.
  change (BaseRepository.table_name IngestJobRepository.self)
    with "ingest_jobs".
  rewrite Hf. cbn [truthy].
  rewrite bool_decide_eq_false_2 by (by eapply ingest_job_row_nonempty).
  cbn [negb]. unfold construct.
  change (@validate _ IngestJob_model r) with (IngestJob.of_row r).
  by rewrite Hj.
Qed.

Lemma ingest_jobs_insert_allowed (new : dict) k (rows : list dict) :
  new !! "idempotency_key" = Some (PStr k) →
  List.filter (matches [("idempotency_key", PStr k)]) rows = [] →
  violates_unique "ingest_jobs" new rows = false.
Proof.
  intros Hk Hf. unfold violates_unique.
  change (unique_constraints "ingest_jobs") with [["idempotency_key"]].
  cbn [existsb]. rewrite orb_false_r. apply existsb_filter_nil.
  rewrite <- Hf. apply List.filter_ext. intros r.
  by apply conflicts_one_matches.
Qed.

(** X19. A job made by [create_with_key] is the job [get_by_key] finds:
    when no job has the key yet and the store completes the new row into
    a valid job, [create_with_key] returns a job with that key and the
    status given, and [get_by_key] on the key then returns the same job. *)
Theorem create_with_key_then_get_by_key (s : db) (idempotency_key : string)
    (status : string) (j : IngestJob.t) :
  List.filter (matches [("idempotency_key", PStr idempotency_key)])
    (rows_of s "ingest_jobs") = [] →
  IngestJob.of_row
    (IngestJobCreate.model_dump_exclude_none
       (IngestJobCreate.mk idempotency_key status)
     ∪ server_defaults s "ingest_jobs" (clock s)) = Some j →
  ∃ s1 s2 : db,
    IngestJobRepository.create_with_key idempotency_key status s = (Ok j, s1)
    ∧ IngestJob.idempotency_key j = idempotency_key
    ∧ IngestJob.status j = status
    ∧ IngestJobRepository.get_by_key idempotency_key s1 = (Ok (Some j), s2).
Proof.
  intros Hf Hj.
  set (new := IngestJobCreate.model_dump_exclude_none
                (IngestJobCreate.mk idempotency_key status)
              ∪ server_defaults s "ingest_jobs" (clock s)) in *.
  assert (new !! "idempotency_key" = Some (PStr idempotency_key)) as Hk.
  { unfold new. rewrite lookup_union.
    unfold IngestJobCreate.model_dump_exclude_none.
    cbn [IngestJobCreate.idempotency_key IngestJobCreate.status].
    lookup_inserts. by rewrite union_Some_l. }
  assert (new !! "status" = Some (PStr status)) as Hst.
  { unfold new. rewrite lookup_union.
    unfold IngestJobCreate.model_dump_exclude_none.
    cbn [IngestJobCreate.idempotency_key IngestJobCreate.status].
    lookup_inserts. by rewrite union_Some_l. }
  pose proof (ingest_jobs_insert_allowed new idempotency_key
                (rows_of s "ingest_jobs") Hk Hf) as Hu.
  exists (IngestJobRepository.create_with_key idempotency_key status s).2.
  eexists. split; [|split; [|split]].
  - rewrite (surjective_pairing
               (IngestJobRepository.create_with_key idempotency_key status s)).
    f_equal. unfold IngestJobRepository.create_with_key. cbv zeta.
    apply (create_result IngestJobRepository.self); [exact Hu|exact Hj].
  - by apply (of_row_key new).
  - by apply (of_row_status new).
  - apply (get_by_key_one _ _ new j); [|exact Hj].
    etrans; [apply (filter_after_create IngestJobRepository.self); exact Hu|].
    change (List.filter (matches [("idempotency_key", PStr idempotency_key)])
              (rows_of s "ingest_jobs")
            ++ (if matches [("idempotency_key", PStr idempotency_key)] new
                then [new] else []) = [new]).
    rewrite Hf. unfold matches. cbn [forallb]. rewrite Hk. cbn [sql_eq].
    by rewrite String.eqb_refl.
Qed.

(** ** [NewspaperRepository.get_or_create] and [get_by_name] *)

Lemma newspaper_dump_name name :
  NewspaperCreate.model_dump_exclude_none (new_newspaper name) !! "name"
  = Some (PStr name).
Proof. reflexivity. Qed.

Lemma new_newspaper_matches name (d : dict) :
  matches (name_key name)
    (NewspaperCreate.model_dump_exclude_none (new_newspaper name) ∪ d) = true.
Proof.
  unfold matches, name_key. cbn [forallb].
  rewrite lookup_union, newspaper_dump_name, union_Some_l. cbn [sql_eq].
  by rewrite String.eqb_refl.
Qed.

Lemma of_row_name (r : dict) n name :
  Newspaper.of_row r = Some n → r !! "name" = Some (PStr name) →
  Newspaper.name n = name.
Proof.
  unfold Newspaper.of_row. intros Hn Hname.
  apply bind_Some in Hn as (i & Ei & Hn).
  apply bind_Some in Hn as (nm & Enm & Hn).
  apply bind_Some in Hn as (ci & Eci & Hn).
  apply bind_Some in Hn as (co & Eco & Hn).
  apply bind_Some in Hn as (sy & Esy & Hn).
  apply bind_Some in Hn as (ey & Eey & Hn).
  apply bind_Some in Hn as (de & Ede & Hn).
  apply bind_Some in Hn as (st & Est & Hn).
  apply bind_Some in Hn as (ca & Eca & Hn).
  injection Hn as <-. cbn [Newspaper.name].
  unfold req_str in Enm. rewrite Hname in Enm. by injection Enm.
Qed.

Lemma get_or_create_found name s (r : dict) n :
  List.filter (matches (name_key name)) (rows_of s "newspapers") = [r] →
  Newspaper.of_row r = Some n →
  NewspaperRepository.get_or_create name s
  = (Ok n, log_request (ReqMaybeSingle "newspapers" (name_key name)) s).
Proof.
  intros Hf Hn. unfold NewspaperRepository.get_or_create, select_maybe_single.
  unfold_M. cbv zeta.
  change (BaseRepository.table_name NewspaperRepository.self)
    with "newspapers".
  fold (name_key name). rewrite Hf. cbn [truthy].
  rewrite bool_decide_eq_false_2 by (by eapply newspaper_row_nonempty).
  cbn [negb]. unfold construct.
  change (@validate _ Newspaper_model r) with (Newspaper.of_row r).
  by rewrite Hn.
Qed.

Lemma get_or_create_absent name s :
  List.filter (matches (name_key name)) (rows_of s "newspapers") = [] →
  NewspaperRepository.get_or_create name s
  = BaseRepository.create NewspaperRepository.self (new_newspaper name)
      (log_request (ReqMaybeSingle "newspapers" (name_key name)) s).
Proof.
  intros Hf. unfold NewspaperRepository.get_or_create, select_maybe_single.
  unfold_M. cbv zeta.
  change (BaseRepository.table_name NewspaperRepository.self)
    with "newspapers".
  fold (name_key name). by rewrite Hf.
Qed.

(** No unique constraint is named for newspapers: every insert is
    accepted. *)
Lemma newspapers_insert_allowed (new : dict) (rows : list dict) :
  violates_unique "newspapers" new rows = false.
Proof. reflexivity. Qed.

(** The insertion [get_or_create] makes for a name that is absent. *)
Lemma get_or_create_inserts name s n :
  List.filter (matches (name_key name)) (rows_of s "newspapers") = [] →
  Newspaper.of_row
    (NewspaperCreate.model_dump_exclude_none (new_newspaper name)
     ∪ server_defaults s "newspapers" (clock s)) = Some n →
  ∃ s1,
    NewspaperRepository.get_or_create name s = (Ok n, s1)
    ∧ rows_of s1 "newspapers"
      = rows_of s "newspapers"
        ++ [NewspaperCreate.model_dump_exclude_none (new_newspaper name)
            ∪ server_defaults s "newspapers" (clock s)]
    ∧ (∀ tn, tn ≠ "newspapers" → rows_of s1 tn = rows_of s tn)
    ∧ server_defaults s1 = server_defaults s
    ∧ clock s1 = S (clock s).
Proof.
  intros Hf Hn. rewrite (get_or_create_absent name s Hf).
  set (s0 := log_request (ReqMaybeSingle "newspapers" (name_key name)) s).
  exists (BaseRepository.create NewspaperRepository.self (new_newspaper name)
            s0).2.
  split; [|split; [|split; [|split]]].
  - rewrite (surjective_pairing (BaseRepository.create _ _ s0)). f_equal.
    apply (create_result NewspaperRepository.self);
      [apply newspapers_insert_allowed|exact Hn].
  - exact (create_rows NewspaperRepository.self (new_newspaper name) s0
             (newspapers_insert_allowed _ _)).
  - intros tn Hne.
    exact (create_other NewspaperRepository.self (new_newspaper name) s0 tn
             (newspapers_insert_allowed _ _) (not_eq_sym Hne)).
  - by rewrite (create_accepted NewspaperRepository.self (new_newspaper name)
                  s0 (newspapers_insert_allowed _ _)).
  - by rewrite (create_accepted NewspaperRepository.self (new_newspaper name)
                  s0 (newspapers_insert_allowed _ _)).
Qed.

(** X20. [get_or_create] called twice in a row with one name returns the
    same newspaper both times, a newspaper with that name, and leaves one
    row with the name: the first call inserts it when no row has the name,
    the second finds it. *)
Theorem get_or_create_twice_same_newspaper (s : db) (name : string) :
  (rows_with s "newspapers" (name_key name) ≤ 1)%nat →
  all_valid Newspaper.t
    (List.filter (matches (name_key name)) (rows_of s "newspapers")) →
  (rows_with s "newspapers" (name_key name) = 0%nat →
   is_Some (Newspaper.of_row
              (NewspaperCreate.model_dump_exclude_none (new_newspaper name)
               ∪ server_defaults s "newspapers" (clock s)))) →
  ∃ (n : Newspaper.t) (s1 s2 : db),
    NewspaperRepository.get_or_create name s = (Ok n, s1)
    ∧ NewspaperRepository.get_or_create name s1 = (Ok n, s2)
    ∧ Newspaper.name n = name
    ∧ rows_with s1 "newspapers" (name_key name) = 1%nat
    ∧ rows_with s2 "newspapers" (name_key name) = 1%nat.
Proof.
  intros Hu Hv Hnew. unfold rows_with in *.
  destruct (List.filter (matches (name_key name)) (rows_of s "newspapers"))
    as [|r [|r' rest]] eqn:Hf.
  - destruct (Hnew eq_refl) as [n Hn].
    destruct (get_or_create_inserts name s n Hf Hn)
      as (s1 & H1 & Hr & _ & _ & _).
    set (new := NewspaperCreate.model_dump_exclude_none (new_newspaper name)
                ∪ server_defaults s "newspapers" (clock s)) in *.
    assert (List.filter (matches (name_key name)) (rows_of s1 "newspapers")
            = [new]) as Hf1.
    { rewrite Hr, List.filter_app, Hf. cbn [List.filter app].
      unfold new. by rewrite new_newspaper_matches. }
    exists n, s1, (log_request (ReqMaybeSingle "newspapers" (name_key name))
                     s1).
    split; [exact H1|].
    split; [by apply (get_or_create_found name s1 new n)|].
    split.
    { apply (of_row_name new n name Hn). unfold new.
      by rewrite lookup_union, newspaper_dump_name, union_Some_l. }
    split; [by rewrite Hf1|].
    by rewrite rows_of_log_request, Hf1.
  - apply Forall_cons in Hv as [[n Hn] _].
    exists n, (log_request (ReqMaybeSingle "newspapers" (name_key name)) s),
      (log_request (ReqMaybeSingle "newspapers" (name_key name))
         (log_request (ReqMaybeSingle "newspapers" (name_key name)) s)).
    split; [by apply (get_or_create_found name s r n)|].
    split; [by apply (get_or_create_found name _ r n)|].
    split.
    { apply (of_row_name r n name Hn). apply matches_text.
      by apply (filter_singleton_matches _ (rows_of s "newspapers")). }
    split; [by rewrite rows_of_log_request, Hf|].
    by rewrite !rows_of_log_request, Hf.
  - simpl in Hu. lia.
Qed.

(** A call that runs alone is [get_or_create]. *)
Lemma newspaper_call_step_alone name s :
  let '(c1, s1) := newspaper_call_step (NpLookup name) s in
  newspaper_call_step c1 s1
  = (NpReturned (NewspaperRepository.get_or_create name s).1,
     (NewspaperRepository.get_or_create name s).2).
Proof.
  unfold newspaper_call_step at 1, NewspaperRepository.get_or_create,
    select_maybe_single. unfold_M. cbv zeta.
  change (BaseRepository.table_name NewspaperRepository.self)
    with "newspapers".
  destruct (List.filter _ _) as [|r [|r' rest]]; cbn [newspaper_call_step].
  - by destruct (BaseRepository.create _ _ _).
  - destruct (truthy (PDict r)); cbn [newspaper_call_step]; [done|].
    by destruct (BaseRepository.create _ _ _).
  - done.
Qed.





Lemma maybe_single_many tn conds s (r1 r2 : dict) rest :
  List.filter (matches conds) (rows_of s tn) = r1 :: r2 :: rest →
  select_maybe_single tn conds s
  = (Raise (APIError "JSON object requested, multiple rows returned"),
     log_request (ReqMaybeSingle tn conds) s).
Proof. intros Hf. unfold select_maybe_single. cbv zeta. by rewrite Hf. Qed.

(** X22. Once two rows share a name, the name can no longer be looked up:
    [get_or_create] and [get_by_name] both raise the store's error for a
    single-row request that matches several rows, and neither writes. *)
Theorem duplicate_name_blocks_lookup (s : db) (name : string) :
  (2 ≤ rows_with s "newspapers" (name_key name))%nat →
  ∃ msg : string,
    NewspaperRepository.get_or_create name s
    = (Raise (APIError msg),
       log_request (ReqMaybeSingle "newspapers" (name_key name)) s)
    ∧ NewspaperRepository.get_by_name name s
      = (Raise (APIError msg),
         log_request (ReqMaybeSingle "newspapers" (name_key name)) s).
Proof.
  unfold rows_with. intros Hn.
  destruct (List.filter (matches (name_key name)) (rows_of s "newspapers"))
    as [|r1 [|r2 rest]] eqn:Hf; [simpl in Hn; lia..|].
  eexists. split.
  - unfold NewspaperRepository.get_or_create. unfold_M.
    change (BaseRepository.table_name NewspaperRepository.self)
      with "newspapers".
    fold (name_key name).
    by rewrite (maybe_single_many _ _ _ _ _ _ Hf).
  - unfold NewspaperRepository.get_by_name. unfold_M.
    change (BaseRepository.table_name NewspaperRepository.self)
      with "newspapers".
    fold (name_key name).
    by rewrite (maybe_single_many _ _ _ _ _ _ Hf).
Qed.

(** ** Interleavings of [create_or_get] *)

Section UpsertRace.
Context {T : Type} (self : BaseRepository.t T).
Context (c : string) (v : pyval) (key' : list (string * pyval)).
Context (on_conflict : string).

Let key := (c, v) :: key'.
Let tn := BaseRepository.table_name self.

(** A call that runs alone is the lookup followed by the upsert. *)
Lemma upsert_call_step_alone data s :
  let '(c1, s1) := upsert_call_step self (CgLookup key on_conflict data) s in
  upsert_call_step self c1 s1
  = (CgReturned (lookup_or_upsert self key on_conflict data s).1,
     (lookup_or_upsert self key on_conflict data s).2).
Proof.
  unfold upsert_call_step at 1, lookup_or_upsert, select_maybe_single.
  unfold_M. cbv zeta. fold tn.
  destruct (List.filter _ _) as [|r [|r' rest]]; cbn [upsert_call_step].
  - by destruct (BaseRepository._execute_upsert _ _ _ _).
  - destruct (truthy (PDict r)); cbn [upsert_call_step].
    + by destruct (construct r).
    + by destruct (BaseRepository._execute_upsert _ _ _ _).
  - done.
Qed.

Lemma upsert_lookup_absent data s :
  List.filter (matches key) (rows_of s tn) = [] →
  upsert_call_step self (CgLookup key on_conflict data) s
  = (CgUpsert on_conflict data, log_request (ReqMaybeSingle tn key) s).
Proof.
  intros Hf. unfold upsert_call_step, select_maybe_single. cbv zeta.
  fold tn. by rewrite Hf.
Qed.

(** The upsert of a call whose key is still absent inserts. *)
Lemma upsert_step_inserts data s x :
  (∀ r, conflicts (split_commas on_conflict) data r = matches key r) →
  List.filter (matches key) (rows_of s tn) = [] →
  @validate T (BaseRepository.model_class self)
    (data ∪ server_defaults s tn (clock s)) = Some x →
  ∃ s',
    upsert_call_step self (CgUpsert on_conflict data) s
    = (CgReturned (Ok x), s')
    ∧ rows_of s' tn = rows_of s tn ++ [data ∪ server_defaults s tn (clock s)].
Proof.
  intros Hc Hf Hx.
  assert (existsb (conflicts (split_commas on_conflict) data) (rows_of s tn)
          = false) as He.
  { apply not_true_is_false. intros (r & Hin & Hr)%existsb_exists.
    rewrite Hc in Hr.
    assert (In r (List.filter (matches key) (rows_of s tn))) as Hin'
      by (by apply filter_In).
    by rewrite Hf in Hin'. }
  eexists. cbn [upsert_call_step].
  unfold BaseRepository._execute_upsert, exec_upsert. unfold_M.
  fold tn. cbv zeta. rewrite He. unfold construct. rewrite Hx.
  split; [reflexivity|].
  unfold rows_of at 1. cbn [tables]. by rewrite lookup_insert_eq.
Qed.

(** The upsert of a call whose key has appeared meanwhile updates the row
    that carries it. *)
Lemma upsert_step_updates data s (rows0 : list dict) (r : dict) x :
  (∀ r, conflicts (split_commas on_conflict) data r = matches key r) →
  (∀ d, matches key (data ∪ d) = true) →
  rows_of s tn = rows0 ++ [r] →
  List.filter (matches key) rows0 = [] →
  matches key r = true →
  @validate T (BaseRepository.model_class self) (data ∪ r) = Some x →
  ∃ s',
    upsert_call_step self (CgUpsert on_conflict data) s
    = (CgReturned (Ok x), s')
    ∧ rows_of s' tn = rows0 ++ [data ∪ r]
    ∧ List.filter (matches key) (rows_of s' tn) = [data ∪ r].
Proof.
  intros Hc Hk Hrows Hf Hr Hx.
  set (cf := conflicts (split_commas on_conflict) data) in *.
  assert (existsb cf (rows0 ++ [r]) = true) as He.
  { rewrite existsb_app. cbn [existsb]. rewrite (Hc r), Hr.
    by rewrite orb_true_r. }
  assert (List.filter cf (rows0 ++ [r]) = [r]) as Hfc.
  { rewrite (filter_ext _ _ Hc), List.filter_app, Hf. cbn [List.filter app].
    by rewrite Hr. }
  assert ((λ r0, if cf r0 then data ∪ r0 else r0) <$> (rows0 ++ [r])
          = rows0 ++ [data ∪ r]) as Hmap.
  { rewrite fmap_app. f_equal.
    - apply fmap_if_filter_nil. by rewrite (filter_ext _ _ Hc).
    - cbn [fmap list_fmap]. by rewrite (Hc r), Hr. }
  eexists. cbn [upsert_call_step].
  unfold BaseRepository._execute_upsert, exec_upsert. unfold_M.
  fold tn. cbv zeta. fold cf. rewrite Hrows, He, Hfc, Hmap.
  cbn [fmap list_fmap]. unfold construct. rewrite Hx.
  split; [reflexivity|]. rewrite rows_of_set_rows_eq.
  split; [reflexivity|].
  rewrite List.filter_app, Hf. cbn [List.filter app].
  by rewrite Hk.
Qed.

(** Two calls with one key that both look up before either upserts. *)
Lemma upsert_race data1 data2 s x1 x2 :
  (∀ r, conflicts (split_commas on_conflict) data1 r = matches key r) →
  (∀ r, conflicts (split_commas on_conflict) data2 r = matches key r) →
  (∀ d, matches key (data1 ∪ d) = true) →
  (∀ d, matches key (data2 ∪ d) = true) →
  List.filter (matches key) (rows_of s tn) = [] →
  let new := data1 ∪ server_defaults s tn (clock s) in
  @validate T (BaseRepository.model_class self) new = Some x1 →
  @validate T (BaseRepository.model_class self) (data2 ∪ new) = Some x2 →
  ∃ s',
    rtc (upsert_pool_step self)
      ([CgLookup key on_conflict data1; CgLookup key on_conflict data2], s)
      ([CgReturned (Ok x1); CgReturned (Ok x2)], s')
    ∧ List.filter (matches key) (rows_of s' tn) = [data2 ∪ new].
Proof.
  intros Hc1 Hc2 Hk1 Hk2 Hf new Hx1 Hx2.
  set (q := ReqMaybeSingle tn key).
  set (sa := log_request q s).
  set (sb := log_request q sa).
  assert (upsert_call_step self (CgLookup key on_conflict data1) s
          = (CgUpsert on_conflict data1, sa)) as E1
    by (by apply upsert_lookup_absent).
  assert (upsert_call_step self (CgLookup key on_conflict data2) sa
          = (CgUpsert on_conflict data2, sb)) as E2
    by (by apply upsert_lookup_absent).
  destruct (upsert_step_inserts data1 sb x1 Hc1 Hf Hx1) as (sc & E3 & Hrc).
  change (rows_of sb tn) with (rows_of s tn) in Hrc.
  change (server_defaults sb) with (server_defaults s) in Hrc.
  change (clock sb) with (clock s) in Hrc. fold new in Hrc.
  destruct (upsert_step_updates data2 sc (rows_of s tn) new x2 Hc2 Hk2 Hrc Hf
              (Hk1 _) Hx2) as (sd & E4 & _ & Hfd).
  exists sd. split; [|exact Hfd].
  eapply rtc_l.
  { eapply (upsert_pool_step_call self 0); [reflexivity|reflexivity|exact E1]. }
  eapply rtc_l.
  { eapply (upsert_pool_step_call self 1); [reflexivity|reflexivity|exact E2]. }
  eapply rtc_l.
  { eapply (upsert_pool_step_call self 0); [reflexivity|reflexivity|exact E3]. }
  eapply rtc_l.
  { eapply (upsert_pool_step_call self 1); [reflexivity|reflexivity|exact E4]. }
  apply rtc_refl.
Qed.

End UpsertRace.

(** The calls of the pool are the repositories' calls. *)
Lemma issue_call_alone nid d np st ext meta s :
  let '(c1, s1) :=
    upsert_call_step IssueRepository.self (issue_call nid d np st ext meta) s
  in
  upsert_call_step IssueRepository.self c1 s1
  = (CgReturned (IssueRepository.create_or_get nid d np st ext meta s).1,
     (IssueRepository.create_or_get nid d np st ext meta s).2).
Proof.
  rewrite issue_create_or_get_shape.
  apply (upsert_call_step_alone IssueRepository.self "newspaper_id"
           (PStr nid) [("issue_date", PStr d)]).
Qed.

Lemma page_call_alone iid n path st s :
  let '(c1, s1) :=
    upsert_call_step PageRepository.self (page_call iid n path st) s
  in
  upsert_call_step PageRepository.self c1 s1
  = (CgReturned (PageRepository.create_or_get iid n path st s).1,
     (PageRepository.create_or_get iid n path st s).2).
Proof.
  rewrite page_create_or_get_shape.
  apply (upsert_call_step_alone PageRepository.self "issue_id"
           (PStr iid) [("page_number", PInt n)]).
Qed.

(** An upsert over a valid issue row leaves a valid row: the id and the
    creation time stay, the fields of the call replace the others. *)
Lemma issue_of_row_upserted nid d np st ext meta (r : dict) i :
  Issue.of_row r = Some i →
  Issue.of_row
    (IssueCreate.model_dump_exclude_none (IssueCreate.mk nid d np st ext meta)
     ∪ r)
  = Some (Issue.mk (Issue.id i) nid d np st
            (replaced ext (Issue.source_external_id i))
            (replaced meta (Issue.metadata i)) (Issue.created_at i)).
Proof.
  intros Hi. unfold Issue.of_row in *.
  apply bind_Some in Hi as (i0 & Ei & Hi).
  apply bind_Some in Hi as (n0 & En & Hi).
  apply bind_Some in Hi as (d0 & Ed & Hi).
  apply bind_Some in Hi as (np0 & Enp & Hi).
  apply bind_Some in Hi as (st0 & Est & Hi).
  apply bind_Some in Hi as (se0 & Ese & Hi).
  apply bind_Some in Hi as (me0 & Eme & Hi).
  apply bind_Some in Hi as (ca0 & Eca & Hi).
  injection Hi as <-.
  cbn [Issue.id Issue.source_external_id Issue.metadata Issue.created_at].
  set (w := IssueCreate.model_dump_exclude_none
              (IssueCreate.mk nid d np st ext meta)).
  assert (w !! "id" = None) as W1 by (by destruct ext, meta).
  assert (w !! "created_at" = None) as W2 by (by destruct ext, meta).
  assert (w !! "newspaper_id" = Some (PStr nid)) as W3
    by (by destruct ext, meta).
  assert (w !! "issue_date" = Some (PStr d)) as W4 by (by destruct ext, meta).
  assert (w !! "num_pages" = Some (PInt np)) as W5 by (by destruct ext, meta).
  assert (w !! "source_type" = Some (PStr st)) as W6
    by (by destruct ext, meta).
  assert (w !! "source_external_id" = PStr <$> ext) as W7
    by (by destruct ext, meta).
  assert (w !! "metadata" = PDict <$> meta) as W8 by (by destruct ext, meta).
  unfold req_str, def_int, def_str, opt_str, opt_dict in *.
  rewrite !lookup_union, W1, W2, W3, W4, W5, W6, W7, W8.
  rewrite !(left_id_L None _), !union_Some_l, Ei, Eca.
  cbn [mbind option_bind].
  destruct ext, meta; cbn [fmap option_fmap option_map replaced];
    rewrite ?union_Some_l, ?(left_id_L None _), ?Ese, ?Eme; reflexivity.
Qed.

Lemma page_of_row_upserted iid n path st (r : dict) p :
  Page.of_row r = Some p →
  Page.of_row
    (PageCreate.model_dump_exclude_none (PageCreate.mk iid n path st) ∪ r)
  = Some (Page.mk (Page.id p) iid n path (Page.ocr_text p)
            (Page.ocr_confidence p) (Page.ocr_provider p)
            (Page.ocr_version p) (Page.ocr_meta p) st (Page.created_at p)
            (Page.updated_at p)).
Proof.
  intros Hp. unfold Page.of_row in *.
  apply bind_Some in Hp as (i & Ei & Hp).
  apply bind_Some in Hp as (iss & Eiss & Hp).
  apply bind_Some in Hp as (pn & Epn & Hp).
  apply bind_Some in Hp as (ip & Eip & Hp).
  apply bind_Some in Hp as (ot & Eot & Hp).
  apply bind_Some in Hp as (oc & Eoc & Hp).
  apply bind_Some in Hp as (op & Eop & Hp).
  apply bind_Some in Hp as (ov & Eov & Hp).
  apply bind_Some in Hp as (om & Eom & Hp).
  apply bind_Some in Hp as (st' & Est & Hp).
  apply bind_Some in Hp as (ca & Eca & Hp).
  apply bind_Some in Hp as (ua & Eua & Hp).
  injection Hp as <-.
  cbn [Page.id Page.ocr_text Page.ocr_confidence Page.ocr_provider
       Page.ocr_version Page.ocr_meta Page.created_at Page.updated_at].
  set (w := PageCreate.model_dump_exclude_none (PageCreate.mk iid n path st)).
  assert (w !! "id" = None) as W1 by reflexivity.
  assert (w !! "issue_id" = Some (PStr iid)) as W2 by reflexivity.
  assert (w !! "page_number" = Some (PInt n)) as W3 by reflexivity.
  assert (w !! "image_path" = Some (PStr path)) as W4 by reflexivity.
  assert (w !! "ocr_text" = None) as W5 by reflexivity.
  assert (w !! "ocr_confidence" = None) as W6 by reflexivity.
  assert (w !! "ocr_provider" = None) as W7 by reflexivity.
  assert (w !! "ocr_version" = None) as W8 by reflexivity.
  assert (w !! "ocr_meta" = None) as W9 by reflexivity.
  assert (w !! "ingestion_status" = Some (PStr st)) as W10 by reflexivity.
  assert (w !! "created_at" = None) as W11 by reflexivity.
  assert (w !! "updated_at" = None) as W12 by reflexivity.
  unfold req_str, req_int, opt_str, opt_float, opt_dict, def_str in *.
  rewrite !lookup_union, W1, W2, W3, W4, W5, W6, W7, W8, W9, W10, W11, W12.
  rewrite !(left_id_L None _), !union_Some_l.
  by rewrite Ei, Eot, Eoc, Eop, Eov, Eom, Eca, Eua.
Qed.

(** X23. Two calls of [create_or_get] with one new key that both look up
    before either writes still leave one row: the first upsert inserts,
    the second finds the conflict and updates that row in place. Both
    calls return normally, with the same id; the row keeps its id and its
    creation time and carries the other fields of the call that wrote
    last. *)
Theorem concurrent_create_or_get_one_row (s : db) :
  (∀ (newspaper_id : UUID) (issue_date : date)
     (num_pages1 : Z) (source_type1 : string) (ext1 : option string)
     (meta1 : option dict)
     (num_pages2 : Z) (source_type2 : string) (ext2 : option string)
     (meta2 : option dict) (i1 : Issue.t),
     List.filter (matches (issue_key newspaper_id issue_date))
       (rows_of s "issues") = [] →
     Issue.of_row
       (IssueCreate.model_dump_exclude_none
          (IssueCreate.mk newspaper_id issue_date num_pages1 source_type1
             ext1 meta1)
        ∪ server_defaults s "issues" (clock s)) = Some i1 →
     let i2 := Issue.mk (Issue.id i1) newspaper_id issue_date num_pages2
                 source_type2 (replaced ext2 (Issue.source_external_id i1))
                 (replaced meta2 (Issue.metadata i1)) (Issue.created_at i1) in
     ∃ (s' : db) (r' : dict),
       rtc (upsert_pool_step IssueRepository.self)
         ([issue_call newspaper_id issue_date num_pages1 source_type1 ext1
             meta1;
           issue_call newspaper_id issue_date num_pages2 source_type2 ext2
             meta2], s)
         ([CgReturned (Ok i1); CgReturned (Ok i2)], s')
       ∧ Issue.id i1 = Issue.id i2
       ∧ List.filter (matches (issue_key newspaper_id issue_date))
           (rows_of s' "issues") = [r']
       ∧ Issue.of_row r' = Some i2
       ∧ rows_with s' "issues" (issue_key newspaper_id issue_date) = 1%nat)
  ∧ (∀ (issue_id : UUID) (page_number : Z)
       (image_path1 status1 image_path2 status2 : string) (p1 : Page.t),
       List.filter (matches (page_key issue_id page_number))
         (rows_of s "pages") = [] →
       Page.of_row
         (PageCreate.model_dump_exclude_none
            (PageCreate.mk issue_id page_number image_path1 status1)
          ∪ server_defaults s "pages" (clock s)) = Some p1 →
       let p2 := Page.mk (Page.id p1) issue_id page_number image_path2
                   (Page.ocr_text p1) (Page.ocr_confidence p1)
                   (Page.ocr_provider p1) (Page.ocr_version p1)
                   (Page.ocr_meta p1) status2 (Page.created_at p1)
                   (Page.updated_at p1) in
       ∃ (s' : db) (r' : dict),
         rtc (upsert_pool_step PageRepository.self)
           ([page_call issue_id page_number image_path1 status1;
             page_call issue_id page_number image_path2 status2], s)
           ([CgReturned (Ok p1); CgReturned (Ok p2)], s')
         ∧ Page.id p1 = Page.id p2
         ∧ List.filter (matches (page_key issue_id page_number))
             (rows_of s' "pages") = [r']
         ∧ Page.of_row r' = Some p2
         ∧ rows_with s' "pages" (page_key issue_id page_number) = 1%nat).
Proof.
  split.
  - intros nid d np1 st1 ext1 meta1 np2 st2 ext2 meta2 i1 Hf Hi1 i2.
    pose proof (issue_of_row_upserted nid d np2 st2 ext2 meta2 _ i1 Hi1)
      as Hi2.
    destruct (upsert_race IssueRepository.self "newspaper_id" (PStr nid)
                [("issue_date", PStr d)] "newspaper_id,issue_date"
                (IssueCreate.model_dump_exclude_none
                   (IssueCreate.mk nid d np1 st1 ext1 meta1))
                (IssueCreate.model_dump_exclude_none
                   (IssueCreate.mk nid d np2 st2 ext2 meta2))
                s i1 i2) as (s' & Hrun & Hf').
    + apply issue_conflicts.
    + apply issue_conflicts.
    + apply issue_dump_matches.
    + apply issue_dump_matches.
    + exact Hf.
    + exact Hi1.
    + exact Hi2.
    + eexists s', _. split; [exact Hrun|]. split; [reflexivity|].
      split; [exact Hf'|]. split; [exact Hi2|].
      unfold rows_with, issue_key.
      change "issues" with (BaseRepository.table_name IssueRepository.self).
      by rewrite Hf'.
  - intros iid n path1 st1 path2 st2 p1 Hf Hp1 p2.
    pose proof (page_of_row_upserted iid n path2 st2 _ p1 Hp1) as Hp2.
    destruct (upsert_race PageRepository.self "issue_id" (PStr iid)
                [("page_number", PInt n)] "issue_id,page_number"
                (PageCreate.model_dump_exclude_none
                   (PageCreate.mk iid n path1 st1))
                (PageCreate.model_dump_exclude_none
                   (PageCreate.mk iid n path2 st2))
                s p1 p2) as (s' & Hrun & Hf').
    + apply page_conflicts.
    + apply page_conflicts.
    + apply page_dump_matches.
    + apply page_dump_matches.
    + exact Hf.
    + exact Hp1.
    + exact Hp2.
    + eexists s', _. split; [exact Hrun|]. split; [reflexivity|].
      split; [exact Hf'|]. split; [exact Hp2|].
      unfold rows_with, page_key.
      change "pages" with (BaseRepository.table_name PageRepository.self).
      by rewrite Hf'.
Qed.

(** ** [Settings.cors_origins_list] *)

Lemma split_commas_aux_length cur s :
  length (split_commas_aux cur s) = S (comma_count s).
Proof.
  revert cur. induction s as [|c s IH]; intros cur; [done|].
  cbn [split_commas_aux comma_count].
  destruct (Ascii.eqb c ","); cbn [length]; by rewrite IH.
Qed.

Lemma string_app_assoc (s1 s2 s3 : string) :
  s1 +:+ (s2 +:+ s3) = (s1 +:+ s2) +:+ s3.
Proof.
  induction s1 as [|a s1 IH]; [done|].
  change (String a (s1 +:+ (s2 +:+ s3)) = String a ((s1 +:+ s2) +:+ s3)).
  by rewrite IH.
Qed.

Lemma rev_app_app (s1 s2 : string) :
  String.rev_app s1 s2 = String.rev s1 +:+ s2.
Proof.
  unfold String.rev. revert s2.
  induction s1 as [|a s1 IH]; intros s2; [done|].
  cbn [String.rev_app]. rewrite (IH (String a s2)), (IH (String a "")).
  by rewrite <- string_app_assoc.
Qed.

Lemma rev_cons (a : ascii) (s : string) :
  String.rev (String a s) = String.rev s +:+ String a "".
Proof. unfold String.rev at 1. cbn [String.rev_app]. apply rev_app_app. Qed.

(** Splitting a text that starts with a piece without commas. *)
Lemma split_commas_aux_piece cur (o : string) :
  comma_count o = 0%nat →
  split_commas_aux cur o = [String.rev cur +:+ o]
  ∧ ∀ rest,
      split_commas_aux cur (o +:+ "," +:+ rest)
      = (String.rev cur +:+ o) :: split_commas_aux "" rest.
Proof.
  revert cur. induction o as [|c o IH]; intros cur Hc.
  - split; [by rewrite string_app_nil_r|]. intros rest.
    by rewrite string_app_nil_r.
  - cbn [comma_count] in Hc.
    destruct (Ascii.eqb c ",") eqn:Ec; [done|].
    destruct (IH (String c cur) Hc) as [H1 H2].
    assert (String.rev (String c cur) +:+ o = String.rev cur +:+ String c o)
      as Hrev by (by rewrite rev_cons, <- string_app_assoc).
    split.
    + cbn [split_commas_aux]. by rewrite Ec, H1, Hrev.
    + intros rest.
      change (String c o +:+ "," +:+ rest)
        with (String c (o +:+ "," +:+ rest)).
      cbn [split_commas_aux]. by rewrite Ec, H2, Hrev.
Qed.

Lemma split_join_commas (l : list string) :
  l ≠ [] →
  Forall (λ o, comma_count o = 0%nat) l →
  split_commas (join_commas l) = l.
Proof.
  unfold split_commas. intros Hne Hl.
  induction Hl as [|o rest Ho Hrest IH]; [done|].
  destruct rest as [|o' rest].
  - cbn [join_commas]. by rewrite (proj1 (split_commas_aux_piece "" o Ho)).
  - change (join_commas (o :: o' :: rest))
      with (o +:+ "," +:+ join_commas (o' :: rest)).
    rewrite (proj2 (split_commas_aux_piece "" o Ho)). by rewrite IH.
Qed.

(** X24. The list of allowed origins has one entry more than the setting
    has commas: it is never empty, an empty setting gives one empty
    origin, and a comma at the end gives an empty last origin. *)
Theorem cors_origins_list_length (self : Settings.t) :
  length (Settings.cors_origins_list self)
  = S (comma_count (Settings.cors_origins self))
  ∧ Settings.cors_origins_list self ≠ []
  ∧ (Settings.cors_origins self = "" →
     Settings.cors_origins_list self = [""])
  ∧ (∀ pre, Settings.cors_origins self = pre +:+ "," →
            last (Settings.cors_origins_list self) = Some "").
Proof.
  unfold Settings.cors_origins_list.
  assert (length (strip <$> split_commas (Settings.cors_origins self))
          = S (comma_count (Settings.cors_origins self))) as Hlen.
  { rewrite length_fmap. apply split_commas_aux_length. }
  split; [exact Hlen|]. split; [|split].
  - intros He. by rewrite He in Hlen.
  - by intros ->.
  - intros pre ->. rewrite fmap_last.
    assert (∀ cur, last (split_commas_aux cur (pre +:+ ",")) = Some "") as H.
    { induction pre as [|c pre IH]; intros cur.
      - by cbn.
      - change (String c pre +:+ ",") with (String c (pre +:+ ",")).
        cbn [split_commas_aux]. destruct (Ascii.eqb c ",").
        + rewrite last_cons, IH. done.
        + apply IH. }
    unfold split_commas. by rewrite H.
Qed.

(** X25. Reading back a list of origins written with commas between them:
    when no origin contains a comma or starts or ends with white space,
    and there is at least one, the setting made by joining them with
    commas is parsed into the same list. *)
Theorem cors_origins_list_of_join (self : Settings.t) (origins : list string) :
  origins ≠ [] →
  Forall (λ o, comma_count o = 0%nat ∧ strip o = o) origins →
  Settings.cors_origins self = join_commas origins →
  Settings.cors_origins_list self = origins.
Proof.
  intros Hne Ho Hs. unfold Settings.cors_origins_list. rewrite Hs.
  rewrite split_join_commas;
    [|done|by eapply Forall_impl; [exact Ho|intros o [? _]]].
  clear Hne Hs. induction Ho as [|o rest [_ Ho] _ IH]; [done|].
  by rewrite fmap_cons, Ho, IH.
Qed.

(** ** Repeating [update_job] *)

Lemma update_job_run job_id a b c d s (r : dict) j :
  List.filter (matches [("id", PStr job_id)]) (rows_of s "ingest_jobs") = [r] →
  IngestJob.of_row r = Some j →
  (∃ col v, supplied a b c d col = Some v) →
  ∃ j',
    IngestJob.of_row (IngestJobRepository.update_job_data a b c d ∪ r)
    = Some j'
    ∧ (IngestJobRepository.update_job job_id a b c d s).1 = Ok j'
    ∧ List.filter (matches [("id", PStr job_id)])
        (rows_of (IngestJobRepository.update_job job_id a b c d s).2
           "ingest_jobs")
      = [IngestJobRepository.update_job_data a b c d ∪ r].
Proof.
  intros Hf Hj (col & v & Hs).
  pose proof (of_row_updated a b c d r j Hj) as Hj'.
  eexists. split; [exact Hj'|]. split.
  - unfold IngestJobRepository.update_job.
    rewrite (update_result IngestJobRepository.self _ _ _ r []).
    + rewrite update_data_update_job_data.
      by rewrite (construct_ingest_job _ _ Hj').
    + rewrite update_data_update_job_data. intros He.
      apply (f_equal (λ m : dict, m !! col)) in He.
      by rewrite update_job_data_lookup, Hs in He.
    + exact Hf.
  - by rewrite update_job_rows, filter_updated, Hf.
Qed.

Lemma updated_row_idemp job_id a b c d (r : dict) :
  updated_row job_id a b c d (updated_row job_id a b c d r)
  = updated_row job_id a b c d r.
Proof.
  unfold updated_row.
  destruct (matches [("id", PStr job_id)] r) eqn:Hm.
  - rewrite matches_id_updated, Hm.
    by rewrite (assoc_L (∪)), (idemp_L (∪)).
  - by rewrite Hm.
Qed.

(** X26. [update_job] can be repeated: a second call with the same
    arguments returns the same job as the first and leaves every table as
    the first call left it. *)
Theorem update_job_twice_same (s : db) (job_id : UUID)
    (issue_id : option UUID) (status : option string)
    (progress : option dict) (error_message : option string)
    (r : dict) (j : IngestJob.t) :
  List.filter (matches [("id", PStr job_id)]) (rows_of s "ingest_jobs") = [r] →
  IngestJob.of_row r = Some j →
  (∃ col v, supplied issue_id status progress error_message col = Some v) →
  ∃ (j' : IngestJob.t) (s1 s2 : db),
    IngestJobRepository.update_job job_id issue_id status progress
      error_message s = (Ok j', s1)
    ∧ IngestJobRepository.update_job job_id issue_id status progress
        error_message s1 = (Ok j', s2)
    ∧ ∀ tn, rows_of s2 tn = rows_of s1 tn.
Proof.
  intros Hf Hj Hs.
  destruct (update_job_run job_id issue_id status progress error_message s r j
              Hf Hj Hs) as (j' & Hj' & H1 & Hf1).
  set (s1 := (IngestJobRepository.update_job job_id issue_id status progress
                error_message s).2) in *.
  destruct (update_job_run job_id issue_id status progress error_message s1
              _ j' Hf1 Hj' Hs) as (j'' & Hj'' & H2 & _).
  rewrite (assoc_L (∪)), (idemp_L (∪)), Hj' in Hj''.
  injection Hj'' as <-.
  exists j', s1,
    (IngestJobRepository.update_job job_id issue_id status progress
       error_message s1).2.
  split; [|split].
  - rewrite (surjective_pairing (IngestJobRepository.update_job _ _ _ _ _ s)).
    by rewrite H1.
  - rewrite (surjective_pairing (IngestJobRepository.update_job _ _ _ _ _ s1)).
    by rewrite H2.
  - intros tn. destruct (decide (tn = "ingest_jobs")) as [->|Hne].
    + unfold s1. rewrite !update_job_rows, <- list_fmap_compose.
      apply list_fmap_ext. intros i x _. apply updated_row_idemp.
    + unfold IngestJobRepository.update_job.
      by rewrite (update_other IngestJobRepository.self).
Qed.

(** ** OCR results in the page detail *)

(** X27. What [update_ocr] writes is what the page-detail endpoint then
    shows: after an update of a stored page, the response for that page
    carries the new text and status, and the confidence and provider of
    the call where it gave them, the stored ones where it did not. *)
Theorem update_ocr_then_page_detail (s : db) (page_id : UUID)
    (ocr_text : string) (ocr_confidence : option float)
    (ocr_provider ocr_version : option string) (ocr_meta : option dict)
    (ingestion_status : string) (r : dict) (p : Page.t) :
  List.filter (matches [("id", PStr page_id)]) (rows_of s "pages") = [r] →
  Page.of_row r = Some p →
  ∃ (p' : Page.t) (s1 s2 : db),
    PageRepository.update_ocr page_id ocr_text ocr_confidence ocr_provider
      ocr_version ocr_meta ingestion_status s = (Ok p', s1)
    ∧ Routes.get_page_detail page_id s1
      = (Ok (PageResponse.mk (Page.id p) (Page.issue_id p)
               (Page.page_number p) (Page.image_path p) (Some ocr_text)
               (replaced ocr_confidence (Page.ocr_confidence p))
               (replaced ocr_provider (Page.ocr_provider p))
               ingestion_status (Page.created_at p)), s2).
Proof.
  intros Hf Hp. unfold PageRepository.update_ocr. cbv zeta.
  destruct (page_update_written (Some ocr_text) ocr_confidence ocr_provider
              ocr_version ocr_meta (Some ingestion_status) _ page_id s r p
              (update_ocr_data_lookup ocr_text ocr_confidence ocr_provider
                 ocr_version ocr_meta ingestion_status))
    as (s1 & r' & H1 & H2 & H3 & _); [|exact Hf|exact Hp|].
  { apply (lookup_Some_nonempty _ "ocr_text" (PStr ocr_text)).
    by rewrite update_ocr_data_lookup. }
  eexists _, s1, _. split; [exact H1|].
  unfold Routes.get_page_detail. unfold_M.
  rewrite (get_by_id_one PageRepository.self page_id s1 r' _ H2
             (page_row_nonempty _ _ H3) H3).
  reflexivity.
Qed.

(** ** The statements above on the small stores *)

Lemma example_store_no_job_9 :
  List.filter (matches [("id", PStr "job-9")])
    (rows_of example_store "ingest_jobs") = [].
Proof.
  rewrite example_store_jobs. cbn [List.filter]. by eval_matches.
Qed.

Lemma update_missing_record_witness :
  (BaseRepository.update IngestJobRepository.self "job-9"
     {[ "status" := PStr "failed" ]} example_store).1
  = Raise (ValueError "Failed to update record job-9 in ingest_jobs")
  ∧ ∀ tn,
      rows_of (BaseRepository.update IngestJobRepository.self "job-9"
                 {[ "status" := PStr "failed" ]} example_store).2 tn
      = rows_of example_store tn.
Proof.
  apply (update_missing_record IngestJobRepository.self "job-9"
           {[ "status" := PStr "failed" ]} example_store).
  apply example_store_no_job_9.
Defined.

Lemma update_nothing_to_write_witness :
  BaseRepository.update IngestJobRepository.self "job-1"
    {[ "error_message" := PNone ]} example_store
  = (Raise (ValueError "Failed to update record job-1 in ingest_jobs"),
     log_request (ReqUpdate "ingest_jobs" ∅ [("id", PStr "job-1")])
       example_store).
Proof.
  apply (proj1 update_nothing_to_write _ IngestJobRepository.self "job-1"
           {[ "error_message" := PNone ]} example_store).
  intros k v Hk. apply lookup_singleton_Some in Hk as [_ <-]. reflexivity.
Defined.

Lemma example_browse_page_a :
  List.filter (matches [("id", PStr "page-a")])
    (rows_of example_browse_store "pages")
  = [example_page_row "page-a" "issue-1" 1].
Proof.
  rewrite example_browse_page_rows. cbn [List.filter]. by eval_matches.
Qed.

Lemma example_page_a_valid :
  Page.of_row (example_page_row "page-a" "issue-1" 1)
  = Some (example_page "page-a" 1).
Proof. reflexivity. Qed.

Lemma update_ocr_keeps_fields_not_given_witness :
  ∃ s' : db,
    PageRepository.update_ocr "page-a" "LOCAL NEWS" None (Some "tesseract")
      None None "ocr_completed" example_browse_store
    = (Ok (Page.mk "page-a" "issue-1" 1 "pages/page-a.png" (Some "LOCAL NEWS")
             None (Some "tesseract") None None "ocr_completed"
             "2024-01-15T10:00:00" "2024-01-15T10:00:00"), s').
Proof.
  destruct (update_ocr_keeps_fields_not_given example_browse_store "page-a"
              "LOCAL NEWS" None (Some "tesseract") None None "ocr_completed"
              _ _ example_browse_page_a example_page_a_valid)
    as (s' & r' & H & _).
  exists s'. exact H.
Defined.

Lemma update_status_writes_status_only_witness :
  ∃ s' : db,
    PageRepository.update_status "page-a" "ocr_failed" example_browse_store
    = (Ok (Page.mk "page-a" "issue-1" 1 "pages/page-a.png" None None None
             None None "ocr_failed" "2024-01-15T10:00:00"
             "2024-01-15T10:00:00"), s').
Proof.
  destruct (update_status_writes_status_only example_browse_store "page-a"
              "ocr_failed" _ _ example_browse_page_a example_page_a_valid)
    as (s' & r' & H & _).
  exists s'. exact H.
Defined.

Lemma get_page_detail_outcomes_witness :
  Routes.get_page_detail "page-a" example_browse_store
  = (Ok (PageResponse.mk "page-a" "issue-1" 1 "pages/page-a.png" None None
           None "pending" "2024-01-15T10:00:00"),
     log_request (ReqMaybeSingle "pages" [("id", PStr "page-a")])
       example_browse_store).
Proof.
  apply (proj2 (get_page_detail_outcomes example_browse_store "page-a")
           _ _ example_browse_page_a example_page_a_valid).
Defined.

Lemma example_issue_store_rows n :
  rows_of (example_issue_store n) "issues" = example_issue_row <$> seq 1 n.
Proof.
  unfold rows_of, example_issue_store. cbn [tables].
  by rewrite lookup_singleton_eq.
Qed.

Lemma example_issue_row_paper n :
  matches [("newspaper_id", PStr "paper-1")] (example_issue_row n) = true.
Proof.
  unfold matches, example_issue_row. cbn [forallb]. by lookup_inserts.
Qed.

Lemma example_issue_row_date n :
  example_issue_row n !! "issue_date"
  = Some (PStr ("1924-03-" +:+ pretty (10 + n)%nat)).
Proof. unfold example_issue_row. by lookup_inserts. Qed.

Lemma example_issues_of_paper n :
  List.filter (matches [("newspaper_id", PStr "paper-1")])
    (rows_of (example_issue_store n) "issues")
  = example_issue_row <$> seq 1 n.
Proof.
  rewrite example_issue_store_rows. generalize (seq 1 n).
  induction l as [|i l IH]; [done|].
  cbn [fmap list_fmap List.filter]. rewrite example_issue_row_paper.
  f_equal. exact IH.
Qed.

Lemma example_issues_of_paper_valid n :
  all_valid Issue.t
    (available_issues (example_issue_store n) (Some "paper-1")).
Proof.
  apply all_valid_query. rewrite example_issues_of_paper.
  apply Forall_fmap, Forall_forall. intros i _. eexists. reflexivity.
Qed.

Lemma example_issue_dates_distinct :
  issue_dates_distinct (example_issue_store 5) "paper-1".
Proof.
  unfold issue_dates_distinct. rewrite example_issues_of_paper.
  rewrite <- list_fmap_compose.
  rewrite (list_fmap_ext _
             (λ n, Some (PStr ("1924-03-" +:+ pretty (10 + n)%nat))))
    by (intros i n _; apply example_issue_row_date).
  vm_compute.
  repeat (apply NoDup_cons; split;
          [intros Hx;
           repeat (apply elem_of_cons in Hx as [Hx|Hx]; [discriminate Hx|]);
           by apply elem_of_nil in Hx|]).
  apply NoDup_nil_2.
Qed.

Lemma list_issues_consecutive_pages_witness :
  ∃ (page1 page2 : PaginatedIssuesResponse.t) (s1 s2 : db)
    (issues1 issues2 : list Issue.t),
    Routes.get_issues (Some 2) (Some 0) (Some "paper-1")
      (example_issue_store 5) = (Ok page1, s1)
    ∧ Routes.get_issues (Some 2) (Some (0 + 2)) (Some "paper-1") s1
      = (Ok page2, s2)
    ∧ (PaginatedIssuesResponse.has_more page1 = true
       ↔ PaginatedIssuesResponse.items page2 ≠ [])
    ∧ PaginatedIssuesResponse.items page1
      = IssueResponse.model_validate <$> issues1
    ∧ PaginatedIssuesResponse.items page2
      = IssueResponse.model_validate <$> issues2
    ∧ NoDup (Issue.issue_date <$> issues1 ++ issues2).
Proof.
  destruct (list_issues_consecutive_pages (example_issue_store 5) 2 0
              (Some "paper-1"))
    as (page1 & page2 & s1 & s2 & H1 & H2 & Hm & Ho).
  - lia.
  - lia.
  - apply example_issues_of_paper_valid.
  - destruct (Ho "paper-1" eq_refl example_issue_dates_distinct)
      as (issues1 & issues2 & Hi1 & Hi2 & _ & Hd).
    exists page1, page2, s1, s2, issues1, issues2.
    split; [exact H1|]. split; [exact H2|]. split; [exact Hm|].
    split; [exact Hi1|]. split; [exact Hi2|exact Hd].
Defined.

Lemma list_issues_total_bounds_witness :
  ∃ (page : PaginatedIssuesResponse.t) (s' : db),
    Routes.get_issues (Some 10) (Some 20) None (example_issue_store 11)
    = (Ok page, s')
    ∧ PaginatedIssuesResponse.items page = []
    ∧ PaginatedIssuesResponse.has_more page = false
    ∧ PaginatedIssuesResponse.total page = 20.
Proof.
  destruct (list_issues_total_bounds (example_issue_store 11) 10 20 None)
    as (page & s' & H1 & _ & Hbeyond).
  - lia.
  - lia.
  - apply example_issues_valid.
  - exists page, s'. split; [exact H1|]. apply Hbeyond.
    unfold Routes.len.
    rewrite example_issues_available, length_fmap, length_seq. lia.
Defined.

Lemma example_browse_issue_1 :
  List.filter (matches (issue_key "paper-1" "1924-03-11"))
    (rows_of example_browse_store "issues") = [example_issue_row 1].
Proof.
  rewrite example_browse_issues. cbn [List.filter]. by eval_matches.
Qed.

Lemma create_or_get_keeps_existing_witness :
  IssueRepository.create_or_get "paper-1" "1924-03-11" 12 "loc_batch"
    (Some "sn-1") None example_browse_store
  = (Ok example_issue_1,
     log_request
       (ReqMaybeSingle "issues" (issue_key "paper-1" "1924-03-11"))
       example_browse_store).
Proof.
  apply (proj1 (create_or_get_keeps_existing example_browse_store)
           "paper-1" "1924-03-11" 12 "loc_batch" (Some "sn-1") None
           (example_issue_row 1) example_issue_1 example_browse_issue_1).
  reflexivity.
Defined.

Lemma increment_progress_missing_job_witness :
  IngestJobRepository.increment_progress "job-9" 1 10 "ocr" None example_store
  = (Raise (ValueError "Job job-9 not found"),
     log_request (ReqMaybeSingle "ingest_jobs" [("id", PStr "job-9")])
       example_store).
Proof.
  apply (increment_progress_missing_job example_store "job-9" 1 10 "ocr" None).
  apply example_store_no_job_9.
Defined.

Lemma example_store_job_2 :
  List.filter (matches [("id", PStr "job-2")])
    (rows_of example_store "ingest_jobs")
  = [example_job_row "job-2" "processing" ∅].
Proof.
  rewrite example_store_jobs. cbn [List.filter]. by eval_matches.
Qed.

Lemma increment_progress_from_empty_witness :
  ∃ (s' : db) (r' : dict),
    IngestJobRepository.increment_progress "job-2" 1 10 "ocr"
      (Some "timeout") example_store
    = (Ok (IngestJob.mk "job-2" "key-job-2" None "processing"
             (first_progress 1 10 "ocr" (Some "timeout")) None
             "2024-01-15T10:00:00" "2024-01-15T10:00:00"), s')
    ∧ List.filter (matches [("id", PStr "job-2")]) (rows_of s' "ingest_jobs")
      = [r']
    ∧ r' !! "progress"
      = Some (PDict (first_progress 1 10 "ocr" (Some "timeout"))).
Proof.
  apply (increment_progress_from_empty example_store "job-2" 1 10 "ocr"
           (Some "timeout") (example_job_row "job-2" "processing" ∅)
           (IngestJob.mk "job-2" "key-job-2" None "processing" ∅ None
              "2024-01-15T10:00:00" "2024-01-15T10:00:00")).
  - apply example_store_job_2.
  - reflexivity.
  - reflexivity.
  - discriminate.
Defined.

Lemma example_odd_store_job_3 :
  List.filter (matches [("id", PStr "job-3")])
    (rows_of example_odd_store "ingest_jobs")
  = [example_job_row "job-3" "processing" {[ "pages_succeeded" := PStr "4" ]}].
Proof.
  unfold rows_of, example_odd_store. cbn [tables].
  rewrite lookup_singleton_eq. cbn [default List.filter]. by eval_matches.
Qed.

Lemma increment_progress_bad_counter_witness :
  ∃ msg : string,
    IngestJobRepository.increment_progress "job-3" 5 10 "ocr" None
      example_odd_store
    = (Raise (TypeError msg),
       log_request (ReqMaybeSingle "ingest_jobs" [("id", PStr "job-3")])
         example_odd_store).
Proof.
  apply (increment_progress_bad_counter example_odd_store "job-3" 5 10 "ocr"
           None
           (example_job_row "job-3" "processing"
              {[ "pages_succeeded" := PStr "4" ]})
           (IngestJob.mk "job-3" "key-job-3" None "processing"
              {[ "pages_succeeded" := PStr "4" ]} None
              "2024-01-15T10:00:00" "2024-01-15T10:00:00")
           (PStr "4")).
  - apply example_odd_store_job_3.
  - reflexivity.
  - reflexivity.
  - right. left. by exists "4".
  - discriminate.
Defined.

Lemma sequential_increments_all_count_witness :
  ∃ (s' : db) (r' : dict) (j' : IngestJob.t),
    increment_each "job-1"
      [mkCall 5 10 "ocr" None; mkCall 6 10 "ocr" (Some "timeout");
       mkCall 7 10 "ocr" None] example_store = (Ok (), s')
    ∧ List.filter (matches [("id", PStr "job-1")]) (rows_of s' "ingest_jobs")
      = [r']
    ∧ IngestJob.of_row r' = Some j'
    ∧ counter (IngestJob.progress j') "pages_succeeded" = PInt (4 + 2)
    ∧ counter (IngestJob.progress j') "pages_failed" = PInt (0 + 1).
Proof.
  destruct (sequential_increments_all_count
              [mkCall 5 10 "ocr" None; mkCall 6 10 "ocr" (Some "timeout");
               mkCall 7 10 "ocr" None]
              example_store "job-1" _ example_job 4 0 [] example_store_job_1)
    as (s' & r' & j' & l' & dropped & H1 & H2 & H3 & H4 & H5 & _).
  - reflexivity.
  - reflexivity.
  - reflexivity.
  - reflexivity.
  - repeat constructor; discriminate.
  - exists s', r', j'. split; [exact H1|]. split; [exact H2|].
    split; [exact H3|]. split; [exact H4|exact H5].
Defined.

Lemma update_job_then_get_by_id_witness :
  ∃ s1 s2 : db,
    IngestJobRepository.update_job "job-1" (Some "issue-1") None None
      (Some "late page") example_store
    = (Ok (IngestJob.mk "job-1" "key-job-1" (Some "issue-1") "completed"
             example_progress (Some "late page") "2024-01-15T10:00:00"
             "2024-01-15T10:00:00"), s1)
    ∧ BaseRepository.get_by_id IngestJobRepository.self "job-1" s1
      = (Ok (Some (IngestJob.mk "job-1" "key-job-1" (Some "issue-1")
                     "completed" example_progress (Some "late page")
                     "2024-01-15T10:00:00" "2024-01-15T10:00:00")), s2).
Proof.
  apply (update_job_then_get_by_id example_store "job-1" (Some "issue-1") None
           None (Some "late page") _ example_job example_store_job_1).
  - reflexivity.
  - by exists "issue_id", (PStr "issue-1").
Defined.

Lemma example_store_processing :
  List.filter (matches [("status", PStr "processing")])
    (rows_of example_store "ingest_jobs")
  = [example_job_row "job-2" "processing" ∅].
Proof.
  rewrite example_store_jobs. cbn [List.filter]. by eval_matches.
Qed.

Lemma list_by_status_only_that_status_witness :
  ∃ jobs : list IngestJob.t,
    (IngestJobRepository.list_by_status "processing" 10 0 example_store).1
    = Ok jobs
    ∧ Forall (λ j, IngestJob.status j = "processing") jobs
    ∧ length jobs = 1%nat.
Proof.
  destruct (proj1 (list_by_status_only_that_status example_store "processing"
                     10 0 ltac:(lia) ltac:(lia)))
    as (jobs & rows & H1 & _ & _ & H4 & H5).
  - rewrite example_store_processing. repeat constructor.
    eexists. reflexivity.
  - exists jobs. split; [by rewrite H1|]. split; [exact H4|].
    rewrite H5. unfold rows_with. by rewrite example_store_processing.
Defined.

Lemma example_store_no_key_9 :
  List.filter (matches [("idempotency_key", PStr "upload-9")])
    (rows_of example_store "ingest_jobs") = [].
Proof.
  rewrite example_store_jobs. cbn [List.filter]. by eval_matches.
Qed.

Lemma example_store_no_job_0 :
  List.filter (matches [("id", PStr "ingest_jobs-0")])
    (rows_of example_store "ingest_jobs") = [].
Proof.
  rewrite example_store_jobs. cbn [List.filter]. by eval_matches.
Qed.

Lemma create_then_get_by_id_witness :
  ∃ s1 s2 : db,
    BaseRepository.create IngestJobRepository.self
      (IngestJobCreate.mk "upload-9" "pending") example_store
    = (Ok (IngestJob.mk "ingest_jobs-0" "upload-9" None "pending"
             default_progress None "2024-02-01T00:00:00"
             "2024-02-01T00:00:00"), s1)
    ∧ BaseRepository.get_by_id IngestJobRepository.self "ingest_jobs-0" s1
      = (Ok (Some (IngestJob.mk "ingest_jobs-0" "upload-9" None "pending"
                     default_progress None "2024-02-01T00:00:00"
                     "2024-02-01T00:00:00")), s2).
Proof.
  destruct (create_then_get_by_id IngestJobRepository.self
              (IngestJobCreate.mk "upload-9" "pending") example_store
              "ingest_jobs-0"
              (IngestJob.mk "ingest_jobs-0" "upload-9" None "pending"
                 default_progress None "2024-02-01T00:00:00"
                 "2024-02-01T00:00:00"))
    as (s1 & s2 & H1 & _ & _ & H2).
  - apply (ingest_jobs_insert_allowed _ "upload-9");
      [reflexivity|apply example_store_no_key_9].
  - reflexivity.
  - reflexivity.
  - apply example_store_no_job_0.
  - exists s1, s2. split; [exact H1|exact H2].
Defined.

Lemma example_store_key_taken (d : dict) :
  violates_unique "ingest_jobs"
    (IngestJobCreate.model_dump_exclude_none
       (IngestJobCreate.mk "key-job-1" "pending") ∪ d)
    (rows_of example_store "ingest_jobs") = true.
Proof.
  unfold violates_unique.
  change (unique_constraints "ingest_jobs") with [["idempotency_key"]].
  rewrite example_store_jobs. cbn [existsb].
  rewrite !(conflicts_one_matches "idempotency_key" (PStr "key-job-1"))
    by (rewrite lookup_union;
        unfold IngestJobCreate.model_dump_exclude_none;
        cbn [IngestJobCreate.idempotency_key IngestJobCreate.status];
        lookup_inserts; by rewrite union_Some_l).
  by eval_matches.
Qed.

Lemma count_follows_create_and_delete_witness :
  let create key :=
    BaseRepository.create IngestJobRepository.self
      (IngestJobCreate.mk key "pending") example_store in
  (BaseRepository.count IngestJobRepository.self example_store).1 = Ok 2
  ∧ (BaseRepository.count IngestJobRepository.self (create "upload-9").2).1
    = Ok 3
  ∧ (∃ message : string, (create "key-job-1").1 = Raise (APIError message))
  ∧ (BaseRepository.count IngestJobRepository.self (create "key-job-1").2).1
    = Ok 2.
Proof.
  intros create.
  destruct (count_follows_create_and_delete (C := IngestJobCreate.t)
              IngestJobRepository.self example_store) as (H0 & Hc & _).
  change (BaseRepository.table_name IngestJobRepository.self)
    with "ingest_jobs" in H0, Hc.
  rewrite example_store_jobs in H0, Hc. cbn [length] in H0, Hc.
  split; [by rewrite H0|].
  destruct (Hc (IngestJobCreate.mk "upload-9" "pending")) as [Ha _].
  destruct (Hc (IngestJobCreate.mk "key-job-1" "pending")) as [_ Hr].
  split.
  - unfold create. rewrite Ha; [reflexivity|].
    rewrite <- example_store_jobs.
    apply (ingest_jobs_insert_allowed _ "upload-9");
      [reflexivity|apply example_store_no_key_9].
  - destruct Hr as [Hm Hn].
    { rewrite <- example_store_jobs. apply example_store_key_taken. }
    split; [exact Hm|]. unfold create. by rewrite Hn.
Defined.

Lemma create_with_key_then_get_by_key_witness :
  ∃ s1 s2 : db,
    IngestJobRepository.create_with_key "upload-9" "pending" example_store
    = (Ok (IngestJob.mk "ingest_jobs-0" "upload-9" None "pending"
             default_progress None "2024-02-01T00:00:00"
             "2024-02-01T00:00:00"), s1)
    ∧ IngestJobRepository.get_by_key "upload-9" s1
      = (Ok (Some (IngestJob.mk "ingest_jobs-0" "upload-9" None "pending"
                     default_progress None "2024-02-01T00:00:00"
                     "2024-02-01T00:00:00")), s2).
Proof.
  destruct (create_with_key_then_get_by_key example_store "upload-9" "pending"
              (IngestJob.mk "ingest_jobs-0" "upload-9" None "pending"
                 default_progress None "2024-02-01T00:00:00"
                 "2024-02-01T00:00:00"))
    as (s1 & s2 & H1 & _ & _ & H2).
  - apply example_store_no_key_9.
  - reflexivity.
  - exists s1, s2. split; [exact H1|exact H2].
Defined.

Lemma example_browse_no_herald :
  List.filter (matches (name_key "The Herald"))
    (rows_of example_browse_store "newspapers") = [].
Proof.
  rewrite example_browse_newspapers. cbn [List.filter]. by eval_matches.
Qed.

Lemma get_or_create_twice_same_newspaper_witness :
  ∃ (n : Newspaper.t) (s1 s2 : db),
    NewspaperRepository.get_or_create "The Herald" example_browse_store
    = (Ok n, s1)
    ∧ NewspaperRepository.get_or_create "The Herald" s1 = (Ok n, s2)
    ∧ Newspaper.name n = "The Herald"
    ∧ rows_with s1 "newspapers" (name_key "The Herald") = 1%nat
    ∧ rows_with s2 "newspapers" (name_key "The Herald") = 1%nat.
Proof.
  apply (get_or_create_twice_same_newspaper example_browse_store "The Herald").
  - unfold rows_with. rewrite example_browse_no_herald. simpl. lia.
  - rewrite example_browse_no_herald. constructor.
  - intros _. eexists. reflexivity.
Defined.


Lemma example_duplicate_gazettes :
  List.filter (matches (name_key "The Gazette"))
    (rows_of example_duplicate_store "newspapers")
  = [example_newspaper_row "paper-1" "The Gazette";
     example_newspaper_row "paper-2" "The Gazette"].
Proof.
  unfold rows_of, example_duplicate_store. cbn [tables].
  rewrite lookup_singleton_eq. cbn [default List.filter]. by eval_matches.
Qed.

Lemma duplicate_name_blocks_lookup_witness :
  ∃ msg : string,
    NewspaperRepository.get_or_create "The Gazette" example_duplicate_store
    = (Raise (APIError msg),
       log_request (ReqMaybeSingle "newspapers" (name_key "The Gazette"))
         example_duplicate_store)
    ∧ NewspaperRepository.get_by_name "The Gazette" example_duplicate_store
      = (Raise (APIError msg),
         log_request (ReqMaybeSingle "newspapers" (name_key "The Gazette"))
           example_duplicate_store).
Proof.
  apply (duplicate_name_blocks_lookup example_duplicate_store "The Gazette").
  unfold rows_with. rewrite example_duplicate_gazettes. simpl. lia.
Defined.

Lemma example_browse_no_issue_0401 :
  List.filter (matches (issue_key "paper-1" "1924-04-01"))
    (rows_of example_browse_store "issues") = [].
Proof.
  rewrite example_browse_issues. cbn [List.filter]. by eval_matches.
Qed.

Lemma concurrent_create_or_get_one_row_witness :
  ∃ (s' : db) (r' : dict),
    rtc (upsert_pool_step IssueRepository.self)
      ([issue_call "paper-1" "1924-04-01" 4 "upload" None None;
        issue_call "paper-1" "1924-04-01" 6 "loc_batch" (Some "sn-1") None],
       example_browse_store)
      ([CgReturned
          (Ok (Issue.mk "issues-7" "paper-1" "1924-04-01" 4 "upload" None None
                 "2024-02-01T00:00:00"));
        CgReturned
          (Ok (Issue.mk "issues-7" "paper-1" "1924-04-01" 6 "loc_batch"
                 (Some "sn-1") None "2024-02-01T00:00:00"))], s')
    ∧ List.filter (matches (issue_key "paper-1" "1924-04-01"))
        (rows_of s' "issues") = [r']
    ∧ rows_with s' "issues" (issue_key "paper-1" "1924-04-01") = 1%nat.
Proof.
  destruct (proj1 (concurrent_create_or_get_one_row example_browse_store)
              "paper-1" "1924-04-01" 4 "upload" None None
              6 "loc_batch" (Some "sn-1") None
              (Issue.mk "issues-7" "paper-1" "1924-04-01" 4 "upload" None None
                 "2024-02-01T00:00:00"))
    as (s' & r' & H1 & _ & H2 & _ & H3).
  - apply example_browse_no_issue_0401.
  - reflexivity.
  - exists s', r'. split; [exact H1|]. split; [exact H2|exact H3].
Defined.

Lemma cors_origins_list_of_join_witness :
  Settings.cors_origins_list
    (example_settings "http://localhost:5173,https://archive.example.org")
  = ["http://localhost:5173"; "https://archive.example.org"].
Proof.
  apply (cors_origins_list_of_join
           (example_settings
              "http://localhost:5173,https://archive.example.org")
           ["http://localhost:5173"; "https://archive.example.org"]).
  - discriminate.
  - repeat constructor; vm_compute; reflexivity.
  - reflexivity.
Defined.

Lemma update_job_twice_same_witness :
  ∃ (j' : IngestJob.t) (s1 s2 : db),
    IngestJobRepository.update_job "job-1" None (Some "failed") None
      (Some "boom") example_store = (Ok j', s1)
    ∧ IngestJobRepository.update_job "job-1" None (Some "failed") None
        (Some "boom") s1 = (Ok j', s2)
    ∧ ∀ tn, rows_of s2 tn = rows_of s1 tn.
Proof.
  apply (update_job_twice_same example_store "job-1" None (Some "failed") None
           (Some "boom") _ example_job example_store_job_1).
  - reflexivity.
  - by exists "status", (PStr "failed").
Defined.

Lemma update_ocr_then_page_detail_witness :
  ∃ (p' : Page.t) (s1 s2 : db),
    PageRepository.update_ocr "page-a" "LOCAL NEWS" None (Some "tesseract")
      None None "ocr_completed" example_browse_store = (Ok p', s1)
    ∧ Routes.get_page_detail "page-a" s1
      = (Ok (PageResponse.mk "page-a" "issue-1" 1 "pages/page-a.png"
               (Some "LOCAL NEWS") None (Some "tesseract") "ocr_completed"
               "2024-01-15T10:00:00"), s2).
Proof.
  apply (update_ocr_then_page_detail example_browse_store "page-a"
           "LOCAL NEWS" None (Some "tesseract") None None "ocr_completed"
           _ _ example_browse_page_a example_page_a_valid).
Defined.
